(** * data_loading: the data loader, the data manager and the augmenters

    A shallow embedding of [data_loading/data_loader.py],
    [data_loading/data_manager.py] and [data_loading/augmenter.py].

    Python integers are [Z]; [//] and [%] are [Z.div] and [Z.modulo]
    (both round towards minus infinity, the remainder takes the sign of
    the divisor).  A [dict] is an association list in insertion order.
    A call that may raise returns a [result]; code that mutates [self]
    is written in a state monad whose state is the object. *)

From Stdlib Require Import ZArith Lia.
From stdpp Require Import base numbers list strings.

Set Warnings "-register-all".
Local Open Scope Z_scope.

(** ** Python values and exceptions *)

Inductive exn : Type :=
| TypeError
| ValueError
| IndexError
| KeyError
| AttributeError
| AssertionError
| ZeroDivisionError
| RuntimeError
| StopIteration.

Inductive result (A : Type) : Type :=
| Ok (a : A)
| Raise (e : exn).

Arguments Ok {A} a.
Arguments Raise {A} e.

#[global] Instance exn_eq_dec : EqDecision exn.
Proof. solve_decision. Defined.

(** The values a sample can hold.  [PArray] is what [numpy.asarray]
    builds from a list; [PSelf] stands for a reference of a list to
    itself (the only cyclic value the loader could build). *)
Inductive pyval : Type :=
| PNone
| PInt (z : Z)
| PList (l : list pyval)
| PArray (l : list pyval)
| PSelf.

(** [dict]: keys in insertion order. *)
Definition pydict : Type := list (string * pyval).

Fixpoint dict_get (key : string) (d : pydict) : option pyval :=
  match d with
  | [] => None
  | (k, v) :: d' => if String.eqb key k then Some v else dict_get key d'
  end.

Definition dict_mem (key : string) (d : pydict) : bool :=
  match dict_get key d with Some _ => true | None => false end.

(** [d[key] = v]: overwrite in place, or append a new key. *)
Fixpoint dict_set (key : string) (v : pyval) (d : pydict) : pydict :=
  match d with
  | [] => [(key, v)]
  | (k, w) :: d' =>
      if String.eqb key k then (k, v) :: d' else (k, w) :: dict_set key v d'
  end.

(** [l[i]] on a Python list: a negative index counts from the end, an
    index out of range raises [IndexError]. *)
Definition py_getitem {A : Type} (l : list A) (i : Z) : result A :=
  let n := Z.of_nat (length l) in
  let j := if i <? 0 then i + n else i in
  if (j <? 0) || (n <=? j) then Raise IndexError
  else match l !! Z.to_nat j with
       | Some x => Ok x
       | None => Raise IndexError
       end.

(** ** data_loader.py *)

Module DataLoader.

Section WithDataset.

(** The dataset classes ([data_loading.dataset]) are not part of these
    sources: a dataset is any type with an indexing operation, and the
    two wrappers used by the constructor are taken as given. *)
Context {Dataset : Type}.
Variable dataset_getitem : Dataset -> Z -> result pydict.
Variable DictDataset : pydict -> Dataset.
Variable IterableDataset : list pyval -> Dataset.

(** What [__init__] can be handed as [data]. *)
Inductive data_arg : Type :=
| AnAbstractDataset (d : Dataset)
| ADict (d : pydict)
| AnIterable (l : list pyval)
| AnythingElse.

(** [_process_id] is [None] until it is assigned; a process id is an
    integer, the slot number a worker is started with. *)
Record t : Type := mk {
  _process_id : option Z;
  dataset : Dataset
}.

Definition __init__ (data : data_arg) : result t :=
  match data with
  | AnAbstractDataset d => Ok (mk None d)
  | ADict d => Ok (mk None (DictDataset d))
  | AnIterable l => Ok (mk None (IterableDataset l))
  | AnythingElse => Raise TypeError
  end.

(** [data = [self.dataset[idx] for idx in indices]].  The samples are
    held by value: each fetched sample is taken to be a dict of its
    own.  Where the dataset hands out one and the same dict for two of
    the indices, the loops below write into it once for each, which a
    list of values does not show; what [__call__] returns and what it
    raises is the same in both cases. *)
Fixpoint fetch_samples (self : t) (indices : list Z) : result (list pydict) :=
  match indices with
  | [] => Ok []
  | idx :: rest =>
      match dataset_getitem (dataset self) idx with
      | Raise e => Raise e
      | Ok sample =>
          match fetch_samples self rest with
          | Raise e => Raise e
          | Ok samples => Ok (sample :: samples)
          end
      end
  end.

(** The inner loop [for key, val in _result_dict.items()].  It reads
    [data_dict] and writes [_result_dict], the sample itself:
    [_result_dict[key]] is the object [val], so [append(val)] would add
    a list to itself. *)
Fixpoint concat_items (items : list (string * pyval))
    (data_dict _result_dict : pydict) : result pydict :=
  match items with
  | [] => Ok _result_dict
  | (key, val) :: rest =>
      if dict_mem key data_dict then
        match val with
        | PList l =>
            concat_items rest data_dict
              (dict_set key (PList (l ++ [PSelf])) _result_dict)
        | _ => Raise AttributeError
        end
      else
        concat_items rest data_dict (dict_set key (PList [val]) _result_dict)
  end.

(** The outer loop [for _result_dict in data]; returns the samples as
    the loop leaves them. *)
Fixpoint concat_samples (data : list pydict) (data_dict : pydict)
    : result (list pydict) :=
  match data with
  | [] => Ok []
  | _result_dict :: rest =>
      match concat_items _result_dict data_dict _result_dict with
      | Raise e => Raise e
      | Ok d' =>
          match concat_samples rest data_dict with
          | Raise e => Raise e
          | Ok rest' => Ok (d' :: rest')
          end
      end
  end.

(** [for key, val_list in data_dict.items():
       data_dict[key] = np.asarray(val_list)] *)
Definition np_asarray (v : pyval) : pyval :=
  match v with
  | PList l => PArray l
  | v => v
  end.

Definition to_arrays (data_dict : pydict) : pydict :=
  map (fun kv => (fst kv, np_asarray (snd kv))) data_dict.

(** The locals of [__call__] when it returns. *)
Record locals : Type := mk_locals {
  data : list pydict;
  data_dict : pydict
}.

(** [__call__]: the returned value together with the locals. *)
Definition __call__ (self : t) (indices : list Z) : result (pyval * locals) :=
  match fetch_samples self indices with
  | Raise e => Raise e
  | Ok data0 =>
      let data_dict0 : pydict := [] in
      match concat_samples data0 data_dict0 with
      | Raise e => Raise e
      | Ok data1 =>
          let data_dict1 := to_arrays data_dict0 in
          (* a bare [return] *)
          Ok (PNone, mk_locals data1 data_dict1)
      end
  end.

(** The [process_id] property. *)
Definition process_id (self : t) : Z :=
  match _process_id self with
  | None => 0
  | Some v => v
  end.

(** The [process_id] setter: the outcome and the object afterwards. *)
Definition set_process_id (self : t) (new_id : Z) : result unit * t :=
  match _process_id self with
  | Some _ => (Raise AttributeError, self)
  | None => (Ok tt, mk (Some new_id) (dataset self))
  end.

(** A run of assignments [self.process_id = v] for [v] in [new_ids]. *)
Fixpoint assign_all (self : t) (new_ids : list Z) : list (result unit) * t :=
  match new_ids with
  | [] => ([], self)
  | v :: rest =>
      let '(r, self') := set_process_id self v in
      let '(rs, self'') := assign_all self' rest in
      (r :: rs, self'')
  end.

End WithDataset.

Arguments t : clear implicits.
Arguments data_arg : clear implicits.

(** The batch the loader is documented to build, written from the
    specification's words: every field name of the samples mapped to the
    array of that field's values, in index order.  [None] when the
    samples disagree on their field names. *)
Fixpoint field_values (key : string) (samples : list pydict) : option (list pyval) :=
  match samples with
  | [] => Some []
  | s :: rest =>
      match dict_get key s, field_values key rest with
      | Some v, Some vs => Some (v :: vs)
      | _, _ => None
      end
  end.

Fixpoint stack_fields (keys : list string) (samples : list pydict) : option pydict :=
  match keys with
  | [] => Some []
  | k :: ks =>
      match field_values k samples, stack_fields ks samples with
      | Some vs, Some d => Some ((k, PArray vs) :: d)
      | _, _ => None
      end
  end.

Definition same_keys (samples : list pydict) : bool :=
  match samples with
  | [] => true
  | s :: rest =>
      forallb (fun s' => bool_decide (map fst s' = map fst s)) rest
  end.

Definition spec_batch (samples : list pydict) : option pydict :=
  match samples with
  | [] => Some []
  | s :: _ =>
      if same_keys samples then stack_fields (map fst s) samples else None
  end.

(** A two-sample dataset kept in a list, for evaluation. *)
Definition list_dataset : Type := list pydict.

Definition list_getitem (d : list_dataset) (i : Z) : result pydict :=
  py_getitem d i.

Definition two_samples : list_dataset :=
  [ [("data"%string, PInt 10); ("label"%string, PInt 0)];
    [("data"%string, PInt 20); ("label"%string, PInt 1)] ].

Definition two_sample_loader : t list_dataset := mk None two_samples.

End DataLoader.

(** ** data_manager.py *)

Module DataManager.

(** The fields [n_batches] reads.  [sampler_len] is [len(self.sampler)];
    the sampler classes are not part of these sources. *)
Record t : Type := mk {
  _batch_size : Z;
  drop_last : bool;
  sampler_len : Z
}.

Definition batch_size (self : t) : Z := _batch_size self.

Definition n_samples (self : t) : Z := sampler_len self.

(** [n // d] and [n % d] raise on a zero divisor. *)
Definition py_floordiv (n d : Z) : result Z :=
  if d =? 0 then Raise ZeroDivisionError else Ok (n / d).

Definition py_mod (n d : Z) : result Z :=
  if d =? 0 then Raise ZeroDivisionError else Ok (n mod d).

Definition n_batches (self : t) : result Z :=
  if negb (0 <? n_samples self) then Raise AssertionError
  else
    match py_floordiv (n_samples self) (batch_size self) with
    | Raise e => Raise e
    | Ok n_batches0 =>
        match py_mod (n_samples self) (batch_size self) with
        | Raise e => Raise e
        | Ok truncated_batch =>
            (* int(bool(truncated_batch) and not self.drop_last) *)
            let extra :=
              if negb (truncated_batch =? 0) then negb (drop_last self)
              else false in
            Ok (n_batches0 + Z.b2z extra)
        end
    end.

End DataManager.

(** ** augmenter.py *)

(** What a sampler yields and what travels over an index pipe: a single
    index or an index group. *)
Inductive pyidx : Type :=
| Idx (i : Z)
| Group (l : list Z).

(** The objects that reach an augmenter as [sampler].  The sampler
    classes are not part of these sources; an instance is described by
    what iterating it yields. *)
Inductive sampler_obj : Type :=
| ElementSampler (indices : list Z)
| BatchSamplerInstance (groups : list (list Z))
| BatchSamplerClass
| NotASampler.

(** [isinstance(sampler, BatchSampler)] and
    [isinstance(sampler, AbstractSampler)].  A class object is an instance
    of neither; the second test is only reached by objects that failed
    the first. *)
Definition isinstance_BatchSampler (s : sampler_obj) : bool :=
  match s with BatchSamplerInstance _ => true | _ => false end.

Definition isinstance_AbstractSampler (s : sampler_obj) : bool :=
  match s with ElementSampler _ | BatchSamplerInstance _ => true | _ => false end.

(** [iter(sampler)]: the items the iterator will yield.  A class object
    is not iterable. *)
Definition py_iter (s : sampler_obj) : result (list pyidx) :=
  match s with
  | ElementSampler l => Ok (map Idx l)
  | BatchSamplerInstance g => Ok (map Group g)
  | BatchSamplerClass => Raise TypeError
  | NotASampler => Raise TypeError
  end.

(** [for x in idxs]: an index group iterates over its indices, an
    integer is not iterable. *)
Definition py_items (idxs : pyidx) : result (list pyidx) :=
  match idxs with
  | Group l => Ok (map Idx l)
  | Idx _ => Raise TypeError
  end.

(** [range(n)] *)
Definition py_range (n : Z) : list Z := map Z.of_nat (seq 0 (Z.to_nat n)).

(** [l[i] = v] on a Python list. *)
Definition py_setitem {A : Type} (l : list A) (i : Z) (v : A) : result (list A) :=
  let n := Z.of_nat (length l) in
  let j := if i <? 0 then i + n else i in
  if (j <? 0) || (n <=? j) then Raise IndexError
  else Ok (<[Z.to_nat j := v]> l).

(** [l.pop()] *)
Definition py_pop {A : Type} (l : list A) : result (list A) :=
  match l with
  | [] => Raise IndexError
  | _ => Ok (removelast l)
  end.

(** [any(l)] on a list of integers. *)
Definition py_any (l : list Z) : bool := existsb (fun q => negb (q =? 0)) l.

Module AbstractAugmenter.

(** The fields the iteration reads.  [_data_loader] and [_transforms]
    are only handed on to the workers and are left out. *)
Record t : Type := mk {
  _sampler : sampler_obj;
  _drop_last : bool;
  _seed : Z
}.

(** [seed] is a seed that [numpy.random.seed] takes, an integer from 0
    to [2 ^ 32 - 1]: the seeding at the end of the constructor then
    returns and is left out.  For any other integer it raises
    ValueError and no augmenter is built. *)
Definition __init__ (sampler : sampler_obj) (seed : Z) (drop_last : bool)
    : result t :=
  if negb (isinstance_BatchSampler sampler) then
    if isinstance_AbstractSampler sampler then
      (* sampler = BatchSampler *)
      Ok (mk BatchSamplerClass drop_last seed)
    else Raise ValueError
  else Ok (mk sampler drop_last seed).

End AbstractAugmenter.

Module _ParallelAugmenter.

(** Where the abort flag is read. *)
Inductive site : Type :=
| InSetter
| InShutdown
| InLoop.

(** The calls the coordinator makes on processes, pipes, the abort
    event and the sampler, and the batches it yields.  Handles are
    numbers given out in creation order.  A call on a pipe is written
    down and taken to return; of the calls on a process the start is
    taken to return, and the close and the join of the shutdown are as
    [close_then_join] below has them. *)
Inductive event : Type :=
| EvStart (proc : nat) (process_id : Z)
| EvIsSet (at_ : site) (b : bool)
| EvEventSet
| EvNext (item : option pyidx)
| EvSend (conn : nat) (msg : option pyidx)
| EvRecv (conn : nat)
| EvYield (conn : nat)
| EvProcClose (proc : nat)
| EvProcJoin (proc : nat)
| EvIndexClose (conn : nat)
| EvDataClose (conn : nat).

(** The object, followed by three fields of the model: the calls made
    so far, the number of handles given out and the number of times the
    abort flag was read.  [_abort_event] is [None] before the first pool;
    afterwards it holds the state of the current event as last seen. *)
Record t : Type := mk {
  _sampler : sampler_obj;
  _num_processes : Z;
  _processes : list nat;
  _index_pipes : list nat;
  _data_pipes : list nat;
  _index_pipe_counter : Z;
  _data_pipe_counter : Z;
  _abort_event : option bool;
  _data_queued : list Z;
  _processes_running : bool;
  trace : list event;
  spawned : nat;
  reads : nat
}.

Definition with_processes (v : list nat) (s : t) : t :=
  mk (_sampler s) (_num_processes s) v (_index_pipes s) (_data_pipes s)
     (_index_pipe_counter s) (_data_pipe_counter s) (_abort_event s)
     (_data_queued s) (_processes_running s) (trace s) (spawned s) (reads s).

Definition with_index_pipes (v : list nat) (s : t) : t :=
  mk (_sampler s) (_num_processes s) (_processes s) v (_data_pipes s)
     (_index_pipe_counter s) (_data_pipe_counter s) (_abort_event s)
     (_data_queued s) (_processes_running s) (trace s) (spawned s) (reads s).

Definition with_data_pipes (v : list nat) (s : t) : t :=
  mk (_sampler s) (_num_processes s) (_processes s) (_index_pipes s) v
     (_index_pipe_counter s) (_data_pipe_counter s) (_abort_event s)
     (_data_queued s) (_processes_running s) (trace s) (spawned s) (reads s).

Definition with_index_pipe_counter (v : Z) (s : t) : t :=
  mk (_sampler s) (_num_processes s) (_processes s) (_index_pipes s)
     (_data_pipes s) v (_data_pipe_counter s) (_abort_event s)
     (_data_queued s) (_processes_running s) (trace s) (spawned s) (reads s).

Definition with_data_pipe_counter (v : Z) (s : t) : t :=
  mk (_sampler s) (_num_processes s) (_processes s) (_index_pipes s)
     (_data_pipes s) (_index_pipe_counter s) v (_abort_event s)
     (_data_queued s) (_processes_running s) (trace s) (spawned s) (reads s).

Definition with_abort_event (v : option bool) (s : t) : t :=
  mk (_sampler s) (_num_processes s) (_processes s) (_index_pipes s)
     (_data_pipes s) (_index_pipe_counter s) (_data_pipe_counter s) v
     (_data_queued s) (_processes_running s) (trace s) (spawned s) (reads s).

Definition with_data_queued (v : list Z) (s : t) : t :=
  mk (_sampler s) (_num_processes s) (_processes s) (_index_pipes s)
     (_data_pipes s) (_index_pipe_counter s) (_data_pipe_counter s)
     (_abort_event s) v (_processes_running s) (trace s) (spawned s) (reads s).

Definition with_processes_running (v : bool) (s : t) : t :=
  mk (_sampler s) (_num_processes s) (_processes s) (_index_pipes s)
     (_data_pipes s) (_index_pipe_counter s) (_data_pipe_counter s)
     (_abort_event s) (_data_queued s) v (trace s) (spawned s) (reads s).

Definition with_trace (v : list event) (s : t) : t :=
  mk (_sampler s) (_num_processes s) (_processes s) (_index_pipes s)
     (_data_pipes s) (_index_pipe_counter s) (_data_pipe_counter s)
     (_abort_event s) (_data_queued s) (_processes_running s) v (spawned s)
     (reads s).

Definition with_spawned (v : nat) (s : t) : t :=
  mk (_sampler s) (_num_processes s) (_processes s) (_index_pipes s)
     (_data_pipes s) (_index_pipe_counter s) (_data_pipe_counter s)
     (_abort_event s) (_data_queued s) (_processes_running s) (trace s) v
     (reads s).

Definition with_reads (v : nat) (s : t) : t :=
  mk (_sampler s) (_num_processes s) (_processes s) (_index_pipes s)
     (_data_pipes s) (_index_pipe_counter s) (_data_pipe_counter s)
     (_abort_event s) (_data_queued s) (_processes_running s) (trace s)
     (spawned s) v.

(** *** The monad of the methods

    A method takes the object and gives back an outcome and the object
    as it left it.  The outcome is [None] when the method does not
    return: a loop that ran out of the fuel it was given. *)
Definition M (A : Type) : Type := t -> option (result A) * t.

#[global] Instance M_ret : MRet M := fun A a s => (Some (Ok a), s).

#[global] Instance M_bind : MBind M := fun A B f m s =>
  match m s with
  | (Some (Ok a), s') => f a s'
  | (Some (Raise e), s') => (Some (Raise e), s')
  | (None, s') => (None, s')
  end.

Definition raise {A : Type} (e : exn) : M A := fun s => (Some (Raise e), s).
Definition hang {A : Type} : M A := fun s => (None, s).
Definition get : M t := fun s => (Some (Ok s), s).
Definition modify (f : t -> t) : M unit := fun s => (Some (Ok tt), f s).
Definition emit (ev : event) : M unit :=
  modify (fun s => with_trace (trace s ++ [ev]) s).
Definition lift {A : Type} (r : result A) : M A :=
  match r with Ok a => mret a | Raise e => raise e end.

(** [try: m except Exception as e: h e] *)
Definition try_except {A : Type} (m : M A) (h : exn -> M A) : M A := fun s =>
  match m s with
  | (Some (Raise e), s') => h e s'
  | r => r
  end.

(** [try: m finally: fin] *)
Definition try_finally {A : Type} (m : M A) (fin : M unit) : M A := fun s =>
  match m s with
  | (None, s') => (None, s')
  | (Some r, s') =>
      match fin s' with
      | (Some (Ok _), s'') => (Some r, s'')
      | (Some (Raise e), s'') => (Some (Raise e), s'')
      | (None, s'') => (None, s'')
      end
  end.

(** [for x in l: body x] *)
Fixpoint for_each {A : Type} (l : list A) (body : A -> M unit) : M unit :=
  match l with
  | [] => mret tt
  | x :: l' => body x;; for_each l' body
  end.

(** [_ParallelAugmenter.__init__]; [cpu_count] is [os.cpu_count()]. *)
Definition __init__ (sampler : sampler_obj) (num_processes : option Z)
    (cpu_count : Z) (seed : Z) (drop_last : bool) : result t :=
  match AbstractAugmenter.__init__ sampler seed drop_last with
  | Raise e => Raise e
  | Ok base =>
      let num_processes :=
        match num_processes with None => cpu_count | Some n => n end in
      Ok (mk (AbstractAugmenter._sampler base) num_processes [] [] [] 0 0 None
             [] false [] 0%nat 0%nat)
  end.

Section Coordinator.

(** The workers run on their own; all the coordinator sees of them is
    the abort flag.  [worker_abort k] tells whether a worker has set
    the flag by the time the coordinator reads it for the [k]-th time
    (counting from 0).  A [recv] on a pipe with a pending batch is taken
    to return. *)
Variable worker_abort : nat -> bool.

(** [self._abort_event.is_set()] *)
Definition is_set (at_ : site) : M bool :=
  s ← get;
  match _abort_event s with
  | None => raise AttributeError
  | Some b =>
      let b' := b || worker_abort (reads s) in
      modify (fun s => with_reads (S (reads s)) (with_abort_event (Some b') s));;
      emit (EvIsSet at_ b');;
      mret b'
  end.

(** [self._abort_event.set()] *)
Definition event_set : M unit :=
  s ← get;
  match _abort_event s with
  | None => raise AttributeError
  | Some _ => modify (with_abort_event (Some true));; emit EvEventSet
  end.

(** The [abort_event] setter, called with a fresh event. *)
Definition set_abort_event : M unit :=
  s ← get;
  match _abort_event s with
  | None => mret tt
  | Some _ =>
      b ← is_set InSetter;
      if negb b then event_set else mret tt
  end;;
  modify (with_abort_event (Some false)).

(** One turn of the loop of [_start_processes]. *)
Definition start_worker (i : Z) : M unit :=
  s ← get;
  let h := spawned s in
  modify (with_spawned (S h));;
  emit (EvStart h i);;
  modify (fun s => with_processes (_processes s ++ [h]) s);;
  modify (fun s => with_index_pipes (_index_pipes s ++ [h]) s);;
  modify (fun s => with_data_pipes (_data_pipes s ++ [h]) s);;
  modify (fun s => with_data_queued (_data_queued s ++ [0]) s);;
  modify (with_processes_running true).

Definition _start_processes : M unit :=
  set_abort_event;;
  s ← get;
  for_each (py_range (_num_processes s)) start_worker.

(** [_process.close()] followed by [_process.join()].  [close] raises
    ValueError on a process that is still running; on a process that
    has ended it closes the process object, and the [join] of a closed
    process object raises ValueError.  So the pair never returns,
    whatever the worker has done by then.  The call of [close] is
    written down; the [join], where it is reached at all, raises at
    once and is not. *)
Definition close_then_join (_process : nat) : M unit :=
  emit (EvProcClose _process);;
  raise ValueError.

(** The loop of [_shutdown_processes]: [zip] reads position [i] of the
    three lists, which the body would shorten from the end. *)
Fixpoint shutdown_loop (fuel : nat) (i : nat) : M unit :=
  match fuel with
  | O => hang
  | S fuel' =>
      s ← get;
      match _data_pipes s !! i, _index_pipes s !! i, _processes s !! i with
      | Some _data_conn, Some _index_conn, Some _process =>
          emit (EvSend _index_conn None);;
          close_then_join _process;;
          emit (EvIndexClose _index_conn);;
          emit (EvDataClose _data_conn);;
          s ← get;
          l ← lift (py_pop (_data_pipes s)); modify (with_data_pipes l);;
          l ← lift (py_pop (_data_queued s)); modify (with_data_queued l);;
          l ← lift (py_pop (_index_pipes s)); modify (with_index_pipes l);;
          l ← lift (py_pop (_processes s)); modify (with_processes l);;
          shutdown_loop fuel' (S i)
      | _, _, _ => mret tt
      end
  end.

Definition _shutdown_processes : M unit :=
  b ← is_set InShutdown;
  (if negb b then event_set else mret tt);;
  s ← get;
  shutdown_loop (S (length (_data_pipes s))) 0;;
  modify (with_processes_running false);;
  modify (with_data_pipe_counter 0);;
  modify (with_index_pipe_counter 0).

Definition py_mod (n d : Z) : result Z :=
  if d =? 0 then Raise ZeroDivisionError else Ok (n mod d).

Definition _next_index_pipe : M Z :=
  s ← get;
  let ctr := _index_pipe_counter s in
  new_ctr ← lift (py_mod (_index_pipe_counter s + 1) (_num_processes s));
  modify (with_index_pipe_counter new_ctr);;
  mret ctr.

Definition _next_data_pipe : M Z :=
  s ← get;
  let ctr := _data_pipe_counter s in
  new_ctr ← lift (py_mod (_data_pipe_counter s + 1) (_num_processes s));
  modify (with_data_pipe_counter new_ctr);;
  mret ctr.

(** The body of the loop of [_enqueue_indices]. *)
Definition enqueue_one (idxs : pyidx) : M unit :=
  index_pipe_ctr ← _next_index_pipe;
  s ← get;
  q ← lift (py_getitem (_data_queued s) index_pipe_ctr);
  l ← lift (py_setitem (_data_queued s) index_pipe_ctr (q + 1));
  modify (with_data_queued l);;
  conn ← lift (py_getitem (_index_pipes s) index_pipe_ctr);
  emit (EvSend conn (Some idxs)).

Definition _enqueue_indices (sample_idxs : list pyidx) : M unit :=
  for_each sample_idxs enqueue_one.

(** [while not self._data_queued[_data_pipe]:
       _data_pipe = self._next_data_pipe] *)
Fixpoint skip_empty (fuel : nat) (_data_pipe : Z) : M Z :=
  match fuel with
  | O => hang
  | S fuel' =>
      s ← get;
      q ← lift (py_getitem (_data_queued s) _data_pipe);
      if q =? 0 then
        _data_pipe ← _next_data_pipe;
        skip_empty fuel' _data_pipe
      else mret _data_pipe
  end.

(** [_receive_data]; the batch is named by the pipe it came from. *)
Definition _receive_data (fuel : nat) : M nat :=
  _data_pipe ← _next_data_pipe;
  _data_pipe ← skip_empty fuel _data_pipe;
  s ← get;
  conn ← lift (py_getitem (_data_pipes s) _data_pipe);
  emit (EvRecv conn);;
  q ← lift (py_getitem (_data_queued s) _data_pipe);
  l ← lift (py_setitem (_data_queued s) _data_pipe (q - 1));
  modify (with_data_queued l);;
  mret conn.

(** [next(sampler_iter)] *)
Definition next_item (sampler_iter : list pyidx)
    : M (option pyidx * list pyidx) :=
  match sampler_iter with
  | [] => emit (EvNext None);; mret (None, [])
  | idxs :: rest => emit (EvNext (Some idxs));; mret (Some idxs, rest)
  end.

(** The buffer loop of [__iter__]: at most [n] items are taken from
    the sampler; gives [_indices], the iterator and [all_sampled]. *)
Fixpoint fill_buffer (n : nat) (sampler_iter _indices : list pyidx)
    : M (list pyidx * list pyidx * bool) :=
  match n with
  | O => mret (_indices, sampler_iter, false)
  | S n' =>
      '(item, sampler_iter) ← next_item sampler_iter;
      match item with
      | None => mret (_indices, sampler_iter, true)
      | Some idxs => fill_buffer n' sampler_iter (_indices ++ [idxs])
      end
  end.

(** The [while True] loop of [__iter__]. *)
Fixpoint main_loop (fuel : nat) (sampler_iter : list pyidx)
    (all_sampled : bool) : M unit :=
  match fuel with
  | O => hang
  | S fuel' =>
      b ← is_set InLoop;
      if b : bool then raise RuntimeError
      else
        '(sampler_iter, all_sampled) ←
          (if negb all_sampled then
             '(item, sampler_iter) ← next_item sampler_iter;
             match item with
             | None => mret (sampler_iter, true)
             | Some idxs =>
                 items ← lift (py_items idxs);
                 _enqueue_indices items;;
                 mret (sampler_iter, false)
             end
           else mret (sampler_iter, all_sampled)) : M (list pyidx * bool);
        s ← get;
        if py_any (_data_queued s) then
          data ← _receive_data fuel;
          emit (EvYield data);;
          main_loop fuel' sampler_iter all_sampled
        else mret tt
  end.

(** The [try] block of [__iter__]. *)
Definition iter_try (fuel : nat) (sampler_iter : list pyidx) : M unit :=
  s ← get;
  '(_indices, sampler_iter, all_sampled) ←
    fill_buffer (Z.to_nat (_num_processes s * 2)) sampler_iter [];
  _enqueue_indices _indices;;
  main_loop fuel sampler_iter all_sampled.

(** Its [except Exception as e] clause. *)
Definition iter_except (e : exn) : M unit :=
  event_set;; raise e.

(** Its [finally] clause. *)
Definition iter_finally : M unit :=
  s ← get;
  if _processes_running s then _shutdown_processes else mret tt.

(** [__iter__], run until the generator is exhausted or raises. *)
Definition __iter__ (fuel : nat) : M unit :=
  _start_processes;;
  _index_pipe ← _next_index_pipe;
  s ← get;
  sampler_iter ← lift (py_iter (_sampler s));
  try_finally
    (try_except (iter_try fuel sampler_iter) iter_except)
    iter_finally.

End Coordinator.

(** The object [__init__] builds. *)
Definition fresh (sampler : sampler_obj) (num_processes : Z) : t :=
  mk sampler num_processes [] [] [] 0 0 None [] false [] 0%nat 0%nat.

(** A pass over a new augmenter. *)
Definition first_pass (worker_abort : nat -> bool) (fuel : nat)
    (sampler : sampler_obj) (num_processes : Z) : option (result unit) * t :=
  __iter__ worker_abort fuel (fresh sampler num_processes).

(** One request per index group and one dispatch per index in it. *)
Definition groups_weight (groups : list (list Z)) : nat :=
  foldr (fun g acc => (S (length g) + acc)%nat) 0%nat groups.

(** Fuel that lets a pass over [groups] come to its end. *)
Definition pass_fuel (num_processes : Z) (groups : list (list Z)) : nat :=
  (3 * Z.to_nat num_processes + groups_weight groups + 2)%nat.

(** *** Reading a trace *)

(** The index groups handed to workers, with the pipe each went to. *)
Fixpoint dispatches (tr : list event) : list (nat * pyidx) :=
  match tr with
  | [] => []
  | EvSend conn (Some idxs) :: tr' => (conn, idxs) :: dispatches tr'
  | _ :: tr' => dispatches tr'
  end.

(** What the sampler was asked for and gave. *)
Fixpoint requests (tr : list event) : list (option pyidx) :=
  match tr with
  | [] => []
  | EvNext item :: tr' => item :: requests tr'
  | _ :: tr' => requests tr'
  end.

(** The flag checks of the main loop and the yields, in order. *)
Inductive loop_event : Type :=
| Checked (b : bool)
| Yielded.

Fixpoint loop_events (tr : list event) : list loop_event :=
  match tr with
  | [] => []
  | EvIsSet InLoop b :: tr' => Checked b :: loop_events tr'
  | EvYield _ :: tr' => Yielded :: loop_events tr'
  | _ :: tr' => loop_events tr'
  end.

(** [k] turns of the loop that each checked the flag, found it clear
    and yielded a batch. *)
Fixpoint clear_turns (k : nat) : list loop_event :=
  match k with
  | O => []
  | S k' => Checked false :: Yielded :: clear_turns k'
  end.

Fixpoint count_events (p : event -> bool) (tr : list event) : Z :=
  match tr with
  | [] => 0
  | ev :: tr' => (if p ev then 1 else 0) + count_events p tr'
  end.

Definition is_dispatch_to (conn : nat) (ev : event) : bool :=
  match ev with
  | EvSend c (Some _) => Nat.eqb c conn
  | _ => false
  end.

Definition is_recv_from (conn : nat) (ev : event) : bool :=
  match ev with
  | EvRecv c => Nat.eqb c conn
  | _ => false
  end.

(** Index groups sent to a worker and not yet answered by a batch. *)
Definition pending (tr : list event) (conn : nat) : Z :=
  count_events (is_dispatch_to conn) tr - count_events (is_recv_from conn) tr.

(** Whether a call was made at all. *)
Definition occurs (p : event -> bool) (tr : list event) : bool := existsb p tr.

Definition is_join (proc : nat) (ev : event) : bool :=
  match ev with EvProcJoin q => Nat.eqb q proc | _ => false end.

Definition is_sentinel_to (conn : nat) (ev : event) : bool :=
  match ev with EvSend c None => Nat.eqb c conn | _ => false end.

Definition is_index_close (conn : nat) (ev : event) : bool :=
  match ev with EvIndexClose c => Nat.eqb c conn | _ => false end.

Definition is_data_close (conn : nat) (ev : event) : bool :=
  match ev with EvDataClose c => Nat.eqb c conn | _ => false end.

(** The calls that belong to the shutdown of a pool: reading and
    setting the abort flag, the sentinel, and closing and joining. *)
Definition is_shutdown_call (ev : event) : bool :=
  match ev with
  | EvIsSet InShutdown _ | EvEventSet | EvSend _ None
  | EvProcClose _ | EvProcJoin _ | EvIndexClose _ | EvDataClose _ => true
  | _ => false
  end.

(** *** Enqueue and receive in any order *)

Inductive op : Type :=
| OpEnqueue (sample_idxs : list pyidx)
| OpReceive.

Definition run_op (fuel : nat) (o : op) : M unit :=
  match o with
  | OpEnqueue sample_idxs => _enqueue_indices sample_idxs
  | OpReceive => _receive_data fuel;; mret tt
  end.

Definition run_ops (fuel : nat) (ops : list op) : M unit :=
  for_each ops (run_op fuel).

(** The pool as [_start_processes] leaves a new augmenter. *)
Definition started (worker_abort : nat -> bool) (sampler : sampler_obj)
    (num_processes : Z) : t :=
  snd (_start_processes worker_abort (fresh sampler num_processes)).

(** The pool as [__iter__] has it when it enters its guarded block:
    started, and with the dispatch cursor read once. *)
Definition entered (worker_abort : nat -> bool) (sampler : sampler_obj)
    (num_processes : Z) : t :=
  snd (_next_index_pipe (started worker_abort sampler num_processes)).

(** The guarded block of [__iter__] with its [except] clause, run from
    the pool as a first pass over a batch sampler enters it. *)
Definition guarded (worker_abort : nat -> bool) (fuel : nat)
    (groups : list (list Z)) (num_processes : Z)
    : option (result unit) * t :=
  try_except (iter_try worker_abort fuel (map Group groups)) iter_except
    (entered worker_abort (BatchSamplerInstance groups) num_processes).

(** What the [finally] clause of a first pass makes of the pool [g]
    that the guarded block left: the flag is read and, if clear, set,
    the sentinel is sent to the first worker and [close] is called on
    its process.  Nothing else of the pool changes. *)
Definition after_shutdown (worker_abort : nat -> bool) (g : t) : t :=
  let b :=
    match _abort_event g with Some b0 => b0 | None => false end
    || worker_abort (reads g) in
  with_trace
    (trace g
     ++ [EvIsSet InShutdown b]
     ++ (if b then [] else [EvEventSet])
     ++ [EvSend 0%nat None; EvProcClose 0%nat])
    (with_reads (S (reads g)) (with_abort_event (Some true) g)).

(** The sends that enqueuing [sample_idxs] makes when the dispatch
    cursor is at [ctr], in a pool whose pipe at slot [i] has handle [i]. *)
Fixpoint round_robin (num_processes ctr : Z) (sample_idxs : list pyidx)
    : list event :=
  match sample_idxs with
  | [] => []
  | idxs :: rest =>
      EvSend (Z.to_nat ctr) (Some idxs)
      :: round_robin num_processes ((ctr + 1) mod num_processes) rest
  end.

(** The sum of the pending counters. *)
Definition queued_total (l : list Z) : Z := foldr Z.add 0 l.

(** The fields that dispatch and collection leave alone. *)
Definition same_frame (s s' : t) : Prop :=
  _sampler s' = _sampler s
  /\ _num_processes s' = _num_processes s
  /\ _processes s' = _processes s
  /\ _abort_event s' = _abort_event s
  /\ _processes_running s' = _processes_running s
  /\ spawned s' = spawned s
  /\ reads s' = reads s.

(** The fields that a turn of the main loop leaves alone. *)
Definition same_pool (s s' : t) : Prop :=
  _sampler s' = _sampler s
  /\ _num_processes s' = _num_processes s
  /\ _processes s' = _processes s
  /\ _processes_running s' = _processes_running s
  /\ spawned s' = spawned s.

(** The starts of [n] workers, the first with handle [h] and process
    id [i]. *)
Fixpoint start_events (h i n : nat) : list event :=
  match n with
  | O => []
  | S n' => EvStart h (Z.of_nat i) :: start_events (S h) (S i) n'
  end.

(** The requests of the buffer loop for [n] items from a sampler that
    yields [groups]. *)
Fixpoint buffer_requests (n : nat) (groups : list (list Z)) : list event :=
  match n with
  | O => []
  | S n' =>
      match groups with
      | [] => [EvNext None]
      | g :: groups' => EvNext (Some (Group g)) :: buffer_requests n' groups'
      end
  end.

(** What is left to do in the main loop: the batches pending, the
    index groups not yet requested with their indices, and the request
    that finds the sampler exhausted. *)
Definition loop_measure (s : t) (groups : list (list Z)) (all_sampled : bool)
    : nat :=
  (Z.to_nat (queued_total (_data_queued s))
   + groups_weight groups
   + (if all_sampled then 0 else 1))%nat.

(** *** What holds of a running pool

    [offset] is the slot the first dispatch of the pool goes to. *)

Record pool_ok (offset : Z) (s : t) : Prop := {
  ok_num : 0 < _num_processes s;
  ok_queued : Z.of_nat (length (_data_queued s)) = _num_processes s;
  ok_index_pipes : _index_pipes s = seq 0 (length (_data_queued s));
  ok_data_pipes : _data_pipes s = seq 0 (length (_data_queued s));
  ok_index_ctr : 0 <= _index_pipe_counter s < _num_processes s;
  ok_data_ctr : 0 <= _data_pipe_counter s < _num_processes s;
  ok_pending : forall (i : nat) (q : Z),
      _data_queued s !! i = Some q -> q = pending (trace s) i /\ 0 <= q;
  ok_cursor :
    _index_pipe_counter s
    = (offset + Z.of_nat (length (dispatches (trace s))))
      mod _num_processes s;
  ok_slots : forall (k conn : nat) (idxs : pyidx),
      dispatches (trace s) !! k = Some (conn, idxs) ->
      conn = Z.to_nat ((offset + Z.of_nat k) mod _num_processes s)
}.

End _ParallelAugmenter.

Module _SequentialAugmenter.

Section WithLoader.

(** [self._data_loader(idxs)] followed by the transforms, if any, as
    one function of the indices. *)
Context {Batch : Type}.
Variable load : pyidx -> result Batch.

Definition __init__ (sampler : sampler_obj) (seed : Z) (drop_last : bool)
    : result AbstractAugmenter.t :=
  AbstractAugmenter.__init__ sampler seed drop_last.

(** The loop of [__iter__]: the batches yielded and how the loop ends. *)
Fixpoint iterate (sampler_iter : list pyidx) : list Batch * result unit :=
  match sampler_iter with
  | [] => ([], Ok tt)
  | idxs :: rest =>
      match load idxs with
      | Raise e => ([], Raise e)
      | Ok data => let '(later, r) := iterate rest in (data :: later, r)
      end
  end.

Definition __iter__ (self : AbstractAugmenter.t) : list Batch * result unit :=
  match py_iter (AbstractAugmenter._sampler self) with
  | Raise e => ([], Raise e)
  | Ok sampler_iter => iterate sampler_iter
  end.

End WithLoader.

End _SequentialAugmenter.

Module Augmenter.

(** [self._augmenter] *)
Inductive t : Type :=
| Sequential (a : AbstractAugmenter.t)
| Parallel (a : _ParallelAugmenter.t).

(** [debug_mode] is [get_current_debug_mode()]. *)
Definition _resolve_augmenter_cls (debug_mode : bool)
    (num_processes : option Z) (cpu_count : Z) (sampler : sampler_obj)
    (seed : Z) (drop_last : bool) : result t :=
  if debug_mode || match num_processes with Some 0 => true | _ => false end
  then
    match _SequentialAugmenter.__init__ sampler seed drop_last with
    | Raise e => Raise e
    | Ok a => Ok (Sequential a)
    end
  else
    match _ParallelAugmenter.__init__ sampler num_processes cpu_count seed
            drop_last with
    | Raise e => Raise e
    | Ok a => Ok (Parallel a)
    end.

Definition __init__ (debug_mode : bool) (num_processes : option Z)
    (cpu_count : Z) (sampler : sampler_obj) (seed : Z) (drop_last : bool)
    : result t :=
  _resolve_augmenter_cls debug_mode num_processes cpu_count sampler seed
    drop_last.

(** The sampler the chosen augmenter iterates over. *)
Definition sampler_used (self : t) : sampler_obj :=
  match self with
  | Sequential a => AbstractAugmenter._sampler a
  | Parallel a => _ParallelAugmenter._sampler a
  end.

End Augmenter.

(** ** Loading a batch

    What a worker and the sequential augmenter do with the indices they
    are handed: [data = self._data_loader(idxs)], and then, when
    transforms are given, a call of the transforms with [data] unpacked
    into keyword arguments. *)

(** What the inner loop of the loader leaves of a sample: every value
    wrapped into a list of its own. *)
Definition wrap_fields (sample : pydict) : pydict :=
  map (fun kv => (fst kv, PList [snd kv])) sample.

(** A transform ([batchgenerators.transforms.AbstractTransform], not
    part of these sources) takes the fields of a batch as keyword
    arguments and returns the transformed batch. *)
Definition transform : Type := pydict -> result pyval.

(** The call of the transforms with [data] unpacked: unpacking needs a
    mapping, and neither [None] nor an integer, a list or an array is
    one. *)
Definition call_with_kwargs (transforms : transform) (data : pyval)
    : result pyval :=
  match data with
  | PNone | PInt _ | PList _ | PArray _ | PSelf => Raise TypeError
  end.

Section Loading.

Context {Dataset : Type}.
Variable dataset_getitem : Dataset -> Z -> result pydict.

(** [self._data_loader(idxs)].  The loader iterates over its argument,
    and a bare integer is not iterable. *)
Definition call_loader (data_loader : DataLoader.t Dataset) (idxs : pyidx)
    : result pyval :=
  match idxs with
  | Idx _ => Raise TypeError
  | Group indices =>
      match DataLoader.__call__ dataset_getitem data_loader indices with
      | Raise e => Raise e
      | Ok (data, _) => Ok data
      end
  end.

Definition load (data_loader : DataLoader.t Dataset)
    (transforms : option transform) (idxs : pyidx) : result pyval :=
  match call_loader data_loader idxs with
  | Raise e => Raise e
  | Ok data =>
      match transforms with
      | None => Ok data
      | Some f => call_with_kwargs f data
      end
  end.

(** Whether the dataset has a sample for every index of a group. *)
Definition fetch_ok (data_loader : DataLoader.t Dataset) (indices : list Z)
    : bool :=
  match DataLoader.fetch_samples dataset_getitem data_loader indices with
  | Ok _ => true
  | Raise _ => false
  end.

End Loading.

(** ** augmenter.py, the worker process *)

Module _WorkerProcess.

(** What a turn of the worker's loop meets: the abort event set; the
    event clear and no message within the timeout of [poll]; the event
    clear and a message, [None] being the sentinel.  The calls on the
    pipes are taken to return. *)
Inductive turn : Type :=
| AbortSeen
| PollTimeout
| Received (idxs : option pyidx).

Section WithDataset.

Context {Dataset : Type}.
Variable dataset_getitem : Dataset -> Z -> result pydict.

(** The worker has its own copy of the data loader.  [sent] is what it
    has put on its output pipe, [abort_set] whether it has set the abort
    event itself. *)
Record t : Type := mk {
  _data_loader : DataLoader.t Dataset;
  _process_id : Z;
  _transforms : option transform;
  sent : list pyval;
  abort_set : bool
}.

Definition __init__ (dataloader : DataLoader.t Dataset)
    (transforms : option transform) (process_id : Z) : t :=
  mk dataloader process_id transforms [] false.

Definition with_data_loader (dl : DataLoader.t Dataset) (self : t) : t :=
  mk dl (_process_id self) (_transforms self) (sent self) (abort_set self).

Definition with_sent (l : list pyval) (self : t) : t :=
  mk (_data_loader self) (_process_id self) (_transforms self) l
     (abort_set self).

Definition with_abort_set (b : bool) (self : t) : t :=
  mk (_data_loader self) (_process_id self) (_transforms self) (sent self) b.

(** The [while True] loop, one turn per element of [turns].  The
    outcome is [None] when the turns run out with the worker still
    waiting. *)
Fixpoint run_loop (turns : list turn) (self : t)
    : option (result unit) * t :=
  match turns with
  | [] => (None, self)
  | AbortSeen :: _ => (Some (Raise RuntimeError), self)
  | PollTimeout :: rest => run_loop rest self
  | Received None :: _ => (Some (Ok tt), self)
  | Received (Some idxs) :: rest =>
      match load dataset_getitem (_data_loader self) (_transforms self) idxs
      with
      | Raise e => (Some (Raise e), self)
      | Ok data => run_loop rest (with_sent (sent self ++ [data]) self)
      end
  end.

(** [run]: the process id is assigned before the guarded block is
    entered; an exception inside the block sets the abort event and is
    raised again. *)
Definition run (turns : list turn) (self : t) : option (result unit) * t :=
  match DataLoader.set_process_id (_data_loader self) (_process_id self) with
  | (Raise e, _) => (Some (Raise e), self)
  | (Ok _, dl) =>
      match run_loop turns (with_data_loader dl self) with
      | (Some (Raise e), self') => (Some (Raise e), with_abort_set true self')
      | (r, self') => (r, self')
      end
  end.

End WithDataset.

Arguments t : clear implicits.

(** The messages with indices that are received before the first
    sentinel. *)
Fixpoint requests_before_sentinel (turns : list turn) : nat :=
  match turns with
  | [] => 0
  | Received None :: _ => 0
  | Received (Some _) :: rest => S (requests_before_sentinel rest)
  | _ :: rest => requests_before_sentinel rest
  end.

End _WorkerProcess.

(** ** data_manager.py, the batch generator *)

(** A data manager with the fields [get_batchgen] reads besides those
    of [n_batches]. *)
Record manager : Type := mk_manager {
  base : DataManager.t;
  _n_process_augmentation : Z;
  sampler : sampler_obj
}.

(** The [n_process_augmentation] property; [debug_mode] is
    [get_current_debug_mode()]. *)
Definition n_process_augmentation (debug_mode : bool) (self : manager) : Z :=
  if debug_mode then 1 else _n_process_augmentation self.

(** [get_batchgen].  The queues it builds are dropped again, and the
    data loader is built from a dataset, which its constructor accepts;
    what is left is the assertion and the augmenter. *)
Definition get_batchgen (debug_mode : bool) (cpu_count : Z) (self : manager)
    (seed : Z) : result Augmenter.t :=
  match DataManager.n_batches (base self) with
  | Raise e => Raise e
  | Ok n =>
      if negb (0 <? n) then Raise AssertionError
      else
        Augmenter.__init__ debug_mode
          (Some (n_process_augmentation debug_mode self)) cpu_count
          (sampler self) seed (DataManager.drop_last (base self))
  end.

(** ** data_manager.py, the update of the state *)

Module ManagerState.

(** [d.pop(key, default)], without the default: the value under [key],
    if there is one, and the dict without the key. *)
Fixpoint dict_pop {V : Type} (key : string) (d : list (string * V))
    : option V * list (string * V) :=
  match d with
  | [] => (None, [])
  | (k, v) :: d' =>
      if String.eqb key k then (Some v, d')
      else let '(r, d'') := dict_pop key d' in (r, (k, v) :: d'')
  end.

(** The keys [update_state_from_dict] pops. *)
Definition known_keys : list string :=
  ["batch_size"; "n_process_augmentation"; "data_loader_cls"; "sampler";
   "sampling_kwargs"; "transforms"]%string.

Section WithObjects.

(** The values of [new_state] are [None], integers and other objects.
    What the other objects are is not decided in these sources (the
    sampler, dataset and transform classes are not part of them), so
    the tests and calls on them are taken as given:
    - [int_of o] is [int(o)];
    - [is_loader_cls o]: [o] is a class and a subclass of [DataLoader];
    - [is_transform o]: [o] is an instance of [AbstractTransform];
    - [is_sampler_cls o]: [o] is a class and a subclass of
      [AbstractSampler]; [is_sampler o]: [o] is an instance of it;
    - [has_from_dataset o]: [o] has an attribute [from_dataset];
    - [is_mapping o]: [o] can be unpacked into keyword arguments;
    - [from_dataset o kwargs] is [o.from_dataset(self.data)] with the
      keyword arguments [kwargs], if any. *)
Context {Obj : Type}.

Inductive pyobj : Type :=
| ONone
| OInt (z : Z)
| OObj (o : Obj).

Variable int_of : Obj -> result Z.
Variable is_loader_cls : Obj -> bool.
Variable is_transform : Obj -> bool.
Variable is_sampler_cls : Obj -> bool.
Variable is_sampler : Obj -> bool.
Variable has_from_dataset : Obj -> bool.
Variable is_mapping : Obj -> bool.
Variable from_dataset : Obj -> option Obj -> result pyobj.

(** The fields the update reads and writes. *)
Record t : Type := mk {
  _batch_size : Z;
  _n_process_augmentation : Z;
  _data_loader_cls : Obj;
  _sampler : pyobj;
  _transforms : pyobj
}.

(** [int(v)] *)
Definition py_int (v : pyobj) : result Z :=
  match v with
  | ONone => Raise TypeError
  | OInt z => Ok z
  | OObj o => int_of o
  end.

(** The getters; [debug_mode] is [get_current_debug_mode()]. *)
Definition batch_size (self : t) : pyobj := OInt (_batch_size self).

Definition n_process_augmentation (debug_mode : bool) (self : t) : pyobj :=
  if debug_mode then OInt 1 else OInt (_n_process_augmentation self).

Definition data_loader_cls (self : t) : pyobj := OObj (_data_loader_cls self).

Definition transforms (self : t) : pyobj := _transforms self.

(** The setters. *)
Definition set_batch_size (new_batch_size : pyobj) (self : t) : result t :=
  match py_int new_batch_size with
  | Raise e => Raise e
  | Ok z =>
      Ok (mk z (_n_process_augmentation self) (_data_loader_cls self)
             (_sampler self) (_transforms self))
  end.

Definition set_n_process_augmentation (new_process_number : pyobj) (self : t)
    : result t :=
  match py_int new_process_number with
  | Raise e => Raise e
  | Ok z =>
      Ok (mk (_batch_size self) z (_data_loader_cls self) (_sampler self)
             (_transforms self))
  end.

Definition set_data_loader_cls (new_loader_cls : pyobj) (self : t)
    : result t :=
  match new_loader_cls with
  | OObj o =>
      if is_loader_cls o then
        Ok (mk (_batch_size self) (_n_process_augmentation self) o
               (_sampler self) (_transforms self))
      else Raise AssertionError
  | _ => Raise AssertionError
  end.

Definition set_transforms (new_transforms : pyobj) (self : t) : result t :=
  let stored :=
    mk (_batch_size self) (_n_process_augmentation self)
       (_data_loader_cls self) (_sampler self) new_transforms in
  match new_transforms with
  | ONone => Ok stored
  | OObj o => if is_transform o then Ok stored else Raise AssertionError
  | OInt _ => Raise AssertionError
  end.

Definition with_sampler (v : pyobj) (self : t) : t :=
  mk (_batch_size self) (_n_process_augmentation self) (_data_loader_cls self)
     v (_transforms self).

Definition set_sampler (new_sampler : pyobj) (self : t) : result t :=
  match new_sampler with
  | OObj o =>
      if is_sampler_cls o then
        if has_from_dataset o then
          match from_dataset o None with
          | Raise e => Raise e
          | Ok r => Ok (with_sampler r self)
          end
        else Raise AttributeError
      else if is_sampler o then Ok (with_sampler new_sampler self)
      else Raise ValueError
  | _ => Raise ValueError
  end.

(** A statement of the update: the error it raises, if any, and the
    manager and [new_state] as it leaves them. *)
Definition state : Type := (t * list (string * pyobj))%type.

Definition stmt : Type := state -> option exn * state.

Definition then_ (first second : stmt) : stmt :=
  fun s =>
    match first s with
    | (None, s') => second s'
    | (Some e, s') => (Some e, s')
    end.

(** [self.x = new_state.pop(key, self.x)] *)
Definition pop_and_set (key : string) (getter : t -> pyobj)
    (setter : pyobj -> t -> result t) : stmt :=
  fun '(self, new_state) =>
    let default := getter self in
    let '(v, new_state') := dict_pop key new_state in
    match setter (match v with Some v => v | None => default end) self with
    | Raise e => (Some e, (self, new_state'))
    | Ok self' => (None, (self', new_state'))
    end.

(** [new_sampler = new_state.pop("sampler", None)] and the [if] after
    it.  The attribute [from_dataset] is looked up before the keyword
    arguments are popped and unpacked. *)
Definition update_sampler : stmt :=
  fun '(self, new_state) =>
    let '(v, new_state1) := dict_pop "sampler" new_state in
    match v with
    | None | Some ONone => (None, (self, new_state1))
    | Some (OInt _) => (Some AttributeError, (self, new_state1))
    | Some (OObj o) =>
        if has_from_dataset o then
          let '(kw, new_state2) := dict_pop "sampling_kwargs" new_state1 in
          let made :=
            match kw with
            | None => from_dataset o None
            | Some (OObj k) =>
                if is_mapping k then from_dataset o (Some k)
                else Raise TypeError
            | Some _ => Raise TypeError
            end in
          match made with
          | Raise e => (Some e, (self, new_state2))
          | Ok r =>
              match set_sampler r self with
              | Raise e => (Some e, (self, new_state2))
              | Ok self' => (None, (self', new_state2))
              end
          end
        else (Some AttributeError, (self, new_state1))
    end.

(** [if new_state: raise KeyError(...)] *)
Definition check_empty : stmt :=
  fun '(self, new_state) =>
    match new_state with
    | [] => (None, (self, new_state))
    | _ :: _ => (Some KeyError, (self, new_state))
    end.

Definition update_state_from_dict (debug_mode : bool) : stmt :=
  then_ (pop_and_set "batch_size" batch_size set_batch_size)
    (then_ (pop_and_set "n_process_augmentation"
              (n_process_augmentation debug_mode) set_n_process_augmentation)
       (then_ (pop_and_set "data_loader_cls" data_loader_cls
                 set_data_loader_cls)
          (then_ update_sampler
             (then_ (pop_and_set "transforms" transforms set_transforms)
                check_empty)))).

(** What the setters have checked of the stored loader class and the
    stored transforms. *)
Definition stored_ok (self : t) : bool :=
  is_loader_cls (_data_loader_cls self)
  && match _transforms self with
     | ONone => true
     | OObj o => is_transform o
     | OInt _ => false
     end.

(** A statement leaves a key in [new_state], leaves a field of the
    manager as it is, and leaves [new_state] empty when it returns. *)
Definition keeps_key (k : string) (st : stmt) : Prop :=
  forall s : state, k ∈ map fst (snd s) -> k ∈ map fst (snd (snd (st s))).

Definition keeps_field {A : Type} (field : t -> A) (st : stmt) : Prop :=
  forall s : state, field (fst (snd (st s))) = field (fst s).

Definition returns_empty (st : stmt) : Prop :=
  forall s : state, fst (st s) = None -> snd (snd (st s)) = [].

End WithObjects.

Arguments pyobj : clear implicits.
Arguments t : clear implicits.
Arguments state : clear implicits.
Arguments stmt : clear implicits.

(** A small world of objects, for evaluation: the loader class, a
    sampler class with its instances, a transform, a dict of keyword
    arguments and a string that is no number. *)
Inductive toy : Type :=
| LoaderCls
| SamplerCls
| ASampler
| ATransform
| Kwargs
| AString.

Definition toy_int_of (o : toy) : result Z :=
  match o with
  | AString => Raise ValueError
  | _ => Raise TypeError
  end.

Definition toy_is (which : toy) (o : toy) : bool :=
  match which, o with
  | LoaderCls, LoaderCls | SamplerCls, SamplerCls | ASampler, ASampler
  | ATransform, ATransform | Kwargs, Kwargs | AString, AString => true
  | _, _ => false
  end.

Definition toy_has_from_dataset (o : toy) : bool :=
  toy_is SamplerCls o || toy_is ASampler o.

Definition toy_from_dataset (o : toy) (kwargs : option toy)
    : result (pyobj toy) :=
  Ok (OObj ASampler).

Definition toy_update (debug_mode : bool) : stmt toy :=
  update_state_from_dict toy_int_of (toy_is LoaderCls) (toy_is ATransform)
    (toy_is SamplerCls) (toy_is ASampler) toy_has_from_dataset
    (toy_is Kwargs) toy_from_dataset debug_mode.

Definition toy_manager : t toy :=
  mk 4 2 LoaderCls (OObj ASampler) ONone.

End ManagerState.

(** * Properties *)

(** ** The data loader *)

Section DataLoaderFacts.

Import DataLoader.
Context {Dataset : Type}.
Variable dataset_getitem : Dataset -> Z -> result pydict.

(** With an empty [data_dict] the inner loop never raises. *)
Lemma concat_items_empty items d :
  exists d', concat_items items [] d = Ok d'.
Proof.
  revert d. induction items as [|[key val] rest IH]; intros d; simpl.
  - eauto.
  - apply IH.
Qed.

(** Whatever the dataset and the indices, a fetch that returns gives
    [None], and the dict it was to fill is still empty. *)
Lemma call_returns_None (self : t Dataset) indices v loc :
  __call__ dataset_getitem self indices = Ok (v, loc) ->
  v = PNone /\ data_dict loc = [].
Proof.
  unfold __call__.
  destruct (fetch_samples dataset_getitem self indices) as [data0|e]; [|discriminate].
  destruct (concat_samples data0 []) as [data1|e]; [|discriminate].
  intros H. injection H as <- <-. split; reflexivity.
Qed.

(** The constructor leaves the process id unset. *)
Lemma init_process_id_unset (DictDataset : pydict -> Dataset)
    (IterableDataset : list pyval -> Dataset) (data : data_arg Dataset)
    (self : t Dataset) :
  __init__ DictDataset IterableDataset data = Ok self ->
  _process_id self = None.
Proof.
  destruct data; simpl; intros H; try discriminate;
    injection H as <-; reflexivity.
Qed.

(** Once an id is stored, a run of assignments only raises and
    changes nothing. *)
Lemma assign_all_after_set (self : t Dataset) v ws :
  _process_id self = Some v ->
  assign_all self ws = (map (fun _ => Raise AttributeError) ws, self).
Proof.
  intros Hset. induction ws as [|w ws IH]; simpl.
  - reflexivity.
  - unfold set_process_id. rewrite Hset, IH. reflexivity.
Qed.

End DataLoaderFacts.

(** C1.  The fetch of the data loader does not return the batch.  On a
    dataset of two samples with the fields data and label, fetching the
    index group 0, 1 returns [None]; the dict that was to receive the
    stacked fields is empty when the call returns, and the values were
    wrapped into lists inside the samples instead.  The batch the
    documented contract asks for maps data to the array of 10, 20 and
    label to the array of 0, 1. *)
Theorem fetch_returns_None_instead_of_batch :
  DataLoader.__call__ DataLoader.list_getitem DataLoader.two_sample_loader [0; 1]
  = Ok (PNone,
        DataLoader.mk_locals
          [ [("data"%string, PList [PInt 10]); ("label"%string, PList [PInt 0])];
            [("data"%string, PList [PInt 20]); ("label"%string, PList [PInt 1])] ]
          [])
  /\ DataLoader.spec_batch DataLoader.two_samples
     = Some [("data"%string, PArray [PInt 10; PInt 20]);
             ("label"%string, PArray [PInt 0; PInt 1])].
Proof. split; reflexivity. Qed.

(** C9.  The process id of a data loader can be set once.  On a loader
    whose id was never set, the first assignment succeeds and stores the
    id; every later assignment raises AttributeError, and the stored id
    is still the first one. *)
Theorem process_id_set_once {Dataset : Type} (d : Dataset) (v : Z) (ws : list Z) :
  DataLoader.assign_all (DataLoader.mk None d) (v :: ws)
  = (Ok tt :: map (fun _ => Raise AttributeError) ws,
     DataLoader.mk (Some v) d).
Proof.
  simpl.
  rewrite (assign_all_after_set (DataLoader.mk (Some v) d) v ws eq_refl).
  reflexivity.
Qed.

(** C10.  Reading the process id of a loader before it was set gives 0;
    after the first assignment of [v], which succeeds, reading gives
    [v]. *)
Theorem process_id_read {Dataset : Type} (d : Dataset) (v : Z) :
  DataLoader.process_id (DataLoader.mk None d) = 0
  /\ fst (DataLoader.set_process_id (DataLoader.mk None d) v) = Ok tt
  /\ DataLoader.process_id
       (snd (DataLoader.set_process_id (DataLoader.mk None d) v)) = v.
Proof. repeat split. Qed.

(** ** The data manager *)

(** C6.  For [N > 0] samples and a batch size [B > 0], [n_batches]
    returns the ceiling of [N / B] when [drop_last] is false and the
    floor of [N / B] when it is true: the least [q] with [N <= B * q],
    resp. the greatest [q] with [B * q <= N]. *)
Theorem n_batches_ceil_or_floor (N B : Z) (drop_last : bool) :
  0 < N -> 0 < B ->
  exists q : Z,
    DataManager.n_batches (DataManager.mk B drop_last N) = Ok q
    /\ (if drop_last then B * q <= N < B * (q + 1)
        else B * (q - 1) < N <= B * q).
Proof.
  intros HN HB.
  unfold DataManager.n_batches, DataManager.py_floordiv, DataManager.py_mod,
    DataManager.n_samples, DataManager.batch_size. simpl.
  destruct (Z.ltb_spec 0 N) as [_|?]; [simpl|lia].
  destruct (Z.eqb_spec B 0) as [?|_]; [lia|].
  pose proof (Z.div_mod N B ltac:(lia)) as Hdm.
  pose proof (Z.mod_pos_bound N B HB) as Hm.
  eexists. split; [reflexivity|].
  destruct (Z.eqb_spec (N mod B) 0) as [Hz|Hnz]; simpl.
  - destruct drop_last; simpl; nia.
  - destruct drop_last; simpl; nia.
Qed.

Lemma n_batches_ceil_or_floor_witness :
  exists q : Z,
    DataManager.n_batches (DataManager.mk 3 false 10) = Ok q
    /\ 3 * (q - 1) < 10 <= 3 * q.
Proof. apply (n_batches_ceil_or_floor 10 3 false); lia. Defined.

(** ** The sampler of an augmenter *)

(** C4.  An augmenter built with an element sampler does not iterate
    over a batch sampler wrapping it.  The constructor shared by the
    augmenters stores the class object [BatchSampler] itself, whatever
    the element sampler yields; so does the augmenter the facade builds,
    sequential or parallel; and iterating over a class raises
    TypeError. *)
Theorem element_sampler_replaced_by_class (debug_mode : bool)
    (num_processes : option Z) (cpu_count : Z) (indices : list Z) (seed : Z)
    (drop_last : bool) :
  AbstractAugmenter.__init__ (ElementSampler indices) seed drop_last
  = Ok (AbstractAugmenter.mk BatchSamplerClass drop_last seed)
  /\ (exists self,
        Augmenter.__init__ debug_mode num_processes cpu_count
          (ElementSampler indices) seed drop_last = Ok self
        /\ Augmenter.sampler_used self = BatchSamplerClass)
  /\ isinstance_BatchSampler BatchSamplerClass = false
  /\ py_iter BatchSamplerClass = Raise TypeError.
Proof.
  split; [reflexivity|]. split; [|split; reflexivity].
  unfold Augmenter.__init__, Augmenter._resolve_augmenter_cls.
  destruct (debug_mode || _); eexists; split; reflexivity.
Qed.

(** The sequential augmenter built with an element sampler yields no
    batch and raises TypeError, whatever the data loader does. *)
Lemma sequential_pass_over_class {Batch : Type} (load : pyidx -> result Batch)
    (indices : list Z) (seed : Z) (drop_last : bool) :
  match _SequentialAugmenter.__init__ (ElementSampler indices) seed drop_last
  with
  | Ok self => _SequentialAugmenter.__iter__ load self = ([], Raise TypeError)
  | Raise _ => False
  end.
Proof. reflexivity. Qed.

(** A parallel augmenter built with a batch sampler is the object the
    passes below start from. *)
Lemma init_fresh (groups : list (list Z)) (N cpu_count seed : Z)
    (drop_last : bool) :
  _ParallelAugmenter.__init__ (BatchSamplerInstance groups) (Some N) cpu_count
    seed drop_last
  = Ok (_ParallelAugmenter.fresh (BatchSamplerInstance groups) N).
Proof. reflexivity. Qed.

(** ** The worker pool of the parallel augmenter *)

Section PoolFacts.

Import _ParallelAugmenter.
Variable worker_abort : nat -> bool.
Variable offset : Z.

Lemma py_getitem_lookup {A : Type} (l : list A) (i : Z) (x : A) :
  0 <= i -> l !! Z.to_nat i = Some x -> py_getitem l i = Ok x.
Proof.
  intros Hi Hx. unfold py_getitem.
  pose proof (lookup_lt_Some _ _ _ Hx) as Hlt.
  destruct (Z.ltb_spec i 0) as [?|_]; [lia|].
  destruct (Z.ltb_spec i 0) as [?|_]; [lia|].
  destruct (Z.leb_spec (Z.of_nat (length l)) i) as [?|_]; [lia|].
  simpl. rewrite Hx. reflexivity.
Qed.

Lemma py_setitem_inside {A : Type} (l : list A) (i : Z) (v : A) :
  0 <= i < Z.of_nat (length l) ->
  py_setitem l i v = Ok (<[Z.to_nat i := v]> l).
Proof.
  intros Hi. unfold py_setitem.
  destruct (Z.ltb_spec i 0) as [?|_]; [lia|].
  destruct (Z.ltb_spec i 0) as [?|_]; [lia|].
  destruct (Z.leb_spec (Z.of_nat (length l)) i) as [?|_]; [lia|].
  reflexivity.
Qed.

Lemma py_mod_pos (n d : Z) : 0 < d -> py_mod n d = Ok (n mod d).
Proof.
  intros Hd. unfold py_mod. destruct (Z.eqb_spec d 0); [lia|reflexivity].
Qed.

Ltac run_monad :=
  unfold mbind, M_bind, mret, M_ret, get, modify, emit, lift, raise, hang;
  cbn.

Ltac bind1 := unfold mbind at 1, M_bind at 1.

Lemma next_index_pipe_run (s : t) :
  0 < _num_processes s ->
  _next_index_pipe s
  = (Some (Ok (_index_pipe_counter s)),
     with_index_pipe_counter
       ((_index_pipe_counter s + 1) mod _num_processes s) s).
Proof.
  intros HN. unfold _next_index_pipe. run_monad.
  rewrite (py_mod_pos _ _ HN). reflexivity.
Qed.

Lemma next_data_pipe_run (s : t) :
  0 < _num_processes s ->
  _next_data_pipe s
  = (Some (Ok (_data_pipe_counter s)),
     with_data_pipe_counter
       ((_data_pipe_counter s + 1) mod _num_processes s) s).
Proof.
  intros HN. unfold _next_data_pipe. run_monad.
  rewrite (py_mod_pos _ _ HN). reflexivity.
Qed.

Lemma count_events_app (p : event -> bool) (tr1 tr2 : list event) :
  count_events p (tr1 ++ tr2) = count_events p tr1 + count_events p tr2.
Proof. induction tr1 as [|ev tr1 IH]; simpl; [|rewrite IH]; lia. Qed.

Lemma dispatches_app (tr1 tr2 : list event) :
  dispatches (tr1 ++ tr2) = dispatches tr1 ++ dispatches tr2.
Proof.
  induction tr1 as [|ev tr1 IH]; [reflexivity|].
  destruct ev as [| | | |c [m|]| | | | | |]; cbn; rewrite ?IH; reflexivity.
Qed.

Lemma pending_snoc (tr : list event) (ev : event) (conn : nat) :
  pending (tr ++ [ev]) conn
  = pending tr conn
    + (if is_dispatch_to conn ev then 1 else 0)
    - (if is_recv_from conn ev then 1 else 0).
Proof. unfold pending. rewrite !count_events_app. simpl. lia. Qed.

Lemma queued_total_insert (l : list Z) (i : nat) (q v : Z) :
  l !! i = Some q ->
  queued_total (<[i := v]> l) = queued_total l - q + v.
Proof.
  revert i. induction l as [|x l IH]; intros [|i] H; simpl in *;
    try discriminate.
  - injection H as ->. lia.
  - rewrite (IH i H). lia.
Qed.

(** A slot inside the pool holds a counter and its two pipes. *)
Lemma pool_slot (s : t) (c : Z) :
  pool_ok offset s -> 0 <= c < _num_processes s ->
  exists q, _data_queued s !! Z.to_nat c = Some q
            /\ _index_pipes s !! Z.to_nat c = Some (Z.to_nat c)
            /\ _data_pipes s !! Z.to_nat c = Some (Z.to_nat c).
Proof.
  intros Hok Hc. destruct Hok as [HN Hlen Hip Hdp _ _ _].
  assert (Hlt : (Z.to_nat c < length (_data_queued s))%nat) by lia.
  destruct (lookup_lt_is_Some_2 _ _ Hlt) as [q Hq].
  exists q. split; [exact Hq|].
  rewrite Hip, Hdp. split; apply lookup_seq_lt; exact Hlt.
Qed.

Lemma enqueue_one_run (s : t) (idxs : pyidx) :
  pool_ok offset s ->
  exists s', enqueue_one idxs s = (Some (Ok tt), s')
    /\ pool_ok offset s'
    /\ same_frame s s'
    /\ trace s' = trace s
         ++ [EvSend (Z.to_nat (_index_pipe_counter s)) (Some idxs)]
    /\ _index_pipe_counter s'
       = (_index_pipe_counter s + 1) mod _num_processes s
    /\ _data_pipe_counter s' = _data_pipe_counter s
    /\ queued_total (_data_queued s') = queued_total (_data_queued s) + 1.
Proof.
  intros Hok.
  pose proof (ok_num _ _ Hok) as HN.
  pose proof (ok_index_ctr _ _ Hok) as Hc.
  destruct (pool_slot s _ Hok Hc) as (q & Hq & Hi & _).
  unfold enqueue_one. unfold mbind at 1, M_bind at 1.
  rewrite (next_index_pipe_run s HN). run_monad.
  rewrite (py_getitem_lookup _ _ _ (proj1 Hc) Hq). cbn.
  rewrite py_setitem_inside by (rewrite (ok_queued _ _ Hok); lia). cbn.
  rewrite (py_getitem_lookup _ _ _ (proj1 Hc) Hi). cbn.
  eexists. split; [reflexivity|].
  split; [|repeat split; cbn; try reflexivity].
  - constructor; cbn.
    + exact HN.
    + rewrite length_insert. apply (ok_queued _ _ Hok).
    + rewrite length_insert. apply (ok_index_pipes _ _ Hok).
    + rewrite length_insert. apply (ok_data_pipes _ _ Hok).
    + apply Z.mod_pos_bound; lia.
    + apply (ok_data_ctr _ _ Hok).
    + intros i q' H. rewrite pending_snoc. simpl.
      destruct (decide (i = Z.to_nat (_index_pipe_counter s))) as [->|Hne].
      * rewrite list_lookup_insert_eq in H by (eapply lookup_lt_Some; eauto).
        injection H as <-. rewrite Nat.eqb_refl.
        destruct (ok_pending _ _ Hok _ _ Hq) as [-> ?]. lia.
      * rewrite list_lookup_insert_ne in H by congruence.
        destruct (Nat.eqb_spec (Z.to_nat (_index_pipe_counter s)) i); [congruence|].
        destruct (ok_pending _ _ Hok _ _ H) as [-> ?]. lia.
    + rewrite dispatches_app, length_app. cbn.
      rewrite (ok_cursor _ _ Hok), Zplus_mod_idemp_l. f_equal. lia.
    + intros k conn' idxs' H. rewrite dispatches_app in H. cbn in H.
      destruct (decide (k < length (dispatches (trace s)))%nat) as [Hlt|Hge].
      * rewrite lookup_app_l in H by exact Hlt.
        apply (ok_slots _ _ Hok _ _ _ H).
      * rewrite lookup_app_r in H by lia.
        destruct (k - length (dispatches (trace s)))%nat eqn:E; cbn in H;
          [|discriminate].
        injection H as <- <-. rewrite (ok_cursor _ _ Hok).
        do 3 f_equal. lia.
  - rewrite (queued_total_insert _ _ _ _ Hq). lia.
Qed.

Lemma same_frame_refl (s : t) : same_frame s s.
Proof. repeat split. Qed.

Lemma same_frame_trans (s1 s2 s3 : t) :
  same_frame s1 s2 -> same_frame s2 s3 -> same_frame s1 s3.
Proof.
  unfold same_frame. intros (?&?&?&?&?&?&?) (?&?&?&?&?&?&?).
  repeat split; congruence.
Qed.

Lemma enqueue_indices_run (l : list pyidx) (s : t) :
  pool_ok offset s ->
  exists s', _enqueue_indices l s = (Some (Ok tt), s')
    /\ pool_ok offset s'
    /\ same_frame s s'
    /\ trace s' = trace s
         ++ round_robin (_num_processes s) (_index_pipe_counter s) l
    /\ _data_pipe_counter s' = _data_pipe_counter s
    /\ queued_total (_data_queued s')
       = queued_total (_data_queued s) + Z.of_nat (length l).
Proof.
  revert s. induction l as [|idxs l IH]; intros s Hok.
  - exists s. cbn. rewrite app_nil_r.
    split; [reflexivity|]. split; [exact Hok|].
    split; [apply same_frame_refl|]. repeat split. cbn [length]. lia.
  - destruct (enqueue_one_run s idxs Hok)
      as (s1 & Hrun & Hok1 & Hfr1 & Htr1 & Hic1 & Hdc1 & Htot1).
    destruct (IH s1 Hok1) as (s2 & Hrun2 & Hok2 & Hfr2 & Htr2 & Hdc2 & Htot2).
    exists s2. unfold _enqueue_indices in *. cbn [for_each].
    unfold mbind at 1, M_bind at 1. rewrite Hrun.
    split; [exact Hrun2|]. split; [exact Hok2|].
    split; [eapply same_frame_trans; eauto|].
    assert (HN : _num_processes s1 = _num_processes s) by apply Hfr1.
    split; [|split].
    + rewrite Htr2, Htr1, HN, Hic1, <- app_assoc. reflexivity.
    + congruence.
    + rewrite Htot2, Htot1. cbn [length]. lia.
Qed.

Lemma with_data_pipe_counter_ok (s : t) (c : Z) :
  pool_ok offset s -> 0 <= c < _num_processes s ->
  pool_ok offset (with_data_pipe_counter c s).
Proof.
  intros Hok Hc. destruct Hok. constructor; cbn; assumption.
Qed.

Lemma skip_empty_run (d : nat) :
  forall (fuel : nat) (p : Z) (s : t),
    pool_ok offset s -> 0 <= p < _num_processes s ->
    _data_pipe_counter s = (p + 1) mod _num_processes s ->
    (d < fuel)%nat ->
    (exists q, _data_queued s
                 !! Z.to_nat ((p + Z.of_nat d) mod _num_processes s) = Some q
               /\ q <> 0) ->
    exists p', skip_empty fuel p s
               = (Some (Ok p'),
                  with_data_pipe_counter ((p' + 1) mod _num_processes s) s)
      /\ 0 <= p' < _num_processes s
      /\ exists q, _data_queued s !! Z.to_nat p' = Some q /\ q <> 0.
Proof.
  induction d as [|d IH]; intros fuel p s Hok Hp Hctr Hfuel (q & Hq & Hnz);
    (destruct fuel as [|fuel]; [lia|]);
    pose proof (ok_num _ _ Hok) as HN;
    destruct (pool_slot s p Hok Hp) as (q0 & Hq0 & _);
    cbn [skip_empty]; run_monad;
    rewrite (py_getitem_lookup _ _ _ (proj1 Hp) Hq0); cbn.
  - replace ((p + Z.of_nat 0) mod _num_processes s) with p in Hq
      by (rewrite Z.add_0_r, Z.mod_small; lia).
    assert (q0 = q) as -> by congruence.
    destruct (Z.eqb_spec q 0) as [?|_]; [contradiction|].
    exists p. split; [|split; [exact Hp|eauto]].
    rewrite <- Hctr. destruct s; reflexivity.
  - destruct (Z.eqb_spec q0 0) as [Hz|Hnz0].
    + rewrite (next_data_pipe_run s HN). cbn.
      set (p1 := _data_pipe_counter s).
      assert (Hp1 : 0 <= p1 < _num_processes s) by apply (ok_data_ctr _ _ Hok).
      set (s1 := with_data_pipe_counter ((p1 + 1) mod _num_processes s) s).
      assert (Hok1 : pool_ok offset s1).
      { apply with_data_pipe_counter_ok; [exact Hok|].
        apply Z.mod_pos_bound; lia. }
      destruct (IH fuel p1 s1 Hok1 Hp1 eq_refl ltac:(lia)) as (p' & Hrun & Hp' & Hq').
      { exists q. split; [|exact Hnz]. cbn.
        replace ((p1 + Z.of_nat d) mod _num_processes s)
          with ((p + Z.of_nat (S d)) mod _num_processes s); [exact Hq|].
        unfold p1. rewrite Hctr, Zplus_mod_idemp_l. f_equal. lia. }
      exists p'. split; [|split; [exact Hp'|exact Hq']].
      rewrite Hrun. destruct s; reflexivity.
    + exists p. split; [|split; [exact Hp|eauto]].
      rewrite <- Hctr. destruct s; reflexivity.
Qed.

Lemma py_any_true (l : list Z) :
  py_any l = true -> exists (j : nat) (q : Z), l !! j = Some q /\ q <> 0.
Proof.
  induction l as [|x l IH]; simpl; [discriminate|].
  destruct (Z.eqb_spec x 0) as [->|Hx]; simpl.
  - intros H. destruct (IH H) as (j & q & Hj & Hq). exists (S j), q. eauto.
  - intros _. exists 0%nat, x. eauto.
Qed.

Lemma receive_data_run (fuel : nat) (s : t) :
  pool_ok offset s -> py_any (_data_queued s) = true ->
  (Z.to_nat (_num_processes s) <= fuel)%nat ->
  exists (conn : nat) (s' : t),
    _receive_data fuel s = (Some (Ok conn), s')
    /\ pool_ok offset s'
    /\ same_frame s s'
    /\ trace s' = trace s ++ [EvRecv conn]
    /\ _index_pipe_counter s' = _index_pipe_counter s
    /\ queued_total (_data_queued s') = queued_total (_data_queued s) - 1.
Proof.
  intros Hok Hany Hfuel.
  pose proof (ok_num _ _ Hok) as HN.
  pose proof (ok_data_ctr _ _ Hok) as Hc.
  destruct (py_any_true _ Hany) as (j & q & Hj & Hq).
  pose proof (lookup_lt_Some _ _ _ Hj) as Hjlt.
  pose proof (ok_queued _ _ Hok) as Hlen.
  set (N := _num_processes s) in *.
  set (c0 := _data_pipe_counter s) in *.
  set (s1 := with_data_pipe_counter ((c0 + 1) mod N) s).
  assert (Hok1 : pool_ok offset s1).
  { apply with_data_pipe_counter_ok; [exact Hok|].
    apply Z.mod_pos_bound; lia. }
  destruct (skip_empty_run (Z.to_nat ((Z.of_nat j - c0) mod N)) fuel c0 s1
              Hok1 Hc eq_refl) as (p' & Hrun & Hp' & q' & Hq' & Hnz').
  { pose proof (Z.mod_pos_bound (Z.of_nat j - c0) N HN). lia. }
  { exists q. split; [|exact Hq]. cbn. fold N.
    rewrite Z2Nat.id by (apply Z.mod_pos_bound; lia).
    rewrite Zplus_mod_idemp_r.
    replace (c0 + (Z.of_nat j - c0)) with (Z.of_nat j) by lia.
    rewrite Z.mod_small by lia. rewrite Nat2Z.id. exact Hj. }
  cbn in Hrun, Hq', Hp'. fold N in Hrun, Hp'.
  destruct (pool_slot s p' Hok Hp') as (q2 & Hq2 & _ & Hdp).
  assert (q2 = q') as -> by congruence.
  exists (Z.to_nat p'). eexists.
  unfold _receive_data. unfold mbind at 1, M_bind at 1.
  rewrite (next_data_pipe_run s HN). fold N c0 s1.
  unfold mbind at 1, M_bind at 1. rewrite Hrun. run_monad.
  rewrite (py_getitem_lookup _ _ _ (proj1 Hp') Hdp). cbn.
  rewrite (py_getitem_lookup _ _ _ (proj1 Hp') Hq'). cbn.
  rewrite py_setitem_inside by lia. cbn.
  split; [reflexivity|].
  split; [|repeat split; cbn; try reflexivity].
  - constructor; cbn.
    + exact HN.
    + rewrite length_insert. exact Hlen.
    + rewrite length_insert. apply (ok_index_pipes _ _ Hok).
    + rewrite length_insert. apply (ok_data_pipes _ _ Hok).
    + apply (ok_index_ctr _ _ Hok).
    + apply Z.mod_pos_bound; lia.
    + intros i q1 H. rewrite pending_snoc. simpl.
      destruct (decide (i = Z.to_nat p')) as [->|Hne].
      * rewrite list_lookup_insert_eq in H by (eapply lookup_lt_Some; eauto).
        injection H as <-. rewrite Nat.eqb_refl.
        destruct (ok_pending _ _ Hok _ _ Hq') as [-> ?]. lia.
      * rewrite list_lookup_insert_ne in H by congruence.
        destruct (Nat.eqb_spec (Z.to_nat p') i); [congruence|].
        destruct (ok_pending _ _ Hok _ _ H) as [-> ?]. lia.
    + rewrite dispatches_app, app_nil_r. apply (ok_cursor _ _ Hok).
    + rewrite dispatches_app, app_nil_r. apply (ok_slots _ _ Hok).
  - rewrite (queued_total_insert _ _ _ _ Hq'). lia.
Qed.

(** The search stops at the first slot, from the one it starts at and
    in cyclic order, whose counter is not zero. *)
Lemma skip_empty_first (d : nat) :
  forall (fuel : nat) (p : Z) (s : t),
    pool_ok offset s -> 0 <= p < _num_processes s ->
    _data_pipe_counter s = (p + 1) mod _num_processes s ->
    (d < fuel)%nat ->
    (forall j, (j < d)%nat ->
       _data_queued s !! Z.to_nat ((p + Z.of_nat j) mod _num_processes s)
       = Some 0) ->
    (exists q, _data_queued s
                 !! Z.to_nat ((p + Z.of_nat d) mod _num_processes s) = Some q
               /\ q <> 0) ->
    skip_empty fuel p s
    = (Some (Ok ((p + Z.of_nat d) mod _num_processes s)),
       with_data_pipe_counter
         (((p + Z.of_nat d) mod _num_processes s + 1) mod _num_processes s) s).
Proof.
  induction d as [|d IH];
    intros fuel p s Hok Hp Hctr Hfuel Hzero (q & Hq & Hnz);
    (destruct fuel as [|fuel]; [lia|]);
    pose proof (ok_num _ _ Hok) as HN;
    destruct (pool_slot s p Hok Hp) as (q0 & Hq0 & _);
    cbn [skip_empty]; run_monad;
    rewrite (py_getitem_lookup _ _ _ (proj1 Hp) Hq0); cbn.
  - replace ((p + Z.of_nat 0) mod _num_processes s) with p in *
      by (rewrite Z.add_0_r, Z.mod_small; lia).
    assert (q0 = q) as -> by congruence.
    destruct (Z.eqb_spec q 0) as [?|_]; [contradiction|].
    rewrite <- Hctr. destruct s; reflexivity.
  - assert (q0 = 0) as ->.
    { pose proof (Hzero 0%nat ltac:(lia)) as H0.
      replace ((p + Z.of_nat 0) mod _num_processes s) with p in H0
        by (rewrite Z.add_0_r, Z.mod_small; lia).
      congruence. }
    cbn. rewrite (next_data_pipe_run s HN). cbn.
    set (p1 := _data_pipe_counter s).
    assert (Hp1 : 0 <= p1 < _num_processes s) by apply (ok_data_ctr _ _ Hok).
    set (s1 := with_data_pipe_counter ((p1 + 1) mod _num_processes s) s).
    assert (Hok1 : pool_ok offset s1).
    { apply with_data_pipe_counter_ok; [exact Hok|].
      apply Z.mod_pos_bound; lia. }
    assert (Hshift : forall j : nat,
               (p1 + Z.of_nat j) mod _num_processes s
               = (p + Z.of_nat (S j)) mod _num_processes s).
    { intros j. unfold p1. rewrite Hctr, Zplus_mod_idemp_l. f_equal. lia. }
    rewrite (IH fuel p1 s1 Hok1 Hp1 eq_refl ltac:(lia)).
    + cbn. rewrite Hshift. destruct s; reflexivity.
    + intros j Hj. cbn. rewrite Hshift. apply Hzero. lia.
    + exists q. cbn. rewrite Hshift. auto.
Qed.

(** [_receive_data] takes the batch of the first worker, from the
    collection cursor on and in cyclic order, that has one pending, and
    leaves the cursor on the slot after it. *)
Lemma receive_data_first (fuel : nat) (s : t) (d : nat) (q : Z) :
  pool_ok offset s -> (d < fuel)%nat ->
  (forall j, (j < d)%nat ->
     _data_queued s
       !! Z.to_nat ((_data_pipe_counter s + Z.of_nat j) mod _num_processes s)
     = Some 0) ->
  _data_queued s
    !! Z.to_nat ((_data_pipe_counter s + Z.of_nat d) mod _num_processes s)
  = Some q ->
  q <> 0 ->
  let slot :=
    Z.to_nat ((_data_pipe_counter s + Z.of_nat d) mod _num_processes s) in
  _receive_data fuel s
  = (Some (Ok slot),
     with_data_queued (<[slot := q - 1]> (_data_queued s))
       (with_trace (trace s ++ [EvRecv slot])
          (with_data_pipe_counter
             ((Z.of_nat slot + 1) mod _num_processes s) s))).
Proof.
  intros Hok Hfuel Hzero Hq Hnz slot.
  pose proof (ok_num _ _ Hok) as HN.
  pose proof (ok_data_ctr _ _ Hok) as Hc.
  pose proof (ok_queued _ _ Hok) as Hlen.
  set (N := _num_processes s) in *.
  set (c0 := _data_pipe_counter s) in *.
  set (s1 := with_data_pipe_counter ((c0 + 1) mod N) s).
  assert (Hok1 : pool_ok offset s1).
  { apply with_data_pipe_counter_ok; [exact Hok|].
    apply Z.mod_pos_bound; lia. }
  assert (Hp' : 0 <= (c0 + Z.of_nat d) mod N < N)
    by (apply Z.mod_pos_bound; lia).
  destruct (pool_slot s _ Hok Hp') as (q2 & Hq2 & _ & Hdp).
  fold N c0 in Hq2, Hdp. fold slot in Hq2, Hdp, Hq.
  assert (q2 = q) as -> by congruence.
  unfold _receive_data. unfold mbind at 1, M_bind at 1.
  rewrite (next_data_pipe_run s HN). fold N c0 s1.
  unfold mbind at 1, M_bind at 1.
  rewrite (skip_empty_first d fuel c0 s1 Hok1 Hc eq_refl Hfuel);
    [|exact Hzero|exists q; split; [exact Hq|exact Hnz]].
  cbn [_num_processes s1 with_data_pipe_counter]. fold N.
  run_monad. fold N c0.
  rewrite (py_getitem_lookup _ _ _ (proj1 Hp') Hdp). cbn.
  rewrite (py_getitem_lookup _ _ _ (proj1 Hp') Hq). cbn.
  rewrite py_setitem_inside by lia. cbn.
  fold N c0. fold slot.
  replace (Z.of_nat slot) with ((c0 + Z.of_nat d) mod N)
    by (unfold slot; rewrite Z2Nat.id; lia).
  reflexivity.
Qed.


Lemma start_workers_run (n : nat) :
  forall (a : nat) (s : t),
    for_each (map Z.of_nat (seq a n)) start_worker s
    = (Some (Ok tt),
       mk (_sampler s) (_num_processes s)
          (_processes s ++ seq (spawned s) n)
          (_index_pipes s ++ seq (spawned s) n)
          (_data_pipes s ++ seq (spawned s) n)
          (_index_pipe_counter s) (_data_pipe_counter s) (_abort_event s)
          (_data_queued s ++ replicate n 0)
          (match n with O => _processes_running s | S _ => true end)
          (trace s ++ start_events (spawned s) a n)
          (spawned s + n) (reads s)).
Proof.
  induction n as [|n IH]; intros a s.
  - cbn. rewrite !app_nil_r, Nat.add_0_r. destruct s; reflexivity.
  - cbn [seq map for_each]. unfold mbind at 1, M_bind at 1.
    unfold start_worker at 1. run_monad. rewrite IH. cbn.
    rewrite <- !app_assoc. cbn. rewrite Nat.add_succ_r.
    destruct n; reflexivity.
Qed.

Lemma queued_total_replicate (n : nat) : queued_total (replicate n 0) = 0.
Proof.
  induction n as [|n IH]; [reflexivity|].
  cbn [replicate]. unfold queued_total in *. cbn [foldr]. rewrite IH.
  reflexivity.
Qed.

Lemma count_start_events (p : event -> bool) (h i n : nat) :
  (forall h' i', p (EvStart h' i') = false) ->
  count_events p (start_events h i n) = 0.
Proof.
  intros Hp. revert h i. induction n as [|n IH]; intros h i; cbn.
  - reflexivity.
  - rewrite Hp, IH. reflexivity.
Qed.

(** The pool a new augmenter starts. *)
Lemma start_processes_fresh (sampler : sampler_obj) (N : Z) :
  _start_processes worker_abort (fresh sampler N)
  = (Some (Ok tt),
     mk sampler N (seq 0 (Z.to_nat N)) (seq 0 (Z.to_nat N))
        (seq 0 (Z.to_nat N)) 0 0 (Some false) (replicate (Z.to_nat N) 0)
        (match Z.to_nat N with O => false | S _ => true end)
        (start_events 0 0 (Z.to_nat N)) (Z.to_nat N) 0%nat).
Proof.
  unfold _start_processes, set_abort_event, py_range. run_monad.
  rewrite start_workers_run. reflexivity.
Qed.

Lemma loop_events_app (tr1 tr2 : list event) :
  loop_events (tr1 ++ tr2) = loop_events tr1 ++ loop_events tr2.
Proof.
  induction tr1 as [|ev tr1 IH]; [reflexivity|].
  destruct ev as [| [] | | | | | | | | |]; cbn; rewrite IH; reflexivity.
Qed.

Lemma loop_events_round_robin (N c : Z) (l : list pyidx) :
  loop_events (round_robin N c l) = [].
Proof. revert c. induction l as [|x l IH]; intros c; cbn; auto. Qed.

Lemma pending_app (tr1 tr2 : list event) (c : nat) :
  pending (tr1 ++ tr2) c = pending tr1 c + pending tr2 c.
Proof. unfold pending. rewrite !count_events_app. lia. Qed.

(** Calls that are neither a dispatch nor a receive leave the pool as
    it should be. *)
Lemma pool_ok_quiet (s s' : t) (tr : list event) :
  pool_ok offset s ->
  _num_processes s' = _num_processes s ->
  _data_queued s' = _data_queued s ->
  _index_pipes s' = _index_pipes s ->
  _data_pipes s' = _data_pipes s ->
  _index_pipe_counter s' = _index_pipe_counter s ->
  _data_pipe_counter s' = _data_pipe_counter s ->
  trace s' = trace s ++ tr ->
  (forall c, pending tr c = 0) ->
  dispatches tr = [] ->
  pool_ok offset s'.
Proof.
  intros [] HN Hq Hi Hd Hic Hdc Htr Hp Hdis.
  assert (Hdis' : dispatches (trace s') = dispatches (trace s))
    by (rewrite Htr, dispatches_app, Hdis, app_nil_r; reflexivity).
  constructor; rewrite ?HN, ?Hq, ?Hi, ?Hd, ?Hic, ?Hdc, ?Hdis'; try assumption.
  intros i q H. rewrite Htr, pending_app, Hp, Z.add_0_r. auto.
Qed.

Lemma is_set_run (at_ : site) (s : t) (b0 : bool) :
  _abort_event s = Some b0 ->
  is_set worker_abort at_ s
  = (Some (Ok (b0 || worker_abort (reads s))),
     with_trace (trace s ++ [EvIsSet at_ (b0 || worker_abort (reads s))])
       (with_reads (S (reads s))
          (with_abort_event (Some (b0 || worker_abort (reads s))) s))).
Proof. intros H. unfold is_set. run_monad. rewrite H. reflexivity. Qed.

Lemma queued_total_nonneg (l : list Z) :
  (forall (i : nat) (q : Z), l !! i = Some q -> 0 <= q) ->
  0 <= queued_total l.
Proof.
  induction l as [|x l IH]; intros H; cbn; [lia|].
  pose proof (H 0%nat x eq_refl).
  assert (0 <= queued_total l) by (apply IH; intros i q Hq; apply (H (S i) q Hq)).
  unfold queued_total in *. lia.
Qed.

Lemma pool_total_nonneg (s : t) :
  pool_ok offset s -> 0 <= queued_total (_data_queued s).
Proof.
  intros Hok. apply queued_total_nonneg. intros i q Hq.
  apply (ok_pending _ _ Hok _ _ Hq).
Qed.

Lemma same_frame_pool (s s' : t) : same_frame s s' -> same_pool s s'.
Proof. unfold same_frame, same_pool. intuition. Qed.

Lemma same_pool_trans (s1 s2 s3 : t) :
  same_pool s1 s2 -> same_pool s2 s3 -> same_pool s1 s3.
Proof.
  unfold same_pool. intros (?&?&?&?&?) (?&?&?&?&?).
  repeat split; congruence.
Qed.

Lemma requests_app (tr1 tr2 : list event) :
  requests (tr1 ++ tr2) = requests tr1 ++ requests tr2.
Proof.
  induction tr1 as [|ev tr1 IH]; [reflexivity|].
  destruct ev; cbn; rewrite ?IH; reflexivity.
Qed.

Lemma requests_round_robin (N c : Z) (l : list pyidx) :
  requests (round_robin N c l) = [].
Proof. revert c. induction l as [|x l IH]; intros c; cbn; auto. Qed.

Lemma dispatches_round_robin (N c : Z) (l : list pyidx) :
  map snd (dispatches (round_robin N c l)) = l.
Proof.
  revert c. induction l as [|x l IH]; intros c; cbn; [|rewrite IH]; reflexivity.
Qed.

Lemma length_dispatches_round_robin (N c : Z) (l : list pyidx) :
  length (dispatches (round_robin N c l)) = length l.
Proof.
  rewrite <- (length_map snd), dispatches_round_robin. reflexivity.
Qed.

Lemma py_any_false_total (l : list Z) :
  py_any l = false -> queued_total l = 0.
Proof.
  induction l as [|x l IH]; [reflexivity|].
  unfold py_any in *. cbn [existsb].
  destruct (Z.eqb_spec x 0) as [->|]; cbn [negb orb]; [|discriminate].
  intros H. unfold queued_total in *. cbn [foldr]. rewrite (IH H).
  reflexivity.
Qed.

Lemma main_loop_run (fuel : nat) :
  forall (gs : list (list Z)) (all_sampled : bool) (s : t),
    pool_ok offset s -> _abort_event s = Some false ->
    (Z.to_nat (_num_processes s) + loop_measure s gs all_sampled < fuel)%nat ->
    exists (k : nat) (s' : t),
      main_loop worker_abort fuel (map Group gs) all_sampled s
      = (Some (if worker_abort (reads s + k)%nat
               then Raise RuntimeError else Ok tt), s')
      /\ (forall j, (j < k)%nat -> worker_abort (reads s + j)%nat = false)
      /\ loop_events (trace s')
         = loop_events (trace s) ++ clear_turns k
           ++ [Checked (worker_abort (reads s + k)%nat)]
      /\ pool_ok offset s'
      /\ same_pool s s'
      /\ _abort_event s' = Some (worker_abort (reads s + k)%nat)
      /\ (worker_abort (reads s + k)%nat = false ->
          py_any (_data_queued s') = false)
      /\ Z.of_nat (length (dispatches (trace s')))
         - queued_total (_data_queued s')
         = Z.of_nat (length (dispatches (trace s)))
           - queued_total (_data_queued s) + Z.of_nat k
      /\ (all_sampled = true \/ gs = [] ->
          dispatches (trace s') = dispatches (trace s))
      /\ (worker_abort (reads s + k)%nat = false ->
          Forall (fun g => g <> []) gs ->
          requests (trace s')
          = requests (trace s)
            ++ (if all_sampled then []
                else map (fun g => Some (Group g)) gs ++ [None])
          /\ length (dispatches (trace s'))
             = (length (dispatches (trace s))
                + (if all_sampled then 0 else length (concat gs)))%nat).
Proof.
  induction fuel as [|fuel IH]; intros gs all_sampled s Hok Hab Hfuel; [lia|].
  cbn [main_loop]. bind1. rewrite (is_set_run InLoop s false Hab).
  cbn [orb].
  set (s1 := with_trace _ _).
  assert (Hok1 : pool_ok offset s1).
  { apply (pool_ok_quiet s _ [EvIsSet InLoop (worker_abort (reads s))]);
      try reflexivity.
    exact Hok. }
  assert (Hdis1 : dispatches (trace s1) = dispatches (trace s)).
  { subst s1. cbn. rewrite dispatches_app, app_nil_r. reflexivity. }
  assert (Hreq1 : requests (trace s1) = requests (trace s)).
  { subst s1. cbn. rewrite requests_app, app_nil_r. reflexivity. }
  assert (Htot1 : queued_total (_data_queued s1)
                  = queued_total (_data_queued s)) by reflexivity.
  destruct (worker_abort (reads s)) eqn:Hb.
  - exists 0%nat, s1. rewrite Nat.add_0_r, Hb.
    split; [reflexivity|]. split; [intros; lia|].
    split; [subst s1; cbn; rewrite loop_events_app; reflexivity|].
    split; [exact Hok1|]. split; [repeat split|]. split; [reflexivity|].
    split; [discriminate|]. split; [rewrite Hdis1, Htot1; lia|].
    split; [intros _; exact Hdis1|]. discriminate.
  - set (blk := if negb all_sampled then _ else _).
    assert (Hblk : exists gs' as' s2,
               blk s1 = (Some (Ok (map Group gs', as')), s2)
               /\ pool_ok offset s2 /\ same_frame s1 s2
               /\ loop_events (trace s2) = loop_events (trace s1)
               /\ (loop_measure s2 gs' as'
                   <= loop_measure s1 gs all_sampled)%nat
               /\ Z.of_nat (length (dispatches (trace s2)))
                  - queued_total (_data_queued s2)
                  = Z.of_nat (length (dispatches (trace s1)))
                    - queued_total (_data_queued s1)
               /\ ((all_sampled = true /\ gs' = gs /\ as' = true
                    /\ requests (trace s2) = requests (trace s1)
                    /\ dispatches (trace s2) = dispatches (trace s1))
                   \/ (all_sampled = false /\ gs = [] /\ gs' = []
                       /\ as' = true
                       /\ requests (trace s2) = requests (trace s1) ++ [None]
                       /\ dispatches (trace s2) = dispatches (trace s1))
                   \/ (all_sampled = false /\ as' = false
                       /\ exists g, gs = g :: gs'
                          /\ requests (trace s2)
                             = requests (trace s1) ++ [Some (Group g)]
                          /\ length (dispatches (trace s2))
                             = (length (dispatches (trace s1)) + length g)%nat
                          /\ queued_total (_data_queued s2)
                             = queued_total (_data_queued s1)
                               + Z.of_nat (length g)))).
    { subst blk. destruct all_sampled; cbn [negb].
      - exists gs, true, s1. split; [reflexivity|].
        split; [exact Hok1|]. split; [apply same_frame_refl|].
        split; [reflexivity|]. split; [lia|]. split; [reflexivity|].
        left. repeat split.
      - destruct gs as [|g gs']; cbn [map next_item].
        + exists [], true, (with_trace (trace s1 ++ [EvNext None]) s1).
          split; [reflexivity|].
          split.
          { apply (pool_ok_quiet s1 _ [EvNext None]); try reflexivity.
            exact Hok1. }
          split; [repeat split|].
          split; [cbn; rewrite loop_events_app, app_nil_r; reflexivity|].
          split; [unfold loop_measure, groups_weight; cbn; lia|].
          split; [cbn; rewrite !dispatches_app, !app_nil_r; reflexivity|].
          right. left. cbn.
          rewrite !requests_app, !dispatches_app, !app_nil_r.
          repeat split.
        + set (s1' := with_trace (trace s1 ++ [EvNext (Some (Group g))]) s1).
          assert (Hok1' : pool_ok offset s1').
          { apply (pool_ok_quiet s1 _ [EvNext (Some (Group g))]);
              try reflexivity.
            exact Hok1. }
          destruct (enqueue_indices_run (map Idx g) s1' Hok1')
            as (s2 & Hrun & Hok2 & Hfr2 & Htr2 & Hdc2 & Htot2).
          assert (Hlen2 : length (dispatches (trace s2))
                          = (length (dispatches (trace s1)) + length g)%nat).
          { rewrite Htr2, dispatches_app, length_app,
              length_dispatches_round_robin, length_map.
            cbn. rewrite dispatches_app, app_nil_r. reflexivity. }
          rewrite length_map in Htot2.
          exists gs', false, s2.
          split.
          { run_monad.
            change (_enqueue_indices (map Idx g) _)
              with (_enqueue_indices (map Idx g) s1').
            rewrite Hrun. reflexivity. }
          split; [exact Hok2|].
          split.
          { eapply same_frame_trans; [|exact Hfr2]. repeat split. }
          split.
          { rewrite Htr2, loop_events_app, loop_events_round_robin, app_nil_r.
            cbn. rewrite loop_events_app, app_nil_r. reflexivity. }
          split.
          { unfold loop_measure, groups_weight. rewrite Htot2. cbn.
            pose proof (pool_total_nonneg _ Hok1') as Hnn. cbn in Hnn. lia. }
          split.
          { rewrite Hlen2, Htot2. cbn [_data_queued s1' with_trace]. lia. }
          right. right. split; [reflexivity|]. split; [reflexivity|].
          exists g. split; [reflexivity|].
          split; [|split; [exact Hlen2|exact Htot2]].
          rewrite Htr2, requests_app, requests_round_robin, app_nil_r.
          cbn. rewrite requests_app. reflexivity. }
    destruct Hblk
      as (gs' & as' & s2 & Hrun2 & Hok2 & Hfr2 & Hev2 & Hmu2 & Hbal2 & Hcase).
    bind1. rewrite Hrun2. bind1. cbn [get].
    assert (Hfr12 : same_pool s s2).
    { eapply same_pool_trans; [|apply same_frame_pool; exact Hfr2].
      repeat split. }
    assert (Hab2 : _abort_event s2 = Some false).
    { destruct Hfr2 as (_ & _ & _ & -> & _). reflexivity. }
    assert (Hrd2 : reads s2 = S (reads s)).
    { destruct Hfr2 as (_ & _ & _ & _ & _ & _ & ->). reflexivity. }
    assert (HN2 : _num_processes s2 = _num_processes s) by apply Hfr12.
    assert (Hbal12 : Z.of_nat (length (dispatches (trace s2)))
                     - queued_total (_data_queued s2)
                     = Z.of_nat (length (dispatches (trace s)))
                       - queued_total (_data_queued s)).
    { rewrite Hbal2, Hdis1, Htot1. reflexivity. }
    destruct (py_any (_data_queued s2)) eqn:Hany.
    + destruct (receive_data_run (S fuel) s2 Hok2 Hany ltac:(lia))
        as (conn & s3 & Hrun3 & Hok3 & Hfr3 & Htr3 & _ & Htot3).
      bind1. rewrite Hrun3. bind1. unfold emit at 1, modify at 1.
      set (s4 := with_trace (trace s3 ++ [EvYield conn]) s3).
      assert (Hok4 : pool_ok offset s4).
      { apply (pool_ok_quiet s3 _ [EvYield conn]); try reflexivity.
        exact Hok3. }
      assert (Hab4 : _abort_event s4 = Some false).
      { cbn. destruct Hfr3 as (_ & _ & _ & -> & _). exact Hab2. }
      assert (Hrd4 : reads s4 = S (reads s)).
      { cbn. destruct Hfr3 as (_ & _ & _ & _ & _ & _ & ->). exact Hrd2. }
      assert (Hfr14 : same_pool s s4).
      { eapply same_pool_trans; [exact Hfr12|].
        eapply same_pool_trans; [apply same_frame_pool; exact Hfr3|].
        repeat split. }
      assert (Hmu4 : (Z.to_nat (_num_processes s4)
                      + loop_measure s4 gs' as' < fuel)%nat).
      { replace (_num_processes s4) with (_num_processes s)
          by (symmetry; apply Hfr14).
        pose proof (pool_total_nonneg _ Hok3) as Hnn.
        unfold loop_measure, groups_weight, queued_total in *. cbn in *. lia. }
      assert (Hdis4 : dispatches (trace s4) = dispatches (trace s2)).
      { subst s4. cbn [trace with_trace].
        rewrite dispatches_app, Htr3, dispatches_app, !app_nil_r.
        reflexivity. }
      assert (Hreq4 : requests (trace s4) = requests (trace s2)).
      { subst s4. cbn [trace with_trace].
        rewrite requests_app, Htr3, requests_app, !app_nil_r. reflexivity. }
      assert (Htot4 : queued_total (_data_queued s4)
                      = queued_total (_data_queued s2) - 1) by exact Htot3.
      destruct (IH gs' as' s4 Hok4 Hab4 Hmu4)
        as (k & s' & Hrun & Hclear & Hev & Hok' & Hfr' & Hab'
            & Hdr & Hbal & Hnd & Hreq).
      rewrite Hrd4 in *.
      exists (S k), s'. rewrite Nat.add_succ_r.
      split; [exact Hrun|].
      split.
      { intros [|j] Hj; [rewrite Nat.add_0_r; exact Hb|].
        rewrite Nat.add_succ_r. apply Hclear. lia. }
      split.
      { rewrite Hev. subst s4. cbn [trace with_trace].
        rewrite loop_events_app, Htr3, loop_events_app, Hev2.
        subst s1. cbn [trace with_trace]. rewrite loop_events_app.
        cbn. rewrite <- !app_assoc. reflexivity. }
      split; [exact Hok'|].
      split; [eapply same_pool_trans; eauto|].
      split; [exact Hab'|].
      split; [exact Hdr|].
      split; [rewrite Hbal, Hdis4, Htot4; lia|].
      split.
      { intros Hpre. rewrite Hnd, Hdis4.
        - destruct Hcase as [(_ & _ & _ & _ & ->)|[(_ & _ & _ & _ & _ & ->)|
                             (Hf & _ & g & -> & _)]];
            try exact Hdis1.
          destruct Hpre; congruence.
        - destruct Hcase as [(_ & _ & -> & _)|[(_ & _ & _ & -> & _)|
                             (Hf & _ & g & -> & _)]]; auto.
          destruct Hpre; congruence. }
      intros Hna Hne.
      destruct Hcase as [(-> & -> & -> & Hr & Hd)|[(-> & -> & -> & -> & Hr & Hd)|
                         (-> & -> & g & -> & Hr & Hd & _)]].
      * destruct (Hreq Hna Hne) as [-> ->].
        rewrite Hreq4, Hr, Hreq1, Hdis4, Hd, Hdis1. split; reflexivity.
      * destruct (Hreq Hna Hne) as [-> ->].
        rewrite Hreq4, Hr, Hreq1, Hdis4, Hd, Hdis1, app_nil_r.
        split; reflexivity.
      * apply Forall_cons in Hne as [Hg Hne].
        destruct (Hreq Hna Hne) as [-> ->].
        rewrite Hreq4, Hr, Hreq1, Hdis4, Hd, Hdis1, <- app_assoc.
        cbn [concat map app]. rewrite length_app. split; [reflexivity|lia].
    + exists 0%nat, s2. rewrite Nat.add_0_r, Hb.
      split; [reflexivity|]. split; [intros; lia|].
      split.
      { rewrite Hev2. subst s1. cbn. rewrite loop_events_app. reflexivity. }
      split; [exact Hok2|]. split; [exact Hfr12|]. split; [exact Hab2|].
      split; [intros _; exact Hany|].
      split; [rewrite Hbal12; cbn; lia|].
      split.
      { intros Hpre.
        destruct Hcase as [(_ & _ & _ & _ & ->)|[(_ & _ & _ & _ & _ & ->)|
                           (Hf & _ & g & -> & _)]];
          try exact Hdis1.
        destruct Hpre; congruence. }
      intros _ Hne.
      destruct Hcase as [(-> & -> & -> & Hr & Hd)|[(-> & -> & -> & -> & Hr & Hd)|
                         (-> & -> & g & -> & Hr & Hd & Ht)]].
      * rewrite Hr, Hreq1, Hd, Hdis1, app_nil_r. split; [reflexivity|lia].
      * rewrite Hr, Hreq1, Hd, Hdis1. split; [reflexivity|cbn; lia].
      * exfalso. apply Forall_cons in Hne as [Hg _].
        pose proof (py_any_false_total _ Hany) as Hz.
        pose proof (pool_total_nonneg _ Hok1) as Hnn.
        destruct g; [congruence|]. cbn [length] in Ht. lia.
Qed.



Lemma fill_buffer_run (n : nat) :
  forall (gs : list (list Z)) (acc : list pyidx) (s : t),
    fill_buffer n (map Group gs) acc s
    = (Some (Ok (acc ++ map Group (firstn n gs), map Group (skipn n gs),
                 (length gs <? n)%nat)),
       with_trace (trace s ++ buffer_requests n gs) s).
Proof.
  induction n as [|n IH]; intros gs acc s.
  - cbn. rewrite !app_nil_r. destruct s; reflexivity.
  - destruct gs as [|g gs]; cbn [fill_buffer map next_item].
    + run_monad. rewrite app_nil_r. reflexivity.
    + run_monad. rewrite IH. cbn. rewrite <- !app_assoc. reflexivity.
Qed.

Lemma loop_events_buffer_requests (n : nat) (gs : list (list Z)) :
  loop_events (buffer_requests n gs) = [].
Proof.
  revert gs. induction n as [|n IH]; intros [|g gs]; cbn; auto.
Qed.

Lemma count_buffer_requests (p : event -> bool) (n : nat)
    (gs : list (list Z)) :
  (forall item, p (EvNext item) = false) ->
  count_events p (buffer_requests n gs) = 0.
Proof.
  intros Hp. revert gs.
  induction n as [|n IH]; intros [|g gs]; cbn; rewrite ?Hp, ?IH; reflexivity.
Qed.

Lemma dispatches_buffer_requests (n : nat) (gs : list (list Z)) :
  dispatches (buffer_requests n gs) = [].
Proof.
  revert gs. induction n as [|n IH]; intros [|g gs]; cbn; auto.
Qed.

Lemma pending_buffer_requests (n : nat) (gs : list (list Z)) (c : nat) :
  pending (buffer_requests n gs) c = 0.
Proof.
  unfold pending. rewrite !count_buffer_requests by reflexivity. lia.
Qed.

(** The loop of the shutdown ends in its first turn: the sentinel goes
    to the first worker, and the close of its process raises. *)
Lemma shutdown_loop_run (fuel : nat) (s : t) (dc ic pr : nat) :
  _data_pipes s !! 0%nat = Some dc ->
  _index_pipes s !! 0%nat = Some ic ->
  _processes s !! 0%nat = Some pr ->
  shutdown_loop (S fuel) 0 s
  = (Some (Raise ValueError),
     with_trace (trace s ++ [EvSend ic None; EvProcClose pr]) s).
Proof.
  intros Hdc Hic Hpr. cbn [shutdown_loop]. bind1. cbn [get].
  rewrite Hdc, Hic, Hpr. unfold close_then_join. run_monad.
  rewrite <- app_assoc. destruct s; reflexivity.
Qed.

Lemma groups_weight_skipn (n : nat) (gs : list (list Z)) :
  (groups_weight (skipn n gs) <= groups_weight gs)%nat.
Proof.
  revert gs. induction n as [|n IH]; intros [|g gs]; cbn [skipn]; try lia.
  specialize (IH gs).
  change (groups_weight (g :: gs))
    with (S (length g) + groups_weight gs)%nat.
  lia.
Qed.

Lemma event_set_run (s : t) (b0 : bool) :
  _abort_event s = Some b0 ->
  event_set s
  = (Some (Ok tt),
     with_trace (trace s ++ [EvEventSet]) (with_abort_event (Some true) s)).
Proof. intros H. unfold event_set. run_monad. rewrite H. reflexivity. Qed.

Lemma requests_buffer_requests (n : nat) (gs : list (list Z)) :
  requests (buffer_requests n gs)
  = map (fun g => Some (Group g)) (firstn n gs)
    ++ (if (length gs <? n)%nat then [None] else []).
Proof.
  revert gs. induction n as [|n IH]; intros [|g gs]; cbn [buffer_requests];
    try reflexivity.
  cbn [requests firstn map app length]. rewrite IH.
  change (S (length gs) <? S n)%nat with (length gs <? n)%nat. reflexivity.
Qed.

Lemma iter_try_run (fuel : nat) (gs : list (list Z)) (s : t) :
  pool_ok offset s -> _abort_event s = Some false ->
  queued_total (_data_queued s) = 0 ->
  (pass_fuel (_num_processes s) gs <= fuel)%nat ->
  exists (k : nat) (s' : t),
    iter_try worker_abort fuel (map Group gs) s
    = (Some (if worker_abort (reads s + k)%nat
             then Raise RuntimeError else Ok tt), s')
    /\ (forall j, (j < k)%nat -> worker_abort (reads s + j)%nat = false)
    /\ loop_events (trace s')
       = loop_events (trace s) ++ clear_turns k
         ++ [Checked (worker_abort (reads s + k)%nat)]
    /\ pool_ok offset s'
    /\ same_pool s s'
    /\ _abort_event s' = Some (worker_abort (reads s + k)%nat)
    /\ (worker_abort (reads s + k)%nat = false ->
        py_any (_data_queued s') = false)
    /\ Z.of_nat (length (dispatches (trace s')))
       - queued_total (_data_queued s')
       = Z.of_nat (length (dispatches (trace s))) + Z.of_nat k
    /\ ((length gs <= Z.to_nat (_num_processes s * 2))%nat ->
        dispatches (trace s')
        = dispatches (trace s)
          ++ dispatches (round_robin (_num_processes s)
                           (_index_pipe_counter s) (map Group gs)))
    /\ (worker_abort (reads s + k)%nat = false ->
        Forall (fun g => g <> [])
          (skipn (Z.to_nat (_num_processes s * 2)) gs) ->
        requests (trace s')
        = requests (trace s) ++ map (fun g => Some (Group g)) gs ++ [None]
        /\ length (dispatches (trace s'))
           = (length (dispatches (trace s))
              + length (firstn (Z.to_nat (_num_processes s * 2)) gs)
              + length (concat (skipn (Z.to_nat (_num_processes s * 2)) gs)))%nat).
Proof.
  intros Hok Hab Htot Hfuel.
  unfold iter_try. bind1. cbn [get]. bind1. rewrite fill_buffer_run.
  cbn [app].
  set (n2 := Z.to_nat (_num_processes s * 2)).
  set (s1 := with_trace (trace s ++ buffer_requests n2 gs) s).
  assert (Hok1 : pool_ok offset s1).
  { apply (pool_ok_quiet s _ (buffer_requests n2 gs)); try reflexivity.
    - exact Hok.
    - apply pending_buffer_requests.
    - apply dispatches_buffer_requests. }
  destruct (enqueue_indices_run (map Group (firstn n2 gs)) s1 Hok1)
    as (s2 & Hrun2 & Hok2 & Hfr2 & Htr2 & _ & Htot2).
  bind1. rewrite Hrun2.
  assert (Hab2 : _abort_event s2 = Some false).
  { destruct Hfr2 as (_ & _ & _ & -> & _). exact Hab. }
  assert (Hrd2 : reads s2 = reads s).
  { destruct Hfr2 as (_ & _ & _ & _ & _ & _ & ->). reflexivity. }
  assert (HN2 : _num_processes s2 = _num_processes s) by apply Hfr2.
  assert (Hdis2 : dispatches (trace s2)
                  = dispatches (trace s)
                    ++ dispatches (round_robin (_num_processes s)
                                     (_index_pipe_counter s)
                                     (map Group (firstn n2 gs)))).
  { rewrite Htr2, dispatches_app. cbn [trace s1 with_trace].
    rewrite dispatches_app, dispatches_buffer_requests, app_nil_r.
    reflexivity. }
  assert (Hreq2 : requests (trace s2)
                  = requests (trace s)
                    ++ map (fun g => Some (Group g)) (firstn n2 gs)
                    ++ (if (length gs <? n2)%nat then [None] else [])).
  { rewrite Htr2, requests_app, requests_round_robin, app_nil_r.
    cbn [trace s1 with_trace].
    rewrite requests_app, requests_buffer_requests. reflexivity. }
  rewrite length_map in Htot2. cbn [_data_queued s1 with_trace] in Htot2.
  rewrite Htot in Htot2.
  destruct (main_loop_run fuel (skipn n2 gs) (length gs <? n2)%nat s2 Hok2 Hab2)
    as (k & s' & Hrun & Hclear & Hev & Hok' & Hfr' & Hab'
        & Hdr & Hbal & Hnd & Hreq).
  { rewrite HN2. unfold loop_measure. rewrite Htot2, length_firstn.
    pose proof (groups_weight_skipn n2 gs).
    pose proof (ok_num _ _ Hok).
    unfold pass_fuel in Hfuel.
    destruct (length gs <? n2)%nat; lia. }
  rewrite Hrd2 in *.
  exists k, s'. split; [exact Hrun|]. split; [exact Hclear|].
  split.
  { rewrite Hev, Htr2, loop_events_app, loop_events_round_robin, app_nil_r.
    cbn. rewrite loop_events_app, loop_events_buffer_requests, app_nil_r.
    reflexivity. }
  split; [exact Hok'|].
  split.
  { eapply same_pool_trans; [|exact Hfr'].
    eapply same_pool_trans; [|apply same_frame_pool; exact Hfr2].
    repeat split. }
  split; [exact Hab'|]. split; [exact Hdr|].
  split.
  { rewrite Hbal, Hdis2, Htot2, !length_app, length_dispatches_round_robin,
      length_map.
    lia. }
  split.
  { intros Hlen. rewrite Hnd, Hdis2.
    - rewrite firstn_all2 by exact Hlen. reflexivity.
    - right. apply skipn_all2. exact Hlen. }
  intros Hna Hne.
  destruct (Hreq Hna Hne) as [-> ->].
  rewrite Hreq2, Hdis2, length_app, length_dispatches_round_robin, length_map.
  split.
  - destruct (Nat.ltb_spec (length gs) n2) as [Hlt|Hge].
    + rewrite firstn_all2 by lia. rewrite <- !app_assoc, app_nil_r.
      reflexivity.
    + rewrite app_nil_r, <- app_assoc. f_equal.
      rewrite app_assoc, <- map_app, firstn_skipn. reflexivity.
  - destruct (Nat.ltb_spec (length gs) n2) as [Hlt|Hge].
    + rewrite (skipn_all2 gs) by lia. cbn. lia.
    + lia.
Qed.

(** The shutdown of a pool with a worker in it: the flag is read and,
    if clear, set; the loop ends in its first turn, and the resets
    behind the loop are not reached. *)
Lemma shutdown_processes_run (s : t) (b0 : bool) (dc ic pr : nat) :
  _abort_event s = Some b0 ->
  _data_pipes s !! 0%nat = Some dc ->
  _index_pipes s !! 0%nat = Some ic ->
  _processes s !! 0%nat = Some pr ->
  _shutdown_processes worker_abort s
  = (Some (Raise ValueError),
     with_trace
       (trace s
        ++ [EvIsSet InShutdown (b0 || worker_abort (reads s))]
        ++ (if b0 || worker_abort (reads s) then [] else [EvEventSet])
        ++ [EvSend ic None; EvProcClose pr])
       (with_reads (S (reads s)) (with_abort_event (Some true) s))).
Proof.
  intros Hab Hdc Hic Hpr.
  unfold _shutdown_processes. bind1. rewrite (is_set_run InShutdown s b0 Hab).
  set (b := b0 || worker_abort (reads s)). bind1.
  destruct b eqn:Eb; cbn [negb].
  - unfold mret at 1, M_ret at 1. bind1. cbn [get]. bind1.
    rewrite (shutdown_loop_run _ _ dc ic pr) by assumption.
    cbn. rewrite <- !app_assoc. destruct s; reflexivity.
  - rewrite (event_set_run _ false) by reflexivity.
    bind1. cbn [get]. bind1.
    rewrite (shutdown_loop_run _ _ dc ic pr) by assumption.
    cbn. rewrite <- !app_assoc. destruct s; reflexivity.
Qed.

Lemma pool_lengths (s : t) :
  pool_ok offset s ->
  length (_data_queued s) = Z.to_nat (_num_processes s)
  /\ length (_index_pipes s) = Z.to_nat (_num_processes s)
  /\ length (_data_pipes s) = Z.to_nat (_num_processes s).
Proof.
  intros Hok. pose proof (ok_queued _ _ Hok) as Hq.
  rewrite (ok_index_pipes _ _ Hok), (ok_data_pipes _ _ Hok), !length_seq. lia.
Qed.

Lemma loop_events_start_events (h i n : nat) :
  loop_events (start_events h i n) = [].
Proof. revert h i. induction n as [|n IH]; intros h i; cbn; auto. Qed.

Lemma py_any_false (l : list Z) (i : nat) (q : Z) :
  py_any l = false -> l !! i = Some q -> q = 0.
Proof.
  revert i. induction l as [|x l IH]; intros i Hany Hq; [discriminate|].
  cbn in Hany. apply orb_false_elim in Hany as [Hx Hl].
  destruct i as [|i]; cbn in Hq.
  - injection Hq as <-. destruct (Z.eqb_spec x 0); [assumption|discriminate].
  - eapply IH; eauto.
Qed.

(** With nothing pending the search for a worker goes on for ever;
    it moves the collection cursor and nothing else. *)
Lemma skip_empty_all_zero (fuel : nat) :
  forall (p : Z) (s : t),
    pool_ok offset s -> 0 <= p < _num_processes s ->
    py_any (_data_queued s) = false ->
    exists c, skip_empty fuel p s = (None, with_data_pipe_counter c s)
              /\ 0 <= c < _num_processes s.
Proof.
  induction fuel as [|fuel IH]; intros p s Hok Hp Hany.
  - exists (_data_pipe_counter s). split; [|apply (ok_data_ctr _ _ Hok)].
    cbn. unfold hang. destruct s; reflexivity.
  - pose proof (ok_num _ _ Hok) as HN.
    destruct (pool_slot s p Hok Hp) as (q & Hq & _).
    assert (q = 0) as -> by (eapply py_any_false; eauto).
    cbn [skip_empty]. run_monad.
    rewrite (py_getitem_lookup _ _ _ (proj1 Hp) Hq). cbn.
    rewrite (next_data_pipe_run s HN). cbn.
    set (s1 := with_data_pipe_counter _ s).
    destruct (IH (_data_pipe_counter s) s1) as (c & Hrun & Hc).
    + apply with_data_pipe_counter_ok; [exact Hok|].
      apply Z.mod_pos_bound; lia.
    + apply (ok_data_ctr _ _ Hok).
    + exact Hany.
    + exists c. split; [|exact Hc]. rewrite Hrun. destruct s; reflexivity.
Qed.

Lemma receive_data_all_zero (fuel : nat) (s : t) :
  pool_ok offset s -> py_any (_data_queued s) = false ->
  exists c, _receive_data fuel s = (None, with_data_pipe_counter c s)
            /\ 0 <= c < _num_processes s.
Proof.
  intros Hok Hany. pose proof (ok_num _ _ Hok) as HN.
  unfold _receive_data. bind1. rewrite (next_data_pipe_run s HN).
  set (s1 := with_data_pipe_counter _ s).
  destruct (skip_empty_all_zero fuel (_data_pipe_counter s) s1)
    as (c & Hrun & Hc).
  - apply with_data_pipe_counter_ok; [exact Hok|].
    apply Z.mod_pos_bound; lia.
  - apply (ok_data_ctr _ _ Hok).
  - exact Hany.
  - exists c. split; [|exact Hc]. bind1. rewrite Hrun.
    destruct s; reflexivity.
Qed.

(** Enqueue and receive, in any order, keep the pool as it should be,
    and neither raises. *)
Lemma run_ops_ok (fuel : nat) (ops : list op) :
  forall s : t,
    pool_ok offset s -> (Z.to_nat (_num_processes s) <= fuel)%nat ->
    exists r s', run_ops fuel ops s = (r, s')
      /\ pool_ok offset s'
      /\ _num_processes s' = _num_processes s
      /\ (r = Some (Ok tt) \/ r = None).
Proof.
  induction ops as [|o ops IH]; intros s Hok Hfuel.
  - exists (Some (Ok tt)), s. cbn. auto.
  - unfold run_ops in *. cbn [for_each]. bind1.
    destruct o as [l|]; cbn [run_op].
    + destruct (enqueue_indices_run l s Hok) as (s1 & -> & Hok1 & Hfr & _).
      assert (HN1 : _num_processes s1 = _num_processes s) by apply Hfr.
      destruct (IH s1 Hok1) as (r & s' & Hrun & Hok' & HN' & Hr);
        [rewrite HN1; exact Hfuel|].
      exists r, s'. rewrite Hrun, HN', HN1. auto.
    + destruct (py_any (_data_queued s)) eqn:Hany.
      * destruct (receive_data_run fuel s Hok Hany Hfuel)
          as (conn & s1 & Hrun1 & Hok1 & Hfr & _).
        assert (HN1 : _num_processes s1 = _num_processes s) by apply Hfr.
        bind1. rewrite Hrun1. cbn.
        destruct (IH s1 Hok1) as (r & s' & Hrun & Hok' & HN' & Hr);
          [rewrite HN1; exact Hfuel|].
        exists r, s'. rewrite Hrun, HN', HN1. auto.
      * destruct (receive_data_all_zero fuel s Hok Hany) as (c & Hrun & Hc).
        bind1. rewrite Hrun. cbn. eexists _, _. split; [reflexivity|].
        split; [|auto].
        apply with_data_pipe_counter_ok; assumption.
Qed.

End PoolFacts.

Import _ParallelAugmenter.

(** The pool of a new augmenter dispatches from slot 0 on. *)
Lemma started_ok (worker_abort : nat -> bool) (sampler : sampler_obj) (N : Z) :
  0 < N -> pool_ok 0 (started worker_abort sampler N).
Proof.
  intros HN. unfold started. rewrite start_processes_fresh. cbn.
  assert (Hnone : forall h i n, dispatches (start_events h i n) = []).
  { intros h i n. revert h i. induction n as [|n IH]; intros h i; cbn; auto. }
  constructor; cbn.
  - exact HN.
  - rewrite length_replicate. lia.
  - rewrite length_replicate. reflexivity.
  - rewrite length_replicate. reflexivity.
  - lia.
  - lia.
  - intros i q Hq. apply lookup_replicate in Hq as [-> _].
    unfold pending. rewrite !count_start_events by reflexivity. lia.
  - rewrite Hnone. cbn. rewrite Z.mod_0_l by lia. reflexivity.
  - rewrite Hnone. intros k conn idxs H. rewrite lookup_nil in H.
    discriminate.
Qed.

(** Moving the dispatch cursor before anything was dispatched moves the
    slot of the first dispatch. *)
Lemma with_index_pipe_counter_ok (offset : Z) (s : t) (c : Z) :
  pool_ok offset s -> dispatches (trace s) = [] ->
  0 <= c < _num_processes s ->
  pool_ok c (with_index_pipe_counter c s).
Proof.
  intros Hok Hnone Hc. destruct Hok. constructor; cbn; try assumption.
  - rewrite Hnone. cbn. rewrite Z.add_0_r, Z.mod_small by lia. reflexivity.
  - rewrite Hnone. intros k conn idxs H. rewrite lookup_nil in H.
    discriminate.
Qed.

(** The calls of a shutdown request nothing from the sampler, dispatch
    nothing, are no event of the loop and leave the pending counts as
    they are. *)
Lemma shutdown_calls_quiet (tr : list event) :
  forallb is_shutdown_call tr = true ->
  requests tr = [] /\ (forall c, pending tr c = 0)
  /\ dispatches tr = [] /\ loop_events tr = [].
Proof.
  induction tr as [|ev tr IH]; [repeat split; reflexivity|].
  cbn [forallb]. intros H. apply andb_prop in H as [Hev Htr].
  destruct (IH Htr) as (Hr & Hp & Hd & Hl). split; [|split; [|split]].
  - destruct ev as [| [] | | |c [m|]| | | | | |]; try discriminate; exact Hr.
  - intros c. specialize (Hp c). unfold pending in *.
    destruct ev as [| [] | | |c' [m|]| | | | | |]; try discriminate;
      cbn; lia.
  - destruct ev as [| [] | | |c [m|]| | | | | |]; try discriminate; exact Hd.
  - destruct ev as [| [] | | |c [m|]| | | | | |]; try discriminate; exact Hl.
Qed.

(** Starting the workers requests nothing from the sampler. *)
Lemma requests_start_events (h i n : nat) : requests (start_events h i n) = [].
Proof. revert h i. induction n as [|n IH]; intros h i; cbn; auto. Qed.

Lemma dispatches_start_events (h i n : nat) :
  dispatches (start_events h i n) = [].
Proof. revert h i. induction n as [|n IH]; intros h i; cbn; auto. Qed.

(** The pool of a pass when it enters the guarded block. *)
Lemma entered_eq (worker_abort : nat -> bool) (sampler : sampler_obj) (N : Z) :
  0 < N ->
  entered worker_abort sampler N
  = mk sampler N (seq 0 (Z.to_nat N)) (seq 0 (Z.to_nat N))
       (seq 0 (Z.to_nat N)) (1 mod N) 0 (Some false)
       (replicate (Z.to_nat N) 0) true (start_events 0 0 (Z.to_nat N))
       (Z.to_nat N) 0%nat.
Proof.
  intros HN. unfold entered, started. rewrite start_processes_fresh.
  cbn [snd]. rewrite next_index_pipe_run by exact HN. cbn.
  destruct (Z.to_nat N) eqn:E; [lia|reflexivity].
Qed.

(** The pool as [__iter__] enters its guarded block dispatches from
    slot [1 mod N] on. *)
Lemma entered_ok (worker_abort : nat -> bool) (sampler : sampler_obj) (N : Z) :
  0 < N ->
  pool_ok (1 mod N) (entered worker_abort sampler N)
  /\ _num_processes (entered worker_abort sampler N) = N.
Proof.
  intros HN. pose proof (started_ok worker_abort sampler N HN) as Hok.
  assert (Hst : started worker_abort sampler N
                = mk sampler N (seq 0 (Z.to_nat N)) (seq 0 (Z.to_nat N))
                     (seq 0 (Z.to_nat N)) 0 0 (Some false)
                     (replicate (Z.to_nat N) 0) true
                     (start_events 0 0 (Z.to_nat N)) (Z.to_nat N) 0%nat).
  { unfold started. rewrite start_processes_fresh. cbn [snd].
    destruct (Z.to_nat N) eqn:E; [lia|reflexivity]. }
  unfold entered. rewrite next_index_pipe_run by (rewrite Hst; exact HN).
  cbn [snd]. split; [|rewrite Hst; reflexivity].
  replace (_index_pipe_counter (started worker_abort sampler N)) with 0
    by (rewrite Hst; reflexivity).
  replace (_num_processes (started worker_abort sampler N)) with N
    by (rewrite Hst; reflexivity).
  apply (with_index_pipe_counter_ok 0); [exact Hok| |].
  - rewrite Hst. cbn [trace].
    generalize 0%nat at 1 2. generalize (Z.to_nat N).
    intros n. induction n as [|n IH]; intros h; [reflexivity|].
    cbn. apply IH.
  - rewrite Hst. cbn [_num_processes]. apply Z.mod_pos_bound. lia.
Qed.

(** A first pass is the guarded block, run from the pool as entered,
    and then the [finally] clause. *)
Lemma first_pass_unfold (worker_abort : nat -> bool) (N : Z)
    (groups : list (list Z)) (fuel : nat) :
  0 < N ->
  first_pass worker_abort fuel (BatchSamplerInstance groups) N
  = try_finally (fun s => guarded worker_abort fuel groups N)
      (iter_finally worker_abort)
      (entered worker_abort (BatchSamplerInstance groups) N).
Proof.
  intros HN. unfold guarded. rewrite (entered_eq _ _ _ HN).
  unfold first_pass, __iter__. unfold mbind at 1, M_bind at 1. rewrite start_processes_fresh.
  unfold mbind at 1, M_bind at 1. rewrite next_index_pipe_run by exact HN.
  unfold mbind at 1, M_bind at 1. cbn [get]. unfold mbind at 1, M_bind at 1. cbn [_sampler with_index_pipe_counter py_iter lift].
  unfold mret at 1, M_ret at 1. cbn [_index_pipe_counter _num_processes].
  destruct (Z.to_nat N) eqn:E; [lia|]. reflexivity.
Qed.

(** The guarded block of a first pass with [N >= 1] workers over a
    batch sampler: how it ends, what the loop did, and the pool it
    leaves to the [finally] clause. *)
Lemma guarded_run (worker_abort : nat -> bool) (N : Z)
    (groups : list (list Z)) (fuel : nat) :
  0 < N -> (pass_fuel N groups <= fuel)%nat ->
  exists (k : nat) (g : t),
    guarded worker_abort fuel groups N
    = (Some (if worker_abort k then Raise RuntimeError else Ok tt), g)
    /\ (forall j, (j < k)%nat -> worker_abort j = false)
    /\ loop_events (trace g) = clear_turns k ++ [Checked (worker_abort k)]
    /\ pool_ok (1 mod N) g
    /\ _num_processes g = N
    /\ _processes g = seq 0 (Z.to_nat N)
    /\ _processes_running g = true
    /\ _abort_event g = Some (worker_abort k)
    /\ (worker_abort k = false -> py_any (_data_queued g) = false)
    /\ Z.of_nat (length (dispatches (trace g)))
       - queued_total (_data_queued g) = Z.of_nat k
    /\ ((length groups <= Z.to_nat (N * 2))%nat ->
        dispatches (trace g)
        = dispatches (round_robin N (1 mod N) (map Group groups)))
    /\ (worker_abort k = false ->
        Forall (fun g => g <> []) (skipn (Z.to_nat (N * 2)) groups) ->
        requests (trace g) = map (fun g => Some (Group g)) groups ++ [None]
        /\ length (dispatches (trace g))
           = (length (firstn (Z.to_nat (N * 2)) groups)
              + length (concat (skipn (Z.to_nat (N * 2)) groups)))%nat).
Proof.
  intros HN Hfuel.
  destruct (entered_ok worker_abort (BatchSamplerInstance groups) N HN)
    as [Hok1 _].
  unfold guarded. rewrite (entered_eq _ _ _ HN) in *.
  set (s1 := mk _ _ _ _ _ _ _ _ _ _ _ _ _) in *.
  assert (Hloop0 : loop_events (trace s1) = [])
    by apply loop_events_start_events.
  assert (Hdis0 : dispatches (trace s1) = [])
    by apply dispatches_start_events.
  assert (Hreq0 : requests (trace s1) = []) by apply requests_start_events.
  assert (Htot1 : queued_total (_data_queued s1) = 0)
    by apply queued_total_replicate.
  destruct (iter_try_run worker_abort (1 mod N) fuel groups s1 Hok1 eq_refl
              Htot1 Hfuel)
    as (k & s2 & Hrun2 & Hclear & Hev2 & Hok2 & Hfr2 & Hab2
        & Hdr & Hbal & Hshort & Hreq).
  change (reads s1) with 0%nat in *. cbn [Nat.add] in *.
  change (_num_processes s1) with N in *.
  change (_index_pipe_counter s1) with (1 mod N) in *.
  rewrite Hloop0 in Hev2. cbn [app] in Hev2.
  rewrite Hdis0 in Hbal, Hshort, Hreq. rewrite Hreq0 in Hreq.
  cbn [app length Nat.add] in Hbal, Hshort, Hreq.
  assert (HN2 : _num_processes s2 = N) by apply Hfr2.
  assert (Hpr2 : _processes s2 = seq 0 (Z.to_nat N)).
  { destruct Hfr2 as (_ & _ & -> & _). reflexivity. }
  assert (Hrun : _processes_running s2 = true).
  { destruct Hfr2 as (_ & _ & _ & -> & _). reflexivity. }
  exists k. unfold try_except. rewrite Hrun2.
  destruct (worker_abort k) eqn:Hk.
  - unfold iter_except. unfold mbind at 1, M_bind at 1.
    rewrite (event_set_run s2 true Hab2).
    unfold raise. eexists. split; [reflexivity|].
    set (g := with_trace _ _).
    assert (Hokg : pool_ok (1 mod N) g).
    { apply (pool_ok_quiet (1 mod N) s2 g [EvEventSet]);
        try reflexivity; first [exact Hok2 | intros c; reflexivity]. }
    assert (Hdis : dispatches (trace g) = dispatches (trace s2)).
    { subst g. cbn. rewrite dispatches_app, app_nil_r. reflexivity. }
    split; [exact Hclear|]. split.
    { subst g. cbn. rewrite loop_events_app, app_nil_r. exact Hev2. }
    split; [exact Hokg|]. split; [exact HN2|]. split; [exact Hpr2|].
    split; [exact Hrun|]. split; [reflexivity|].
    split; [discriminate|].
    split; [rewrite Hdis; exact Hbal|].
    split; [rewrite Hdis; exact Hshort|]. discriminate.
  - eexists. split; [reflexivity|].
    split; [exact Hclear|]. split; [exact Hev2|].
    split; [exact Hok2|]. split; [exact HN2|]. split; [exact Hpr2|].
    split; [exact Hrun|]. split; [exact Hab2|].
    split; [exact Hdr|]. split; [exact Hbal|]. split; [exact Hshort|].
    exact Hreq.
Qed.

(** Every first pass with [N >= 1] workers over a batch sampler ends in
    the [finally] clause, with the ValueError of the shutdown. *)
Lemma first_pass_guarded (worker_abort : nat -> bool) (N : Z)
    (groups : list (list Z)) (fuel : nat) :
  0 < N -> (pass_fuel N groups <= fuel)%nat ->
  first_pass worker_abort fuel (BatchSamplerInstance groups) N
  = (Some (Raise ValueError),
     after_shutdown worker_abort (snd (guarded worker_abort fuel groups N))).
Proof.
  intros HN Hfuel. rewrite (first_pass_unfold _ _ _ _ HN).
  destruct (guarded_run worker_abort N groups fuel HN Hfuel)
    as (k & g & Hg & _ & _ & Hok & HNg & Hpr & Hrun & Hab & _).
  unfold try_finally. rewrite Hg. cbn [snd].
  destruct (pool_lengths (1 mod N) g Hok) as (Hl1 & Hl2 & Hl3).
  assert (Hn : (0 < Z.to_nat N)%nat) by lia.
  assert (Hip : _index_pipes g !! 0%nat = Some 0%nat).
  { rewrite (ok_index_pipes _ _ Hok), Hl1, HNg.
    apply lookup_seq_lt. exact Hn. }
  assert (Hdp : _data_pipes g !! 0%nat = Some 0%nat).
  { rewrite (ok_data_pipes _ _ Hok), Hl1, HNg.
    apply lookup_seq_lt. exact Hn. }
  assert (Hp0 : _processes g !! 0%nat = Some 0%nat).
  { rewrite Hpr. apply lookup_seq_lt. exact Hn. }
  assert (Hfin : iter_finally worker_abort g
                 = (Some (Raise ValueError), after_shutdown worker_abort g)).
  { unfold iter_finally. unfold mbind at 1, M_bind at 1. cbn [get]. rewrite Hrun.
    rewrite (shutdown_processes_run worker_abort g _ 0 0 0 Hab Hdp Hip Hp0).
    unfold after_shutdown. rewrite Hab. reflexivity. }
  rewrite Hfin. destruct (worker_abort k); reflexivity.
Qed.

(** A first pass with [N >= 1] workers over a batch sampler: how it
    ends, what the loop did, where the dispatches went and what the
    shutdown left behind. *)
Lemma first_pass_run (worker_abort : nat -> bool) (N : Z)
    (groups : list (list Z)) (fuel : nat) :
  0 < N -> (pass_fuel N groups <= fuel)%nat ->
  exists (k : nat) (s' : t),
    first_pass worker_abort fuel (BatchSamplerInstance groups) N
    = (Some (Raise ValueError), s')
    /\ (forall j, (j < k)%nat -> worker_abort j = false)
    /\ loop_events (trace s') = clear_turns k ++ [Checked (worker_abort k)]
    /\ (forall (i conn : nat) (idxs : pyidx),
          dispatches (trace s') !! i = Some (conn, idxs) ->
          conn = Z.to_nat ((Z.of_nat i + 1) mod N))
    /\ pool_ok (1 mod N) s'
    /\ _num_processes s' = N
    /\ length (_processes s') = Z.to_nat N
    /\ _processes_running s' = true
    /\ _abort_event s' = Some true
    /\ (worker_abort k = false -> py_any (_data_queued s') = false)
    /\ Z.of_nat (length (dispatches (trace s')))
       - queued_total (_data_queued s') = Z.of_nat k
    /\ ((length groups <= Z.to_nat (N * 2))%nat ->
        map snd (dispatches (trace s')) = map Group groups)
    /\ (worker_abort k = false ->
        Forall (fun g => g <> []) (skipn (Z.to_nat (N * 2)) groups) ->
        requests (trace s') = map (fun g => Some (Group g)) groups ++ [None]
        /\ length (dispatches (trace s'))
           = (length (firstn (Z.to_nat (N * 2)) groups)
              + length (concat (skipn (Z.to_nat (N * 2)) groups)))%nat).
Proof.
  intros HN Hfuel.
  destruct (guarded_run worker_abort N groups fuel HN Hfuel)
    as (k & g & Hg & Hclear & Hev & Hok & HNg & Hpr & Hrun & Hab & Hdr
        & Hbal & Hshort & Hreq).
  exists k, (after_shutdown worker_abort g).
  rewrite (first_pass_guarded _ _ _ _ HN Hfuel), Hg. cbn [snd].
  split; [reflexivity|].
  assert (Htr : exists tr,
             trace (after_shutdown worker_abort g) = trace g ++ tr
             /\ forallb is_shutdown_call tr = true).
  { unfold after_shutdown. cbn [trace with_trace]. eexists.
    split; [reflexivity|].
    destruct (_ || _); reflexivity. }
  destruct Htr as (tr & Htr & Hquiet).
  destruct (shutdown_calls_quiet tr Hquiet) as (Hrq & Hpq & Hdq & Hlq).
  assert (Hdis : dispatches (trace (after_shutdown worker_abort g))
                 = dispatches (trace g))
    by (rewrite Htr, dispatches_app, Hdq, app_nil_r; reflexivity).
  assert (Hok' : pool_ok (1 mod N) (after_shutdown worker_abort g)).
  { apply (pool_ok_quiet (1 mod N) g _ tr); try reflexivity; assumption. }
  split; [exact Hclear|].
  split; [rewrite Htr, loop_events_app, Hlq, app_nil_r; exact Hev|].
  split.
  { intros i conn idxs H. rewrite (ok_slots _ _ Hok' _ _ _ H).
    change (_num_processes (after_shutdown worker_abort g))
      with (_num_processes g).
    rewrite HNg, Zplus_mod_idemp_l. do 2 f_equal. lia. }
  split; [exact Hok'|]. split; [exact HNg|].
  split; [change (_processes (after_shutdown worker_abort g))
            with (_processes g); rewrite Hpr; apply length_seq|].
  split; [exact Hrun|]. split; [reflexivity|].
  split; [exact Hdr|]. split; [rewrite Hdis; exact Hbal|].
  split.
  { intros Hlen. rewrite Hdis, (Hshort Hlen). apply dispatches_round_robin. }
  intros Hna Hne. destruct (Hreq Hna Hne) as [Hr Hd].
  split; [|rewrite Hdis; exact Hd].
  rewrite Htr, requests_app, Hrq, app_nil_r. exact Hr.
Qed.

(** The sends of an enqueue go round the pool: the [j]-th of them goes
    to slot [(ctr + j) mod N]. *)
Lemma round_robin_slot (N ctr : Z) (l : list pyidx) (j : nat) (idxs : pyidx) :
  0 < N -> 0 <= ctr < N ->
  l !! j = Some idxs ->
  round_robin N ctr l !! j
  = Some (EvSend (Z.to_nat ((ctr + Z.of_nat j) mod N)) (Some idxs)).
Proof.
  intros HN. revert ctr j. induction l as [|x l IH]; intros ctr j Hc Hj.
  - discriminate.
  - destruct j as [|j]; cbn [round_robin]; cbn in Hj.
    + injection Hj as ->. cbn. rewrite Z.add_0_r, Z.mod_small by lia.
      reflexivity.
    + change ((?a :: ?l') !! S j) with (l' !! j).
      rewrite (IH _ j (Z.mod_pos_bound _ _ HN) Hj).
      rewrite Zplus_mod_idemp_l.
      replace (ctr + 1 + Z.of_nat j) with (ctr + Z.of_nat (S j)) by lia.
      reflexivity.
Qed.

(** C8.  In a started pool of [N >= 1] workers, after any run of
    enqueue and receive operations, in any order, the pending counter of
    every slot is the number of index groups sent to that slot's worker
    minus the number of batches received from it, and it is not
    negative.  Only these two operations of the coordinator change the
    counters: an enqueue adds one per dispatched group, a receive takes
    one off a slot whose counter is not zero.  The dispatch cursor and
    the collection cursor move on their own. *)
Theorem pending_counters_never_negative (worker_abort : nat -> bool)
    (sampler : sampler_obj) (N : Z) (ops : list op) (fuel : nat)
    (slot : nat) (q : Z) :
  0 < N -> (Z.to_nat N <= fuel)%nat ->
  _data_queued (snd (run_ops fuel ops (started worker_abort sampler N)))
    !! slot = Some q ->
  0 <= q
  /\ q = pending
           (trace (snd (run_ops fuel ops (started worker_abort sampler N))))
           slot.
Proof.
  intros HN Hfuel Hq.
  pose proof (started_ok worker_abort sampler N HN) as Hok.
  destruct (run_ops_ok 0 fuel ops _ Hok) as (r & s' & Hrun & Hok' & _).
  { unfold started. rewrite start_processes_fresh. exact Hfuel. }
  rewrite Hrun in *. cbn [snd] in *.
  destruct (ok_pending _ _ Hok' _ _ Hq) as [-> ?].
  split; [assumption|reflexivity].
Qed.

Lemma pending_counters_never_negative_witness :
  0 <= 1
  /\ 1 = pending
           (trace
              (snd (run_ops 3
                      [OpEnqueue [Group [0; 1]; Group [2; 3]; Group [4; 5];
                                  Group [6; 7]; Group [8; 9]];
                       OpReceive; OpReceive;
                       OpEnqueue [Group [10; 11]];
                       OpReceive]
                      (started (fun _ => false) (BatchSamplerInstance []) 3))))
           0%nat.
Proof.
  apply (pending_counters_never_negative (fun _ => false)
           (BatchSamplerInstance []) 3 _ 3%nat 0%nat 1);
    [lia | lia | reflexivity].
Defined.

(** In a pass of a new parallel augmenter with [N >= 1] workers over a
    batch sampler, the coordinator reads the abort flag once in every
    turn of its loop, before it collects: the flag checks and the
    yields of the pass alternate, check, yield, check, yield, and end
    with a check.  As long as the checks find the flag clear a batch is
    yielded after each; the first check that finds it set raises
    RuntimeError inside the guarded block at once, with no batch after
    it.  What leaves the pass is in either case the ValueError of the
    shutdown in the [finally] clause. *)
Lemma flag_checked_every_turn (worker_abort : nat -> bool) (N : Z)
    (groups : list (list Z)) (fuel : nat) :
  0 < N -> (pass_fuel N groups <= fuel)%nat ->
  exists k : nat,
    fst (guarded worker_abort fuel groups N)
    = Some (if worker_abort k then Raise RuntimeError else Ok tt)
    /\ (forall j, (j < k)%nat -> worker_abort j = false)
    /\ loop_events
         (trace
            (snd (first_pass worker_abort fuel (BatchSamplerInstance groups) N)))
       = clear_turns k ++ [Checked (worker_abort k)]
    /\ fst (first_pass worker_abort fuel (BatchSamplerInstance groups) N)
       = Some (Raise ValueError).
Proof.
  intros HN Hfuel.
  destruct (guarded_run worker_abort N groups fuel HN Hfuel)
    as (k & g & Hg & Hclear & Hev & _).
  exists k. rewrite (first_pass_guarded _ _ _ _ HN Hfuel), Hg.
  cbn [fst snd]. split; [reflexivity|]. split; [exact Hclear|].
  split; [|reflexivity].
  unfold after_shutdown. cbn [trace with_trace].
  rewrite loop_events_app, Hev.
  destruct (_ || _); cbn; rewrite app_nil_r; reflexivity.
Qed.

(** C7.  The failure the coordinator raises when it finds the abort
    flag set does not reach the caller.  With two workers and a batch
    sampler that yields the groups 0 1 and 2 3, when a worker has set
    the flag by the second check: the first check finds the flag clear
    and a batch is yielded, the second check finds it set and the
    guarded block raises RuntimeError at once, with no batch after it;
    but the shutdown in the [finally] clause then raises ValueError,
    and that is the error the pass ends with. *)
Theorem abort_error_replaced_by_shutdown_error :
  loop_events
    (trace (snd (first_pass (fun j => Nat.leb 1 j) 20
                   (BatchSamplerInstance [[0; 1]; [2; 3]]) 2)))
  = [Checked false; Yielded; Checked true]
  /\ fst (guarded (fun j => Nat.leb 1 j) 20 [[0; 1]; [2; 3]] 2)
     = Some (Raise RuntimeError)
  /\ fst (first_pass (fun j => Nat.leb 1 j) 20
            (BatchSamplerInstance [[0; 1]; [2; 3]]) 2)
     = Some (Raise ValueError).
Proof. vm_compute. repeat split. Qed.

(** ** Passes that go wrong *)

(** What the loop does with a group it got from the sampler: handed to
    [_enqueue_indices] as it is, the group is taken apart and every
    index in it is sent on its own, each to the next slot. *)
Lemma bare_group_sent_index_by_index (offset : Z) (s : t) (g : list Z) :
  pool_ok offset s ->
  exists s',
    (items ← lift (py_items (Group g)); _enqueue_indices items) s
    = (Some (Ok tt), s')
    /\ trace s' = trace s
         ++ round_robin (_num_processes s) (_index_pipe_counter s) (map Idx g)
    /\ queued_total (_data_queued s')
       = queued_total (_data_queued s) + Z.of_nat (length g).
Proof.
  intros Hok.
  destruct (enqueue_indices_run offset (map Idx g) s Hok)
    as (s' & Hrun & _ & _ & Htr & _ & Htot).
  exists s'. cbn [py_items lift].
  unfold mbind at 1, M_bind at 1, mret at 1, M_ret at 1.
  rewrite Hrun, Htr, Htot, length_map. auto.
Qed.

(** C2.  After the buffer is filled the loop does not dispatch one
    index group per collected batch.  With one worker and a batch
    sampler that yields the groups 0 1, 2 3 and 4 5, the messages
    dispatched in a pass are four: the two groups of the buffer, sent
    as groups, and then, for the group 4 5 that the loop requests in
    its first turn, two messages, the bare index 4 and the bare index
    5.  The flag is taken to be found set at the third check, after
    the worker has met the first bare index. *)
Theorem loop_dispatches_indices_not_group :
  dispatches
    (trace (snd (first_pass (fun j => Nat.leb 2 j) 20
                   (BatchSamplerInstance [[0; 1]; [2; 3]; [4; 5]]) 1)))
  = [(0%nat, Group [0; 1]); (0%nat, Group [2; 3]);
     (0%nat, Idx 4); (0%nat, Idx 5)].
Proof. vm_compute. reflexivity. Qed.

(** C3.  The shutdown at the end of a pass is not carried out.  With
    two workers and a batch sampler that yields the one group 0 1, the
    loop of the pass ends on its own after one batch, and the shutdown
    in the [finally] clause sets the abort event, sends the sentinel to
    worker 0 and calls [close] on its process, where it raises
    ValueError: the pass ends with that error.  Worker 1 gets no
    sentinel, no process is joined and no pipe is closed; the process
    list, the two pipe lists and the pending counters keep their two
    entries, and the running flag stays set. *)
Theorem shutdown_raises_in_first_turn :
  first_pass (fun _ => false) 20 (BatchSamplerInstance [[0; 1]]) 2
  = (Some (Raise ValueError),
     mk (BatchSamplerInstance [[0; 1]]) 2 [0%nat; 1%nat] [0%nat; 1%nat]
        [0%nat; 1%nat] 0 0 (Some true) [0; 0] true
        [EvStart 0 0; EvStart 1 1;
         EvNext (Some (Group [0; 1])); EvNext None;
         EvSend 1 (Some (Group [0; 1]));
         EvIsSet InLoop false; EvRecv 1; EvYield 1;
         EvIsSet InLoop false;
         EvIsSet InShutdown false; EvEventSet;
         EvSend 0 None; EvProcClose 0]
        2%nat 3%nat).
Proof. vm_compute. reflexivity. Qed.

(** A parallel augmenter built with an element sampler starts its
    workers, fails to iterate over the stored class before the guarded
    block is entered, and so never shuts the workers down. *)
Lemma element_sampler_pass_never_shuts_down :
  __init__ (ElementSampler [0; 1; 2]) (Some 2) 4 1 false
  = Ok (fresh BatchSamplerClass 2)
  /\ __iter__ (fun _ => false) 20 (fresh BatchSamplerClass 2)
     = (Some (Raise TypeError),
        mk BatchSamplerClass 2 [0%nat; 1%nat] [0%nat; 1%nat] [0%nat; 1%nat]
           1 0 (Some false) [0; 0] true [EvStart 0 0; EvStart 1 1]
           2%nat 0%nat).
Proof. split; vm_compute; reflexivity. Qed.

(** In every first pass the dispatch number [i], counted from 0, goes
    to slot [(i + 1) mod N]. *)
Lemma dispatch_goes_to_next_slot (worker_abort : nat -> bool) (N : Z)
    (groups : list (list Z)) (fuel : nat) (i conn : nat) (idxs : pyidx) :
  0 < N -> (pass_fuel N groups <= fuel)%nat ->
  dispatches
    (trace (snd (first_pass worker_abort fuel (BatchSamplerInstance groups) N)))
    !! i = Some (conn, idxs) ->
  conn = Z.to_nat ((Z.of_nat i + 1) mod N).
Proof.
  intros HN Hfuel.
  destruct (first_pass_run worker_abort N groups fuel HN Hfuel)
    as (k & s' & Hrun & _ & _ & Hslots & _).
  rewrite Hrun. cbn [snd]. apply Hslots.
Qed.

(** Without the read of the cursor at the head of [__iter__], that is
    from the pool as [_start_processes] leaves it, the dispatch number
    [i] goes to slot [i mod N]. *)
Lemma dispatch_from_started_pool (worker_abort : nat -> bool)
    (sampler : sampler_obj) (N : Z) (ops : list op) (fuel : nat)
    (i conn : nat) (idxs : pyidx) :
  0 < N -> (Z.to_nat N <= fuel)%nat ->
  dispatches
    (trace (snd (run_ops fuel ops (started worker_abort sampler N))))
    !! i = Some (conn, idxs) ->
  conn = Z.to_nat (Z.of_nat i mod N).
Proof.
  intros HN Hfuel.
  pose proof (started_ok worker_abort sampler N HN) as Hok.
  assert (Hnum : _num_processes (started worker_abort sampler N) = N).
  { unfold started. rewrite start_processes_fresh. reflexivity. }
  destruct (run_ops_ok 0 fuel ops _ Hok) as (r & s' & Hrun & Hok' & HN' & _).
  { rewrite Hnum. exact Hfuel. }
  rewrite Hrun. cbn [snd]. intros H.
  rewrite (ok_slots _ _ Hok' _ _ _ H), HN', Hnum, Z.add_0_l. reflexivity.
Qed.

(** C5.  The dispatch does not start at slot 0.  With three workers and
    a batch sampler that yields six groups, the six groups of the buffer
    go to the slots 1, 2, 0, 1, 2, 0: the group number [k] goes to
    slot [(k + 1) mod 3], not to slot [k mod 3]. *)
Theorem dispatch_starts_at_slot_one :
  dispatches
    (trace (snd (first_pass (fun _ => false) 30
                   (BatchSamplerInstance [[0]; [1]; [2]; [3]; [4]; [5]]) 3)))
  = [(1%nat, Group [0]); (2%nat, Group [1]); (0%nat, Group [2]);
     (1%nat, Group [3]); (2%nat, Group [4]); (0%nat, Group [5])].
Proof. vm_compute. reflexivity. Qed.

(** ** More on the passes of the parallel augmenter

    The passes below are over a batch sampler that yields at most
    [2 * N] index groups, so that every message a worker gets is an
    index group; and where a pass is said to end with the flag clear,
    the workers have answered every group. *)

(** The last check of a pass, read off its events. *)
Lemma last_check_clear (worker_abort : nat -> bool) (k : nat)
    (evs : list loop_event) :
  evs = clear_turns k ++ [Checked (worker_abort k)] ->
  last evs = Some (Checked false) -> worker_abort k = false.
Proof.
  intros -> H. rewrite last_snoc in H. injection H as H. exact H.
Qed.

(** X1.  In a first pass over at most [2 * N] index groups whose last
    check found the abort flag clear, nothing is left pending when the
    loop ends: for every worker slot, as many batches were received
    from the worker as index groups were sent to it, and its pending
    counter is back at 0. *)
Theorem pass_leaves_nothing_pending (worker_abort : nat -> bool) (N : Z)
    (groups : list (list Z)) (fuel : nat) (slot : nat) :
  0 < N -> (pass_fuel N groups <= fuel)%nat ->
  (length groups <= Z.to_nat (N * 2))%nat ->
  last (loop_events
          (trace (snd (first_pass worker_abort fuel
                         (BatchSamplerInstance groups) N))))
  = Some (Checked false) ->
  (slot < Z.to_nat N)%nat ->
  count_events (is_recv_from slot)
    (trace (snd (first_pass worker_abort fuel (BatchSamplerInstance groups) N)))
  = count_events (is_dispatch_to slot)
      (trace (snd (first_pass worker_abort fuel (BatchSamplerInstance groups) N)))
  /\ _data_queued
       (snd (first_pass worker_abort fuel (BatchSamplerInstance groups) N))
     !! slot = Some 0.
Proof.
  intros HN Hfuel _ Hend Hslot.
  destruct (first_pass_run worker_abort N groups fuel HN Hfuel)
    as (k & s' & Hrun & _ & Hev & _ & Hok & HN' & _ & _ & _ & Hdr & _).
  rewrite Hrun in *. cbn [fst snd] in *.
  pose proof (Hdr (last_check_clear _ _ _ Hev Hend)) as Hany.
  destruct (pool_lengths _ _ Hok) as (Hl & _).
  destruct (lookup_lt_is_Some_2 (_data_queued s') slot) as [q Hq];
    [rewrite Hl, HN'; exact Hslot|].
  assert (q = 0) as -> by (eapply py_any_false; eauto).
  destruct (ok_pending _ _ Hok _ _ Hq) as [Hp _].
  unfold pending in Hp. split; [lia|exact Hq].
Qed.

Lemma pass_leaves_nothing_pending_witness :
  count_events (is_recv_from 1)
    (trace (snd (first_pass (fun _ => false) 20
                   (BatchSamplerInstance [[0; 1]; [2; 3]; [4; 5]]) 2)))
  = count_events (is_dispatch_to 1)
      (trace (snd (first_pass (fun _ => false) 20
                   (BatchSamplerInstance [[0; 1]; [2; 3]; [4; 5]]) 2)))
  /\ _data_queued
       (snd (first_pass (fun _ => false) 20
                   (BatchSamplerInstance [[0; 1]; [2; 3]; [4; 5]]) 2))
     !! 1%nat = Some 0.
Proof.
  apply (pass_leaves_nothing_pending (fun _ => false) 2
           [[0; 1]; [2; 3]; [4; 5]] 20 1);
    [lia | vm_compute; lia | vm_compute; lia | reflexivity
    | vm_compute; lia].
Defined.

(** X2.  A first pass over at most [2 * N] index groups whose last
    check found the abort flag clear has yielded exactly one batch per
    index group: its loop makes as many check-and-yield turns as the
    sampler has groups, and then the one check after which it ends. *)
Theorem short_pass_yields_one_batch_per_group (worker_abort : nat -> bool)
    (N : Z) (groups : list (list Z)) (fuel : nat) :
  0 < N -> (pass_fuel N groups <= fuel)%nat ->
  (length groups <= Z.to_nat (N * 2))%nat ->
  last (loop_events
          (trace (snd (first_pass worker_abort fuel
                         (BatchSamplerInstance groups) N))))
  = Some (Checked false) ->
  loop_events
    (trace (snd (first_pass worker_abort fuel (BatchSamplerInstance groups) N)))
  = clear_turns (length groups) ++ [Checked false].
Proof.
  intros HN Hfuel Hshort Hend.
  destruct (first_pass_run worker_abort N groups fuel HN Hfuel)
    as (k & s' & Hrun & _ & Hev & _ & _ & _ & _ & _ & _ & Hdr & Hbal
        & Hwhole & _).
  rewrite Hrun in *. cbn [fst snd] in *.
  pose proof (last_check_clear _ _ _ Hev Hend) as Hk.
  pose proof (py_any_false_total _ (Hdr Hk)) as Hz.
  assert (Hlen : length (dispatches (trace s')) = length groups).
  { rewrite <- (length_map snd), (Hwhole Hshort), length_map. reflexivity. }
  assert (k = length groups) as <- by lia.
  rewrite Hev, Hk. reflexivity.
Qed.

Lemma short_pass_yields_one_batch_per_group_witness :
  loop_events
    (trace (snd (first_pass (fun _ => false) 20
                   (BatchSamplerInstance [[0; 1]; [2; 3]; [4; 5]]) 2)))
  = clear_turns (length [[0; 1]; [2; 3]; [4; 5]]) ++ [Checked false].
Proof.
  apply (short_pass_yields_one_batch_per_group (fun _ => false) 2
           [[0; 1]; [2; 3]; [4; 5]] 20);
    [lia | vm_compute; lia | vm_compute; lia | reflexivity].
Defined.

(** X3.  A first pass over at most [2 * N] index groups whose last
    check found the abort flag clear has asked the sampler for every
    group exactly once, in the sampler's order, and then once more to
    find it exhausted. *)
Theorem pass_requests_every_group_once (worker_abort : nat -> bool) (N : Z)
    (groups : list (list Z)) (fuel : nat) :
  0 < N -> (pass_fuel N groups <= fuel)%nat ->
  (length groups <= Z.to_nat (N * 2))%nat ->
  last (loop_events
          (trace (snd (first_pass worker_abort fuel
                         (BatchSamplerInstance groups) N))))
  = Some (Checked false) ->
  requests
    (trace (snd (first_pass worker_abort fuel (BatchSamplerInstance groups) N)))
  = map (fun g => Some (Group g)) groups ++ [None].
Proof.
  intros HN Hfuel Hshort Hend.
  destruct (first_pass_run worker_abort N groups fuel HN Hfuel)
    as (k & s' & Hrun & _ & Hev & _ & _ & _ & _ & _ & _ & _ & _ & _ & Hreq).
  rewrite Hrun in *. cbn [fst snd] in *.
  apply (Hreq (last_check_clear _ _ _ Hev Hend)).
  rewrite skipn_all2 by exact Hshort. constructor.
Qed.

Lemma pass_requests_every_group_once_witness :
  requests
    (trace (snd (first_pass (fun _ => false) 20
                   (BatchSamplerInstance [[0; 1]; [2; 3]; [4; 5]]) 2)))
  = map (fun g => Some (Group g)) [[0; 1]; [2; 3]; [4; 5]] ++ [None].
Proof.
  apply (pass_requests_every_group_once (fun _ => false) 2
           [[0; 1]; [2; 3]; [4; 5]] 20);
    [lia | vm_compute; lia | vm_compute; lia | reflexivity].
Defined.

(** X4.  What the loop of a pass does with an index group it got from
    the sampler, in the pool of a pass after any enqueue and receive
    operations: handed to [_enqueue_indices] as it is, the group is
    taken apart, and for a group of [n] indices [n] messages are
    dispatched, each of them a bare index of the group, in order. *)
Theorem loop_enqueue_sends_bare_indices (worker_abort : nat -> bool)
    (sampler : sampler_obj) (N : Z) (ops : list op) (fuel : nat) (s : t)
    (g : list Z) :
  0 < N -> (Z.to_nat N <= fuel)%nat ->
  s = snd (run_ops fuel ops (entered worker_abort sampler N)) ->
  fst ((items ← lift (py_items (Group g)); _enqueue_indices items) s)
  = Some (Ok tt)
  /\ map snd
       (dispatches
          (trace
             (snd ((items ← lift (py_items (Group g));
                    _enqueue_indices items) s))))
     = map snd (dispatches (trace s)) ++ map Idx g.
Proof.
  intros HN Hfuel Hs.
  destruct (entered_ok worker_abort sampler N HN) as [Hok Hnum].
  destruct (run_ops_ok _ fuel ops _ Hok) as (r & s' & Hrun & Hok' & _).
  { rewrite Hnum. exact Hfuel. }
  rewrite Hrun in Hs. cbn [snd] in Hs. subst s'.
  destruct (bare_group_sent_index_by_index _ s g Hok')
    as (s' & Hrun' & Htr & _).
  rewrite Hrun'. cbn [fst snd]. split; [reflexivity|].
  rewrite Htr, dispatches_app, map_app, dispatches_round_robin.
  reflexivity.
Qed.

Lemma loop_enqueue_sends_bare_indices_witness :
  map snd
    (dispatches
       (trace
          (snd ((items ← lift (py_items (Group [4; 5]));
                 _enqueue_indices items)
                  (snd (run_ops 3 [OpEnqueue [Group [0; 1]; Group [2; 3]]]
                          (entered (fun _ => false)
                             (BatchSamplerInstance []) 1)))))))
  = [Group [0; 1]; Group [2; 3]; Idx 4; Idx 5].
Proof.
  refine (proj2 (loop_enqueue_sends_bare_indices (fun _ => false)
                   (BatchSamplerInstance []) 1
                   [OpEnqueue [Group [0; 1]; Group [2; 3]]] 3 _ [4; 5]
                   _ _ eq_refl));
    [lia | vm_compute; lia].
Defined.

(** X5.  When the batch sampler yields at most [2 * N] index groups,
    every group is dispatched whole, once and in the sampler's order,
    however the pass ends. *)
Theorem short_pass_dispatches_groups_whole (worker_abort : nat -> bool)
    (N : Z) (groups : list (list Z)) (fuel : nat) :
  0 < N -> (pass_fuel N groups <= fuel)%nat ->
  (length groups <= Z.to_nat (N * 2))%nat ->
  map snd
    (dispatches
       (trace (snd (first_pass worker_abort fuel
                      (BatchSamplerInstance groups) N))))
  = map Group groups.
Proof.
  intros HN Hfuel Hshort.
  destruct (first_pass_run worker_abort N groups fuel HN Hfuel)
    as (k & s' & Hrun & _ & _ & _ & _ & _ & _ & _ & _ & _ & _ & Hwhole & _).
  rewrite Hrun. cbn [snd]. exact (Hwhole Hshort).
Qed.

Lemma short_pass_dispatches_groups_whole_witness :
  map snd
    (dispatches
       (trace (snd (first_pass (fun j => Nat.eqb j 1) 20
                      (BatchSamplerInstance [[0; 1]; [2; 3]; [4; 5]]) 2))))
  = map Group [[0; 1]; [2; 3]; [4; 5]].
Proof.
  apply (short_pass_dispatches_groups_whole (fun j => Nat.eqb j 1) 2
           [[0; 1]; [2; 3]; [4; 5]] 20);
    [lia | vm_compute; lia | vm_compute; lia].
Defined.



(** X7.  A pass over a sampler that cannot be iterated starts all [N]
    workers, raises the error of [iter] before the guarded block is
    entered and runs no shutdown: the workers stay started, the running
    flag stays set and the abort event stays clear. *)
Theorem pass_over_uniterable_sampler (worker_abort : nat -> bool) (N : Z)
    (sampler : sampler_obj) (e : exn) (fuel : nat) :
  0 < N -> py_iter sampler = Raise e ->
  first_pass worker_abort fuel sampler N
  = (Some (Raise e),
     mk sampler N (seq 0 (Z.to_nat N)) (seq 0 (Z.to_nat N))
        (seq 0 (Z.to_nat N)) (1 mod N) 0 (Some false)
        (replicate (Z.to_nat N) 0) true (start_events 0 0 (Z.to_nat N))
        (Z.to_nat N) 0%nat).
Proof.
  intros HN Hiter.
  unfold first_pass, __iter__. unfold mbind at 1, M_bind at 1.
  rewrite start_processes_fresh.
  unfold mbind at 1, M_bind at 1.
  rewrite next_index_pipe_run by exact HN.
  unfold mbind at 1, M_bind at 1. cbn [get].
  unfold mbind at 1, M_bind at 1. cbn. rewrite Hiter. cbn.
  destruct (Z.to_nat N) eqn:E; [lia|]. reflexivity.
Qed.

Lemma pass_over_uniterable_sampler_witness :
  first_pass (fun _ => false) 20 BatchSamplerClass 2
  = (Some (Raise TypeError),
     mk BatchSamplerClass 2 (seq 0 (Z.to_nat 2)) (seq 0 (Z.to_nat 2))
        (seq 0 (Z.to_nat 2)) (1 mod 2) 0 (Some false)
        (replicate (Z.to_nat 2) 0) true (start_events 0 0 (Z.to_nat 2))
        (Z.to_nat 2) 0%nat).
Proof.
  apply (pass_over_uniterable_sampler (fun _ => false) 2 BatchSamplerClass
           TypeError 20);
    [lia | reflexivity].
Defined.

(** X8.  With [num_processes = 0] a pass of the parallel augmenter
    raises ZeroDivisionError when it first reads the dispatch cursor,
    whatever the sampler: no worker is started, the sampler is not
    touched and no shutdown runs. *)
Theorem pass_with_no_workers (worker_abort : nat -> bool)
    (sampler : sampler_obj) (fuel : nat) :
  first_pass worker_abort fuel sampler 0
  = (Some (Raise ZeroDivisionError),
     mk sampler 0 [] [] [] 0 0 (Some false) [] false [] 0%nat 0%nat).
Proof. reflexivity. Qed.


(** X9.  In a pool as a pass has it, entered and then taken through any
    enqueue and receive operations, a receive takes the first slot with
    a batch pending, counted cyclically from the collection cursor:
    when the [d] slots from the cursor on have nothing pending and the
    next one has, the receive reads from that slot, takes one off its
    counter and leaves the cursor just behind it. *)
Theorem receive_takes_first_pending_slot (worker_abort : nat -> bool)
    (sampler : sampler_obj) (N : Z) (ops : list op) (fuel0 fuel : nat)
    (s : t) (d : nat) (q : Z) :
  0 < N -> (Z.to_nat N <= fuel0)%nat ->
  s = snd (run_ops fuel0 ops (entered worker_abort sampler N)) ->
  (d < fuel)%nat ->
  (forall j, (j < d)%nat ->
     _data_queued s
       !! Z.to_nat ((_data_pipe_counter s + Z.of_nat j) mod N) = Some 0) ->
  _data_queued s
    !! Z.to_nat ((_data_pipe_counter s + Z.of_nat d) mod N) = Some q ->
  q <> 0 ->
  fst (_receive_data fuel s)
  = Some (Ok (Z.to_nat ((_data_pipe_counter s + Z.of_nat d) mod N)))
  /\ _data_queued (snd (_receive_data fuel s))
     = <[Z.to_nat ((_data_pipe_counter s + Z.of_nat d) mod N) := q - 1]>
         (_data_queued s)
  /\ _data_pipe_counter (snd (_receive_data fuel s))
     = ((_data_pipe_counter s + Z.of_nat d) mod N + 1) mod N
  /\ trace (snd (_receive_data fuel s))
     = trace s
       ++ [EvRecv (Z.to_nat ((_data_pipe_counter s + Z.of_nat d) mod N))].
Proof.
  intros HN Hfuel Hs Hd Hzero Hq Hq0.
  destruct (entered_ok worker_abort sampler N HN) as [Hok Hnum].
  destruct (run_ops_ok _ fuel0 ops _ Hok) as (r & s' & Hrun & Hok' & HN' & _).
  { rewrite Hnum. exact Hfuel. }
  rewrite Hrun in Hs. cbn [snd] in Hs. subst s'.
  rewrite Hnum in HN'. rewrite <- HN' in Hzero, Hq |- *.
  rewrite (receive_data_first _ fuel s d q Hok' Hd Hzero Hq Hq0).
  cbn [fst snd]. repeat split.
  destruct s; cbn. f_equal. f_equal. apply Z2Nat.id.
  apply Z.mod_pos_bound. cbn in HN'. lia.
Qed.

Lemma receive_takes_first_pending_slot_witness :
  fst (_receive_data 5
         (snd (run_ops 3 [OpEnqueue [Group [0; 1]]]
                 (entered (fun _ => false) (BatchSamplerInstance []) 3))))
  = Some (Ok 1%nat).
Proof.
  refine (proj1 (receive_takes_first_pending_slot (fun _ => false)
                   (BatchSamplerInstance []) 3 [OpEnqueue [Group [0; 1]]]
                   3 5 _ 1 1 _ _ eq_refl _ _ _ _));
    [lia | lia | lia
    | intros j Hj; assert (j = 0%nat) as -> by lia; reflexivity
    | reflexivity | lia].
Defined.

(** X10.  In a pool as a pass has it, entered and then taken through
    any enqueue and receive operations, a receive with nothing pending
    never returns, whatever time it is given: it goes round the slots
    for ever, sends and receives nothing and changes no counter. *)
Theorem receive_with_nothing_pending_never_returns
    (worker_abort : nat -> bool) (sampler : sampler_obj) (N : Z)
    (ops : list op) (fuel0 fuel : nat) (s : t) :
  0 < N -> (Z.to_nat N <= fuel0)%nat ->
  s = snd (run_ops fuel0 ops (entered worker_abort sampler N)) ->
  py_any (_data_queued s) = false ->
  fst (_receive_data fuel s) = None
  /\ _data_queued (snd (_receive_data fuel s)) = _data_queued s
  /\ trace (snd (_receive_data fuel s)) = trace s.
Proof.
  intros HN Hfuel Hs Hany.
  destruct (entered_ok worker_abort sampler N HN) as [Hok Hnum].
  destruct (run_ops_ok _ fuel0 ops _ Hok) as (r & s' & Hrun & Hok' & HN' & _).
  { rewrite Hnum. exact Hfuel. }
  rewrite Hrun in Hs. cbn [snd] in Hs. subst s'.
  destruct (receive_data_all_zero _ fuel s Hok' Hany) as (c & -> & _).
  destruct s; repeat split.
Qed.

Lemma receive_with_nothing_pending_never_returns_witness :
  fst (_receive_data 1000
         (snd (run_ops 3 [OpEnqueue [Group [0; 1]]; OpReceive]
                 (entered (fun _ => false) (BatchSamplerInstance []) 3))))
  = None.
Proof.
  refine (proj1 (receive_with_nothing_pending_never_returns (fun _ => false)
                   (BatchSamplerInstance []) 3
                   [OpEnqueue [Group [0; 1]]; OpReceive] 3 1000 _
                   _ _ eq_refl _));
    [lia | lia | reflexivity].
Defined.

(** ** More on the data loader *)

Section LoaderFacts.

Import DataLoader.
Context {Dataset : Type}.
Variable dataset_getitem : Dataset -> Z -> result pydict.

(** Setting a key that the head of a dict does not hold. *)
Lemma dict_set_app (key : string) (v w : pyval) (pre post : pydict) :
  key ∉ map fst pre ->
  dict_set key v (pre ++ (key, w) :: post) = pre ++ (key, v) :: post.
Proof.
  induction pre as [|[k u] pre IH]; intros Hnot; cbn.
  - rewrite String.eqb_refl. reflexivity.
  - cbn in Hnot. apply not_elem_of_cons in Hnot as [Hne Hnot].
    destruct (String.eqb_spec key k); [contradiction|].
    rewrite (IH Hnot). reflexivity.
Qed.

(** The inner loop over the items of a sample whose first fields are
    wrapped already. *)
Lemma concat_items_wraps (items pre : pydict) :
  NoDup (map fst (pre ++ items)) ->
  concat_items items [] (pre ++ items) = Ok (pre ++ wrap_fields items).
Proof.
  revert pre. induction items as [|[key val] items IH]; intros pre Hnd.
  - reflexivity.
  - cbn [concat_items dict_mem dict_get].
    rewrite dict_set_app.
    + replace (pre ++ (key, PList [val]) :: items)
        with ((pre ++ [(key, PList [val])]) ++ items)
        by (rewrite <- app_assoc; reflexivity).
      rewrite IH.
      * rewrite <- app_assoc. reflexivity.
      * rewrite <- app_assoc. cbn.
        rewrite map_app in Hnd |- *. exact Hnd.
    + rewrite map_app in Hnd. apply NoDup_app in Hnd as (_ & Hdis & _).
      intros Hin. apply (Hdis key Hin). cbn. left.
Qed.

Lemma concat_samples_wraps (samples : list pydict) :
  Forall (fun sample => NoDup (map fst sample)) samples ->
  concat_samples samples [] = Ok (map wrap_fields samples).
Proof.
  induction 1 as [|sample samples Hnd _ IH]; [reflexivity|].
  pose proof (concat_items_wraps sample [] Hnd) as Hitems.
  cbn [app] in Hitems. cbn [concat_samples]. rewrite Hitems, IH.
  reflexivity.
Qed.

(** With an empty [data_dict] the outer loop never raises. *)
Lemma concat_samples_empty (samples : list pydict) :
  exists samples', concat_samples samples [] = Ok samples'.
Proof.
  induction samples as [|sample samples [rest IH]]; cbn; [eauto|].
  destruct (concat_items_empty sample sample) as [d' ->]. rewrite IH. eauto.
Qed.

(** A fetch stops at the first index the dataset has no sample for. *)
Lemma fetch_samples_app_raise (self : t Dataset) (good rest : list Z)
    (bad : Z) (samples : list pydict) (e : exn) :
  fetch_samples dataset_getitem self good = Ok samples ->
  dataset_getitem (dataset self) bad = Raise e ->
  fetch_samples dataset_getitem self (good ++ bad :: rest) = Raise e.
Proof.
  revert samples. induction good as [|i good IH]; intros samples Hgood Hbad.
  - cbn. rewrite Hbad. reflexivity.
  - cbn in Hgood |- *.
    destruct (dataset_getitem (dataset self) i); [|discriminate].
    destruct (fetch_samples dataset_getitem self good) eqn:E; [|discriminate].
    rewrite (IH _ eq_refl Hbad). reflexivity.
Qed.

(** What a load gives, when it gives anything, is [None]; and with
    transforms it gives nothing at all. *)
Lemma load_gives_None (data_loader : t Dataset) (transforms : option transform)
    (idxs : pyidx) (data : pyval) :
  load dataset_getitem data_loader transforms idxs = Ok data ->
  data = PNone /\ transforms = None.
Proof.
  unfold load, call_loader. destruct idxs as [i|indices]; [discriminate|].
  destruct (__call__ dataset_getitem data_loader indices) as [[v loc]|e] eqn:E;
    [|discriminate].
  apply call_returns_None in E as [-> _].
  destruct transforms as [f|]; [discriminate|].
  intros H. injection H as <-. split; reflexivity.
Qed.

(** Without transforms a group with a sample for every index loads. *)
Lemma load_fetch_ok (data_loader : t Dataset) (indices : list Z) :
  fetch_ok dataset_getitem data_loader indices = true ->
  load dataset_getitem data_loader None (Group indices) = Ok PNone.
Proof.
  unfold fetch_ok, load, call_loader, __call__.
  destruct (fetch_samples dataset_getitem data_loader indices) as [data0|e];
    [|discriminate].
  intros _. destruct (concat_samples_empty data0) as [data1 ->]. reflexivity.
Qed.

End LoaderFacts.

(** X11.  Whenever the dataset has a sample for every index of the
    group and the fetched samples differ from one another, so that no
    two of them are one and the same dict, the fetch of the data loader
    succeeds, returns [None] and leaves its own dict empty; what it
    does instead is to wrap, inside every fetched sample, the value of
    every field into a list of its own.  The field names of a sample
    are distinct, as the keys of a dict are. *)
Theorem call_wraps_fields_in_place {Dataset : Type}
    (dataset_getitem : Dataset -> Z -> result pydict)
    (self : DataLoader.t Dataset) (indices : list Z)
    (samples : list pydict) :
  DataLoader.fetch_samples dataset_getitem self indices = Ok samples ->
  NoDup samples ->
  Forall (fun sample => NoDup (map fst sample)) samples ->
  DataLoader.__call__ dataset_getitem self indices
  = Ok (PNone, DataLoader.mk_locals (map wrap_fields samples) []).
Proof.
  intros Hfetch _ Hnd. unfold DataLoader.__call__.
  rewrite Hfetch, (concat_samples_wraps samples Hnd). reflexivity.
Qed.

Lemma call_wraps_fields_in_place_witness :
  DataLoader.__call__ DataLoader.list_getitem DataLoader.two_sample_loader
    [1; 0]
  = Ok (PNone,
        DataLoader.mk_locals
          (map wrap_fields
             [ [("data"%string, PInt 20); ("label"%string, PInt 1)];
               [("data"%string, PInt 10); ("label"%string, PInt 0)] ])
          []).
Proof.
  apply (call_wraps_fields_in_place DataLoader.list_getitem
           DataLoader.two_sample_loader [1; 0]);
    [ reflexivity
    | apply NoDup_cons_2;
        [ intros H; apply list_elem_of_singleton in H; discriminate H
        | apply NoDup_singleton ]
    | apply (bool_decide_unpack _); vm_compute; reflexivity ].
Defined.

(** X12.  A fetch fails with the error of the first index the dataset
    has no sample for: when the indices before it all have samples and
    the dataset raises on it, the call of the loader raises that same
    error, whatever indices follow. *)
Theorem call_raises_first_dataset_error {Dataset : Type}
    (dataset_getitem : Dataset -> Z -> result pydict)
    (self : DataLoader.t Dataset) (good rest : list Z) (bad : Z)
    (samples : list pydict) (e : exn) :
  DataLoader.fetch_samples dataset_getitem self good = Ok samples ->
  dataset_getitem (DataLoader.dataset self) bad = Raise e ->
  DataLoader.__call__ dataset_getitem self (good ++ bad :: rest) = Raise e.
Proof.
  intros Hgood Hbad. unfold DataLoader.__call__.
  rewrite (fetch_samples_app_raise dataset_getitem self good rest bad samples e
             Hgood Hbad).
  reflexivity.
Qed.

Lemma call_raises_first_dataset_error_witness :
  DataLoader.__call__ DataLoader.list_getitem DataLoader.two_sample_loader
    ([0; 1] ++ 2 :: [0])
  = Raise IndexError.
Proof.
  apply (call_raises_first_dataset_error DataLoader.list_getitem
           DataLoader.two_sample_loader [0; 1] [0] 2 DataLoader.two_samples
           IndexError);
    reflexivity.
Defined.

(** ** The worker process *)

Section WorkerFacts.

Import _WorkerProcess.
Context {Dataset : Type}.
Variable dataset_getitem : Dataset -> Z -> result pydict.

(** The loop of a worker: it only adds to what was sent, one [None] per
    request it answered, and touches nothing else; it answers every
    request it meets before it ends, and with transforms it answers
    none. *)
Lemma run_loop_run (turns : list turn) :
  forall self : t Dataset,
  exists n : nat,
    snd (run_loop dataset_getitem turns self)
    = with_sent (sent self ++ replicate n PNone) self
    /\ (n <= requests_before_sentinel turns)%nat
    /\ (fst (run_loop dataset_getitem turns self) = Some (Ok tt) ->
        n = requests_before_sentinel turns)
    /\ (_transforms self <> None -> n = 0%nat).
Proof.
  induction turns as [|tn turns IH]; intros self.
  - exists 0%nat. cbn. rewrite app_nil_r. destruct self; auto.
  - destruct tn as [| |[idxs|]]; cbn [run_loop requests_before_sentinel].
    + exists 0%nat. cbn. rewrite app_nil_r.
      destruct self; repeat split; try lia. discriminate.
    + apply IH.
    + destruct (load dataset_getitem (_data_loader self) (_transforms self)
                  idxs) as [data|e] eqn:E.
      * apply load_gives_None in E as [-> Htr].
        destruct (IH (with_sent (sent self ++ [PNone]) self))
          as (n & Hsnd & Hle & Hok & _).
        exists (S n). rewrite Hsnd. cbn [sent with_sent].
        rewrite <- app_assoc. cbn [app replicate].
        repeat split.
        -- lia.
        -- intros H. rewrite (Hok H). reflexivity.
        -- intros H. contradiction.
      * exists 0%nat. cbn. rewrite app_nil_r.
        destruct self; repeat split; try lia. discriminate.
    + exists 0%nat. cbn. rewrite app_nil_r. destruct self; auto.
Qed.

(** A worker whose loader has no id yet: the id is stored, the loop
    runs, and the abort event is set exactly when the loop raised. *)
Lemma run_unset (turns : list turn) (self : t Dataset) :
  DataLoader._process_id (_data_loader self) = None ->
  let self1 :=
    with_data_loader
      (DataLoader.mk (Some (_process_id self))
         (DataLoader.dataset (_data_loader self))) self in
  run dataset_getitem turns self
  = (fst (run_loop dataset_getitem turns self1),
     match fst (run_loop dataset_getitem turns self1) with
     | Some (Raise _) =>
         with_abort_set true (snd (run_loop dataset_getitem turns self1))
     | _ => snd (run_loop dataset_getitem turns self1)
     end).
Proof.
  intros Hid. unfold run, DataLoader.set_process_id. rewrite Hid. cbn zeta.
  destruct (run_loop dataset_getitem turns _) as [[[[]|e]|] self'];
    reflexivity.
Qed.

(** A worker whose loader has an id already. *)
Lemma run_set (turns : list turn) (self : t Dataset) (v : Z) :
  DataLoader._process_id (_data_loader self) = Some v ->
  run dataset_getitem turns self = (Some (Raise AttributeError), self).
Proof.
  intros Hid. unfold run, DataLoader.set_process_id. rewrite Hid.
  reflexivity.
Qed.

(** What a run of a worker leaves on the output pipe. *)
Lemma run_sent (turns : list turn) (self : t Dataset) :
  exists n : nat,
    sent (snd (run dataset_getitem turns self))
    = sent self ++ replicate n PNone
    /\ (n <= requests_before_sentinel turns)%nat
    /\ (fst (run dataset_getitem turns self) = Some (Ok tt) ->
        n = requests_before_sentinel turns)
    /\ (_transforms self <> None -> n = 0%nat).
Proof.
  destruct (DataLoader._process_id (_data_loader self)) as [v|] eqn:Hid.
  - rewrite (run_set turns self v Hid). exists 0%nat. cbn.
    rewrite app_nil_r. repeat split; try lia. discriminate.
  - rewrite (run_unset turns self Hid). cbn zeta.
    set (self1 := with_data_loader _ self).
    destruct (run_loop_run turns self1) as (n & Hsnd & Hle & Hok & Htr).
    exists n. cbn [fst snd].
    split; [|split; [exact Hle|split; [exact Hok|exact Htr]]].
    destruct (fst (run_loop dataset_getitem turns self1)) as [[[]|e]|];
      rewrite Hsnd; reflexivity.
Qed.

End WorkerFacts.

(** X13.  A worker that is handed a data loader whose process id is set
    already raises AttributeError before it enters its loop: it reads
    no message, sends nothing and does not set the abort event,
    whatever is waiting for it. *)
Theorem worker_with_used_loader_dies_silently {Dataset : Type}
    (dataset_getitem : Dataset -> Z -> result pydict)
    (turns : list _WorkerProcess.turn) (self : _WorkerProcess.t Dataset)
    (v : Z) :
  DataLoader._process_id (_WorkerProcess._data_loader self) = Some v ->
  _WorkerProcess.run dataset_getitem turns self
  = (Some (Raise AttributeError), self).
Proof. apply run_set. Qed.

Lemma worker_with_used_loader_dies_silently_witness :
  _WorkerProcess.run DataLoader.list_getitem
    [_WorkerProcess.Received (Some (Group [0; 1]));
     _WorkerProcess.Received None]
    (_WorkerProcess.__init__
       (DataLoader.mk (Some 0) DataLoader.two_samples) None 1)
  = (Some (Raise AttributeError),
     _WorkerProcess.__init__
       (DataLoader.mk (Some 0) DataLoader.two_samples) None 1).
Proof.
  apply (worker_with_used_loader_dies_silently DataLoader.list_getitem _ _ 0).
  reflexivity.
Defined.

(** X14.  Whatever a worker meets, every value it puts on its output
    pipe is [None], never a batch, and it sends at most one value per
    message with indices that it received before the sentinel. *)
Theorem worker_sends_only_None {Dataset : Type}
    (dataset_getitem : Dataset -> Z -> result pydict)
    (turns : list _WorkerProcess.turn) (self : _WorkerProcess.t Dataset) :
  exists n : nat,
    _WorkerProcess.sent (snd (_WorkerProcess.run dataset_getitem turns self))
    = _WorkerProcess.sent self ++ replicate n PNone
    /\ (n <= _WorkerProcess.requests_before_sentinel turns)%nat.
Proof.
  destruct (run_sent dataset_getitem turns self) as (n & H1 & H2 & _).
  exists n. split; assumption.
Qed.

(** X15.  A worker that ends without an error, that is on the sentinel,
    has answered every message with indices that came before the
    sentinel, with one value each. *)
Theorem worker_replies_once_per_request {Dataset : Type}
    (dataset_getitem : Dataset -> Z -> result pydict)
    (turns : list _WorkerProcess.turn) (self : _WorkerProcess.t Dataset) :
  fst (_WorkerProcess.run dataset_getitem turns self) = Some (Ok tt) ->
  length
    (_WorkerProcess.sent (snd (_WorkerProcess.run dataset_getitem turns self)))
  = (length (_WorkerProcess.sent self)
     + _WorkerProcess.requests_before_sentinel turns)%nat.
Proof.
  intros Hend.
  destruct (run_sent dataset_getitem turns self) as (n & -> & _ & Hok & _).
  rewrite length_app, length_replicate, (Hok Hend). reflexivity.
Qed.

Lemma worker_replies_once_per_request_witness :
  length
    (_WorkerProcess.sent
       (snd (_WorkerProcess.run DataLoader.list_getitem
               [_WorkerProcess.PollTimeout;
                _WorkerProcess.Received (Some (Group [0; 1]));
                _WorkerProcess.Received (Some (Group [1]));
                _WorkerProcess.Received None;
                _WorkerProcess.Received (Some (Group [0]))]
               (_WorkerProcess.__init__ DataLoader.two_sample_loader None 0))))
  = (length
       (_WorkerProcess.sent
          (_WorkerProcess.__init__ DataLoader.two_sample_loader None 0))
     + _WorkerProcess.requests_before_sentinel
         [_WorkerProcess.PollTimeout;
          _WorkerProcess.Received (Some (Group [0%Z; 1%Z]));
          _WorkerProcess.Received (Some (Group [1%Z]));
          _WorkerProcess.Received None;
          _WorkerProcess.Received (Some (Group [0%Z]))])%nat.
Proof.
  apply (worker_replies_once_per_request DataLoader.list_getitem).
  reflexivity.
Defined.

(** X16.  A worker with transforms never sends anything: the loader
    hands it [None], which cannot be unpacked into keyword arguments,
    so the first message with indices ends it with an error.  It can
    end without an error only when no such message came before the
    sentinel. *)
Theorem worker_with_transforms_never_sends {Dataset : Type}
    (dataset_getitem : Dataset -> Z -> result pydict)
    (turns : list _WorkerProcess.turn) (self : _WorkerProcess.t Dataset)
    (f : transform) :
  _WorkerProcess._transforms self = Some f ->
  _WorkerProcess.sent (snd (_WorkerProcess.run dataset_getitem turns self))
  = _WorkerProcess.sent self
  /\ (fst (_WorkerProcess.run dataset_getitem turns self) = Some (Ok tt) ->
      _WorkerProcess.requests_before_sentinel turns = 0%nat).
Proof.
  intros Htr.
  destruct (run_sent dataset_getitem turns self) as (n & Hsent & _ & Hok & Hn).
  assert (n = 0%nat) as -> by (apply Hn; rewrite Htr; discriminate).
  split.
  - rewrite Hsent. cbn. apply app_nil_r.
  - intros Hend. symmetry. apply Hok, Hend.
Qed.

Lemma worker_with_transforms_never_sends_witness :
  _WorkerProcess.sent
    (snd (_WorkerProcess.run DataLoader.list_getitem
            [_WorkerProcess.Received (Some (Group [0; 1]));
             _WorkerProcess.Received None]
            (_WorkerProcess.__init__ DataLoader.two_sample_loader
               (Some (fun kwargs => Ok (PInt 0))) 0)))
  = []
  /\ (fst (_WorkerProcess.run DataLoader.list_getitem
             [_WorkerProcess.Received (Some (Group [0; 1]));
              _WorkerProcess.Received None]
             (_WorkerProcess.__init__ DataLoader.two_sample_loader
                (Some (fun kwargs => Ok (PInt 0))) 0))
      = Some (Ok tt) ->
      _WorkerProcess.requests_before_sentinel
        [_WorkerProcess.Received (Some (Group [0; 1]));
         _WorkerProcess.Received None]
      = 0%nat).
Proof.
  apply (worker_with_transforms_never_sends DataLoader.list_getitem
           [_WorkerProcess.Received (Some (Group [0; 1]));
            _WorkerProcess.Received None]
           (_WorkerProcess.__init__ DataLoader.two_sample_loader
              (Some (fun kwargs => Ok (PInt 0))) 0)
           (fun kwargs => Ok (PInt 0))).
  reflexivity.
Defined.

(** X17.  A worker whose loader has no id yet sets the abort event
    exactly when its loop ends with an error, be it the abort it saw,
    an error of the dataset or a TypeError of its own; on the sentinel,
    and while it is still waiting, it leaves the event alone. *)
Theorem worker_sets_abort_iff_loop_fails {Dataset : Type}
    (dataset_getitem : Dataset -> Z -> result pydict)
    (turns : list _WorkerProcess.turn) (self : _WorkerProcess.t Dataset) :
  DataLoader._process_id (_WorkerProcess._data_loader self) = None ->
  _WorkerProcess.abort_set self = false ->
  _WorkerProcess.abort_set
    (snd (_WorkerProcess.run dataset_getitem turns self)) = true
  <-> exists e : exn,
        fst (_WorkerProcess.run dataset_getitem turns self) = Some (Raise e).
Proof.
  intros Hid Hclear. rewrite (run_unset dataset_getitem turns self Hid).
  cbn zeta. set (self1 := _WorkerProcess.with_data_loader _ self).
  destruct (run_loop_run dataset_getitem turns self1) as (n & Hsnd & _).
  cbn [fst snd].
  destruct (fst (_WorkerProcess.run_loop dataset_getitem turns self1))
    as [[[]|e]|].
  - rewrite Hsnd. cbn. rewrite Hclear. split; [discriminate|].
    intros [e He]. discriminate.
  - split; [eauto|reflexivity].
  - rewrite Hsnd. cbn. rewrite Hclear. split; [discriminate|].
    intros [e He]. discriminate.
Qed.

Lemma worker_sets_abort_iff_loop_fails_witness :
  _WorkerProcess.abort_set
    (snd (_WorkerProcess.run DataLoader.list_getitem
            [_WorkerProcess.Received (Some (Group [0; 5]))]
            (_WorkerProcess.__init__ DataLoader.two_sample_loader None 0)))
  = true
  <-> exists e : exn,
        fst (_WorkerProcess.run DataLoader.list_getitem
               [_WorkerProcess.Received (Some (Group [0; 5]))]
               (_WorkerProcess.__init__ DataLoader.two_sample_loader None 0))
        = Some (Raise e).
Proof.
  apply (worker_sets_abort_iff_loop_fails DataLoader.list_getitem);
    reflexivity.
Defined.

(** X18.  A bare index kills a worker.  When the first message of a
    worker whose loader has no id yet is a single index and not an
    index group, the worker raises TypeError, has sent nothing and has
    set the abort event. *)
Theorem bare_index_kills_worker {Dataset : Type}
    (dataset_getitem : Dataset -> Z -> result pydict)
    (self : _WorkerProcess.t Dataset) (n : nat) (i : Z)
    (rest : list _WorkerProcess.turn) :
  DataLoader._process_id (_WorkerProcess._data_loader self) = None ->
  _WorkerProcess.run dataset_getitem
    (replicate n _WorkerProcess.PollTimeout
     ++ _WorkerProcess.Received (Some (Idx i)) :: rest) self
  = (Some (Raise TypeError),
     _WorkerProcess.with_abort_set true
       (_WorkerProcess.with_data_loader
          (DataLoader.mk (Some (_WorkerProcess._process_id self))
             (DataLoader.dataset (_WorkerProcess._data_loader self)))
          self)).
Proof.
  intros Hid. rewrite (run_unset dataset_getitem _ self Hid). cbn zeta.
  set (self1 := _WorkerProcess.with_data_loader _ self).
  assert (H : _WorkerProcess.run_loop dataset_getitem
                (replicate n _WorkerProcess.PollTimeout
                 ++ _WorkerProcess.Received (Some (Idx i)) :: rest) self1
              = (Some (Raise TypeError), self1)).
  { induction n as [|n IH]; [reflexivity|]. cbn. exact IH. }
  rewrite H. reflexivity.
Qed.

Lemma bare_index_kills_worker_witness :
  _WorkerProcess.run DataLoader.list_getitem
    (replicate 2 _WorkerProcess.PollTimeout
     ++ _WorkerProcess.Received (Some (Idx 1))
        :: [_WorkerProcess.Received None])
    (_WorkerProcess.__init__ DataLoader.two_sample_loader None 3)
  = (Some (Raise TypeError),
     _WorkerProcess.with_abort_set true
       (_WorkerProcess.with_data_loader
          (DataLoader.mk (Some 3) DataLoader.two_samples)
          (_WorkerProcess.__init__ DataLoader.two_sample_loader None 3))).
Proof.
  apply (bare_index_kills_worker DataLoader.list_getitem
           (_WorkerProcess.__init__ DataLoader.two_sample_loader None 3)
           2 1 [_WorkerProcess.Received None]).
  reflexivity.
Defined.

(** ** The sequential augmenter with the data loader *)

(** X19.  Without transforms, a pass of the sequential augmenter over a
    batch sampler, on a dataset that has a sample for every index of
    every group, runs to the end and yields one value per index group,
    each of them [None]. *)
Theorem sequential_pass_yields_None_per_group {Dataset : Type}
    (dataset_getitem : Dataset -> Z -> result pydict)
    (data_loader : DataLoader.t Dataset) (self : AbstractAugmenter.t)
    (groups : list (list Z)) :
  AbstractAugmenter._sampler self = BatchSamplerInstance groups ->
  forallb (fetch_ok dataset_getitem data_loader) groups = true ->
  _SequentialAugmenter.__iter__ (load dataset_getitem data_loader None) self
  = (replicate (length groups) PNone, Ok tt).
Proof.
  intros Hs Hall. unfold _SequentialAugmenter.__iter__. rewrite Hs.
  cbn [py_iter]. clear Hs.
  induction groups as [|g groups IH]; [reflexivity|].
  cbn [forallb] in Hall. apply andb_prop in Hall as [Hg Hall].
  cbn [map _SequentialAugmenter.iterate].
  rewrite (load_fetch_ok dataset_getitem data_loader g Hg), (IH Hall).
  reflexivity.
Qed.

Lemma sequential_pass_yields_None_per_group_witness :
  _SequentialAugmenter.__iter__
    (load DataLoader.list_getitem DataLoader.two_sample_loader None)
    (AbstractAugmenter.mk (BatchSamplerInstance [[0; 1]; [1]; [0]]) false 1)
  = (replicate (length [[0; 1]; [1]; [0]]) PNone, Ok tt).
Proof.
  apply (sequential_pass_yields_None_per_group DataLoader.list_getitem
           DataLoader.two_sample_loader _ [[0; 1]; [1]; [0]]);
    reflexivity.
Defined.

(** X20.  With transforms the sequential augmenter never yields a
    batch, whatever the sampler, the dataset and the transforms: the
    first item of the sampler ends the pass with an error, and a pass
    can end without one only when the sampler yields nothing. *)
Theorem sequential_pass_with_transforms_yields_nothing {Dataset : Type}
    (dataset_getitem : Dataset -> Z -> result pydict)
    (data_loader : DataLoader.t Dataset) (f : transform)
    (self : AbstractAugmenter.t) :
  fst (_SequentialAugmenter.__iter__
         (load dataset_getitem data_loader (Some f)) self) = []
  /\ (snd (_SequentialAugmenter.__iter__
             (load dataset_getitem data_loader (Some f)) self) = Ok tt ->
      py_iter (AbstractAugmenter._sampler self) = Ok []).
Proof.
  unfold _SequentialAugmenter.__iter__.
  destruct (py_iter (AbstractAugmenter._sampler self)) as [[|idxs rest]|e].
  - split; reflexivity.
  - cbn [_SequentialAugmenter.iterate].
    destruct (load dataset_getitem data_loader (Some f) idxs) as [data|e]
      eqn:E.
    + apply load_gives_None in E as [_ E]. discriminate.
    + split; [reflexivity|discriminate].
  - split; [reflexivity|discriminate].
Qed.

(** ** More on the data manager *)

(** The number of batches, when there is one: it is positive exactly
    when the batch size is positive and, with [drop_last], not larger
    than the number of samples. *)
Lemma n_batches_positive (self : DataManager.t) (n : Z) :
  DataManager.n_batches self = Ok n ->
  0 < DataManager.sampler_len self
  /\ DataManager._batch_size self <> 0
  /\ (0 < n <->
      0 < DataManager._batch_size self
      /\ (DataManager.drop_last self = true ->
          DataManager._batch_size self <= DataManager.sampler_len self)).
Proof.
  destruct self as [B dl N].
  unfold DataManager.n_batches, DataManager.n_samples, DataManager.batch_size,
    DataManager.py_floordiv, DataManager.py_mod.
  cbn [DataManager.sampler_len DataManager._batch_size DataManager.drop_last].
  destruct (Z.ltb_spec 0 N) as [HN|HN]; cbn [negb]; [|discriminate].
  destruct (Z.eqb_spec B 0) as [HB|HB]; [discriminate|].
  intros H. injection H as <-.
  split; [exact HN|]. split; [exact HB|].
  pose proof (Z.div_mod N B HB) as Hdm.
  assert (Hfacts :
            (B < 0 -> N / B <= -1)
            /\ (0 < B -> B <= N -> 1 <= N / B)
            /\ (0 < B -> N < B -> N / B = 0 /\ N mod B <> 0)).
  { split; [|split].
    - intros Hneg. pose proof (Z.mod_neg_bound N B Hneg). nia.
    - intros Hpos Hle. pose proof (Z.mod_pos_bound N B Hpos). nia.
    - intros Hpos Hgt. rewrite (Z.div_small N B), (Z.mod_small N B) by lia.
      lia. }
  destruct Hfacts as (Hneg & Hge & Hlt).
  assert (Hextra : forall b : bool, 0 <= Z.b2z b <= 1) by (intros []; cbn; lia).
  destruct (Z.eqb_spec (N mod B) 0) as [Hm|Hm]; cbn [negb];
    destruct dl; cbn [negb Z.b2z]; split.
  all: try (intros Hn; split; [lia|intros _; lia]).
  all: try (intros [Hpos Hdl]; specialize (Hdl eq_refl); lia).
  all: try (intros [Hpos _];
            destruct (Z.le_gt_cases B N) as [Hle|Hgt];
            [specialize (Hge Hpos Hle); lia
            |destruct (Hlt Hpos Hgt) as [Hq Hr]; try contradiction; lia]).
  all: try (intros Hn; split; [lia|discriminate]).
Qed.

(** X21.  The errors of the number of batches.  It raises
    AssertionError exactly when the sampler has no sample, and
    ZeroDivisionError exactly when it has samples and the batch size is
    0; in every other case it returns a number, also for a negative
    batch size. *)
Theorem n_batches_errors (self : DataManager.t) :
  (DataManager.n_batches self = Raise AssertionError
   <-> DataManager.sampler_len self <= 0)
  /\ (DataManager.n_batches self = Raise ZeroDivisionError
      <-> 0 < DataManager.sampler_len self
          /\ DataManager._batch_size self = 0)
  /\ (0 < DataManager.sampler_len self ->
      DataManager._batch_size self <> 0 ->
      exists n : Z, DataManager.n_batches self = Ok n).
Proof.
  destruct self as [B dl N].
  unfold DataManager.n_batches, DataManager.n_samples, DataManager.batch_size,
    DataManager.py_floordiv, DataManager.py_mod.
  cbn [DataManager.sampler_len DataManager._batch_size DataManager.drop_last].
  destruct (Z.ltb_spec 0 N) as [HN|HN]; cbn [negb].
  - destruct (Z.eqb_spec B 0) as [HB|HB].
    + split; [split; [discriminate|lia]|].
      split; [split; [intros _; split; assumption|reflexivity]|].
      intros _ H. contradiction.
    + split; [split; [discriminate|lia]|].
      split; [split; [discriminate|intros [_ H]; contradiction]|].
      intros _ _. eauto.
  - split; [split; [intros _; exact HN|reflexivity]|].
    split; [split; [discriminate|intros [H _]; lia]|].
    intros H. lia.
Qed.

(** X22.  For a data manager whose sampler is a sampler instance, and
    for a seed that numpy takes, from 0 to [2 ^ 32 - 1], the batch
    generator is built exactly when there is a sample, the batch size
    is positive and, with [drop_last], not larger than the number of
    samples; in every other case [get_batchgen] raises and builds no
    augmenter. *)
Theorem get_batchgen_succeeds_iff (debug_mode : bool) (cpu_count : Z)
    (self : manager) (seed : Z) :
  isinstance_AbstractSampler (sampler self) = true ->
  0 <= seed < 2 ^ 32 ->
  (exists a : Augmenter.t, get_batchgen debug_mode cpu_count self seed = Ok a)
  <-> 0 < DataManager.sampler_len (base self)
      /\ 0 < DataManager._batch_size (base self)
      /\ (DataManager.drop_last (base self) = true ->
          DataManager._batch_size (base self)
          <= DataManager.sampler_len (base self)).
Proof.
  intros Hsampler _. unfold get_batchgen.
  assert (Hbuilt : exists a : Augmenter.t,
             Augmenter.__init__ debug_mode
               (Some (n_process_augmentation debug_mode self)) cpu_count
               (sampler self) seed (DataManager.drop_last (base self))
             = Ok a).
  { unfold Augmenter.__init__, Augmenter._resolve_augmenter_cls,
      _SequentialAugmenter.__init__, _ParallelAugmenter.__init__,
      AbstractAugmenter.__init__.
    rewrite Hsampler.
    destruct (isinstance_BatchSampler (sampler self)); cbn [negb];
      destruct (debug_mode || _); eauto. }
  destruct (DataManager.n_batches (base self)) as [n|e] eqn:E.
  - destruct (n_batches_positive (base self) n E) as (HN & _ & Hpos).
    destruct (Z.ltb_spec 0 n) as [Hn|Hn]; cbn [negb].
    + split; [intros _|intros _; exact Hbuilt].
      split; [exact HN|]. apply Hpos, Hn.
    + split; [intros [a Ha]; discriminate|].
      intros (_ & HB & Hdl). exfalso.
      assert (0 < n) by (apply Hpos; auto). lia.
  - split; [intros [a Ha]; discriminate|].
    intros (HN & HB & _). exfalso.
    destruct (n_batches_errors (base self)) as (_ & _ & Hok).
    destruct Hok as [n Hn]; [exact HN|lia|]. congruence.
Qed.

Lemma get_batchgen_succeeds_iff_witness :
  (exists a : Augmenter.t,
     get_batchgen false 8
       (mk_manager (DataManager.mk 2 true 3) 2
          (BatchSamplerInstance [[0; 1]])) 1 = Ok a)
  <-> 0 < 3 /\ 0 < 2 /\ (true = true -> 2 <= 3).
Proof.
  apply (get_batchgen_succeeds_iff false 8
           (mk_manager (DataManager.mk 2 true 3) 2
              (BatchSamplerInstance [[0; 1]])) 1);
    [reflexivity | lia].
Defined.

(** X23.  The augmenter behind a batch generator.  In debug mode it is
    the sequential one, whatever number of processes the manager
    stores; out of debug mode it is the sequential one exactly for a
    stored number of 0, and otherwise the parallel one with exactly the
    stored number of workers.  The number of CPUs never enters. *)
Theorem get_batchgen_augmenter (debug_mode : bool) (cpu_count : Z)
    (self : manager) (seed : Z) (a : Augmenter.t) :
  get_batchgen debug_mode cpu_count self seed = Ok a ->
  match a with
  | Augmenter.Sequential _ =>
      debug_mode = true \/ _n_process_augmentation self = 0
  | Augmenter.Parallel p =>
      debug_mode = false
      /\ _n_process_augmentation self <> 0
      /\ _ParallelAugmenter._num_processes p = _n_process_augmentation self
  end
  /\ forall cpu_count' : Z,
       get_batchgen debug_mode cpu_count' self seed = Ok a.
Proof.
  unfold get_batchgen.
  destruct (DataManager.n_batches (base self)) as [n|e]; [|discriminate].
  destruct (negb (0 <? n)); [discriminate|].
  unfold Augmenter.__init__, Augmenter._resolve_augmenter_cls,
    n_process_augmentation, _SequentialAugmenter.__init__,
    _ParallelAugmenter.__init__.
  destruct debug_mode; cbn [orb].
  - destruct (AbstractAugmenter.__init__ _ _ _) as [b|e]; [|discriminate].
    intros H. injection H as <-. split; [left; reflexivity|reflexivity].
  - destruct (Z.eqb_spec (_n_process_augmentation self) 0) as [H0|H0].
    + rewrite H0.
      destruct (AbstractAugmenter.__init__ _ _ _) as [b|e]; [|discriminate].
      intros H. injection H as <-. split; [right; reflexivity|reflexivity].
    + destruct (_n_process_augmentation self) as [|p|p] eqn:En;
        [contradiction| |];
        (destruct (AbstractAugmenter.__init__ _ _ _) as [b|e];
         [|discriminate]);
        intros H; injection H as <-;
        (split; [repeat split; discriminate|reflexivity]).
Qed.

Lemma get_batchgen_augmenter_witness :
  match
    Augmenter.Parallel
      (_ParallelAugmenter.fresh (BatchSamplerInstance [[0; 1]; [2]]) 2)
  with
  | Augmenter.Sequential _ => false = true \/ 2 = 0
  | Augmenter.Parallel p =>
      false = false /\ 2 <> 0 /\ _ParallelAugmenter._num_processes p = 2
  end
  /\ forall cpu_count' : Z,
       get_batchgen false cpu_count'
         (mk_manager (DataManager.mk 2 false 3) 2
            (BatchSamplerInstance [[0; 1]; [2]])) 1
       = Ok (Augmenter.Parallel
               (_ParallelAugmenter.fresh (BatchSamplerInstance [[0; 1]; [2]])
                  2)).
Proof.
  apply (get_batchgen_augmenter false 8
           (mk_manager (DataManager.mk 2 false 3) 2
              (BatchSamplerInstance [[0; 1]; [2]])) 1
           (Augmenter.Parallel
              (_ParallelAugmenter.fresh (BatchSamplerInstance [[0; 1]; [2]])
                 2))).
  reflexivity.
Defined.

(** ** The update of the data manager's state *)

Section UpdateFacts.

Import ManagerState.
Context {Obj : Type}.
Variable int_of : Obj -> result Z.
Variable is_loader_cls : Obj -> bool.
Variable is_transform : Obj -> bool.
Variable is_sampler_cls : Obj -> bool.
Variable is_sampler : Obj -> bool.
Variable has_from_dataset : Obj -> bool.
Variable is_mapping : Obj -> bool.
Variable from_dataset : Obj -> option Obj -> result (pyobj Obj).


(** Popping a key the dict does not hold. *)
Lemma dict_pop_absent {V : Type} (key : string) (d : list (string * V)) :
  key ∉ map fst d -> dict_pop key d = (None, d).
Proof.
  induction d as [|[k v] d IH]; intros Hnot; cbn; [reflexivity|].
  cbn in Hnot. apply not_elem_of_cons in Hnot as [Hne Hnot].
  destruct (String.eqb_spec key k); [contradiction|].
  rewrite (IH Hnot). reflexivity.
Qed.

(** Popping a key leaves every other key in the dict. *)
Lemma dict_pop_other {V : Type} (key k : string) (d : list (string * V)) :
  k <> key -> k ∈ map fst d -> k ∈ map fst (snd (dict_pop key d)).
Proof.
  intros Hne. induction d as [|[k' v] d IH]; cbn; [auto|].
  intros Hin. destruct (String.eqb_spec key k') as [->|Hk].
  - cbn. apply elem_of_cons in Hin as [->|Hin]; [contradiction|exact Hin].
  - destruct (dict_pop key d) as [r d'] eqn:E. cbn in IH |- *.
    apply elem_of_cons in Hin as [->|Hin]; [left|right; auto].
Qed.

Lemma then_keeps_key (k : string) (first second : stmt Obj) :
  keeps_key k first -> keeps_key k second -> keeps_key k (then_ first second).
Proof.
  intros H1 H2 s Hin. unfold then_.
  specialize (H1 s Hin). destruct (first s) as [[e|] s1]; cbn in H1 |- *.
  - exact H1.
  - apply H2, H1.
Qed.

Lemma then_keeps_field {A : Type} (field : t Obj -> A) (first second : stmt Obj) :
  keeps_field field first -> keeps_field field second ->
  keeps_field field (then_ first second).
Proof.
  intros H1 H2 s. unfold then_.
  specialize (H1 s). destruct (first s) as [[e|] s1]; cbn in H1 |- *.
  - exact H1.
  - rewrite H2. exact H1.
Qed.

Lemma pop_and_set_keeps_key (k key : string) (getter : t Obj -> pyobj Obj)
    (setter : pyobj Obj -> t Obj -> result (t Obj)) :
  k <> key -> keeps_key k (pop_and_set key getter setter).
Proof.
  intros Hne [self d] Hin. unfold pop_and_set.
  pose proof (dict_pop_other key k d Hne Hin) as H.
  destruct (dict_pop key d) as [v d']. cbn [snd] in H.
  destruct (setter _ self); exact H.
Qed.

Lemma pop_and_set_keeps_field {A : Type} (field : t Obj -> A) (key : string)
    (getter : t Obj -> pyobj Obj)
    (setter : pyobj Obj -> t Obj -> result (t Obj)) :
  (forall v self self', setter v self = Ok self' -> field self' = field self) ->
  keeps_field field (pop_and_set key getter setter).
Proof.
  intros Hset [self d]. unfold pop_and_set.
  destruct (dict_pop key d) as [v d'].
  destruct (setter _ self) as [self'|e] eqn:E; cbn; [|reflexivity].
  apply (Hset _ _ _ E).
Qed.

Lemma update_sampler_keeps_key (k : string) :
  k <> "sampler"%string -> k <> "sampling_kwargs"%string ->
  keeps_key k
    (update_sampler is_sampler_cls is_sampler has_from_dataset is_mapping
       from_dataset).
Proof.
  intros Hne1 Hne2 [self d] Hin. unfold update_sampler.
  pose proof (dict_pop_other "sampler" k d Hne1 Hin) as H1.
  destruct (dict_pop "sampler" d) as [v d1]. cbn [snd] in H1.
  destruct v as [[|z|o]|]; try exact H1.
  destruct (has_from_dataset o); [|exact H1].
  pose proof (dict_pop_other "sampling_kwargs" k d1 Hne2 H1) as H2.
  destruct (dict_pop "sampling_kwargs" d1) as [kw d2]. cbn [snd] in H2.
  destruct (match kw with
            | Some (OObj k0) =>
                if is_mapping k0 then from_dataset o (Some k0)
                else Raise TypeError
            | Some _ => Raise TypeError
            | None => from_dataset o None
            end) as [r|e]; [|exact H2].
  destruct (set_sampler _ _ _ _ r self); exact H2.
Qed.

(** Without a sampler in [new_state] the sampling arguments stay where
    they are. *)
Lemma update_sampler_keeps_kwargs (s : state Obj) :
  "sampler"%string ∉ map fst (snd s) ->
  (update_sampler is_sampler_cls is_sampler has_from_dataset is_mapping
    from_dataset) s
  = (None, s).
Proof.
  destruct s as [self d]. cbn [snd]. intros Hnot.
  unfold update_sampler. rewrite (dict_pop_absent _ _ Hnot). reflexivity.
Qed.

Lemma update_sampler_keeps_field {A : Type} (field : t Obj -> A) :
  (forall v self, field (with_sampler v self) = field self) ->
  keeps_field field
    (update_sampler is_sampler_cls is_sampler has_from_dataset is_mapping
       from_dataset).
Proof.
  intros Hfield [self d]. unfold update_sampler.
  destruct (dict_pop "sampler" d) as [v d1].
  destruct v as [[|z|o]|]; try reflexivity.
  destruct (has_from_dataset o); [|reflexivity].
  destruct (dict_pop "sampling_kwargs" d1) as [kw d2].
  destruct (match kw with
            | Some (OObj k0) =>
                if is_mapping k0 then from_dataset o (Some k0)
                else Raise TypeError
            | Some _ => Raise TypeError
            | None => from_dataset o None
            end) as [r|e]; [|reflexivity].
  unfold set_sampler.
  destruct r as [|z|o']; try reflexivity.
  destruct (is_sampler_cls o').
  - destruct (has_from_dataset o'); [|reflexivity].
    destruct (from_dataset o' None); [apply Hfield|reflexivity].
  - destruct (is_sampler o'); [apply Hfield|reflexivity].
Qed.

Lemma check_empty_keeps_key (k : string) : keeps_key k (@check_empty Obj).
Proof. intros [self [|kv d]] Hin; exact Hin. Qed.

Lemma check_empty_keeps_field {A : Type} (field : t Obj -> A) :
  keeps_field field (@check_empty Obj).
Proof. intros [self [|kv d]]; reflexivity. Qed.

(** An update that returns has emptied [new_state]. *)
Lemma then_returns_empty (first second : stmt Obj) :
  returns_empty second -> returns_empty (then_ first second).
Proof.
  intros H s. unfold then_.
  destruct (first s) as [[e|] s1]; cbn; [discriminate|apply H].
Qed.

Lemma update_returns_empty (debug_mode : bool) :
  returns_empty
    (update_state_from_dict int_of is_loader_cls is_transform is_sampler_cls
       is_sampler has_from_dataset is_mapping from_dataset debug_mode).
Proof.
  unfold update_state_from_dict. repeat apply then_returns_empty.
  intros [self [|kv d]]; cbn; [reflexivity|discriminate].
Qed.

(** A key that is not popped is still there when the update ends. *)
Lemma update_keeps_unknown (debug_mode : bool) (k : string) :
  k ∉ known_keys ->
  keeps_key k
    (update_state_from_dict int_of is_loader_cls is_transform is_sampler_cls
       is_sampler has_from_dataset is_mapping from_dataset debug_mode).
Proof.
  intros Hk. unfold known_keys in Hk.
  repeat (apply not_elem_of_cons in Hk as [? Hk]).
  unfold update_state_from_dict.
  repeat (apply then_keeps_key;
          [first [ apply pop_and_set_keeps_key; assumption
                 | apply update_sampler_keeps_key; assumption ]|]).
  apply check_empty_keeps_key.
Qed.

(** Popping adds no key. *)
Lemma dict_pop_subset {V : Type} (key k : string) (d : list (string * V)) :
  k ∈ map fst (snd (dict_pop key d)) -> k ∈ map fst d.
Proof.
  induction d as [|[k' v] d IH]; cbn; [auto|].
  destruct (String.eqb_spec key k') as [->|Hk].
  - cbn. intros Hin. right. exact Hin.
  - destruct (dict_pop key d) as [r d'] eqn:E. cbn in IH |- *.
    intros Hin. apply elem_of_cons in Hin as [->|Hin]; [left|right; auto].
Qed.

Lemma pop_and_set_subset (k key : string) (getter : t Obj -> pyobj Obj)
    (setter : pyobj Obj -> t Obj -> result (t Obj)) (s : state Obj) :
  k ∈ map fst (snd (snd (pop_and_set key getter setter s))) ->
  k ∈ map fst (snd s).
Proof.
  destruct s as [self d]. unfold pop_and_set.
  pose proof (dict_pop_subset key k d) as H.
  destruct (dict_pop key d) as [v d']. cbn [snd] in H |- *.
  destruct (setter _ self); exact H.
Qed.

(** A sequence fails when its second statement fails wherever the
    first one leaves it. *)
Lemma then_fails (P Q : state Obj -> Prop) (first second : stmt Obj) :
  (forall s, P s -> Q (snd (first s))) ->
  (forall s, Q s -> exists e : exn, fst (second s) = Some e) ->
  forall s, P s -> exists e : exn, fst (then_ first second s) = Some e.
Proof.
  intros H1 H2 s HP. unfold then_. specialize (H1 s HP).
  destruct (first s) as [[e|] s1]; cbn [fst snd] in *; [eauto|].
  apply H2, H1.
Qed.

(** A sequence that returns: its first statement returned, and the
    sequence went on with the second. *)
Lemma then_returns (first second : stmt Obj) (s : state Obj) :
  fst (then_ first second s) = None ->
  fst (first s) = None /\ then_ first second s = second (snd (first s)).
Proof.
  unfold then_. destruct (first s) as [[e|] s1]; cbn; [discriminate|auto].
Qed.

(** The sampling arguments without a sampler make the update fail. *)
Lemma update_kwargs_alone (debug_mode : bool) (s : state Obj) :
  "sampling_kwargs"%string ∈ map fst (snd s)
  /\ "sampler"%string ∉ map fst (snd s) ->
  exists e : exn,
    fst (update_state_from_dict int_of is_loader_cls is_transform
           is_sampler_cls is_sampler has_from_dataset is_mapping from_dataset
           debug_mode s) = Some e.
Proof.
  revert s. unfold update_state_from_dict.
  set (P := fun s : state Obj =>
              "sampling_kwargs"%string ∈ map fst (snd s)
              /\ "sampler"%string ∉ map fst (snd s)).
  set (Q := fun s : state Obj => "sampling_kwargs"%string ∈ map fst (snd s)).
  assert (Hpop : forall key getter setter,
             key <> "sampling_kwargs"%string ->
             forall s, P s -> P (snd (pop_and_set key getter setter s))).
  { intros key getter setter Hne s [Hkw Hno]. split.
    - apply pop_and_set_keeps_key; [congruence|exact Hkw].
    - intros H. apply Hno. exact (pop_and_set_subset _ _ _ _ _ H). }
  apply (then_fails P P); [apply Hpop; discriminate|].
  apply (then_fails P P); [apply Hpop; discriminate|].
  apply (then_fails P P); [apply Hpop; discriminate|].
  apply (then_fails P Q).
  { intros s [Hkw Hno]. rewrite (update_sampler_keeps_kwargs s Hno).
    exact Hkw. }
  apply (then_fails Q Q).
  { intros s Hkw. apply pop_and_set_keeps_key; [discriminate|exact Hkw]. }
  intros [self [|kv d]] Hkw; cbn in *.
  - apply elem_of_nil in Hkw. contradiction.
  - eauto.
Qed.

(** With the key absent, the statement for the number of processes
    stores what the getter gives. *)
Lemma pop_n_process_absent (debug_mode : bool) (s : state Obj) :
  "n_process_augmentation"%string ∉ map fst (snd s) ->
  pop_and_set "n_process_augmentation" (n_process_augmentation debug_mode)
    (set_n_process_augmentation int_of) s
  = (None,
     (mk (_batch_size (fst s))
         (if debug_mode then 1 else _n_process_augmentation (fst s))
         (_data_loader_cls (fst s)) (_sampler (fst s)) (_transforms (fst s)),
      snd s)).
Proof.
  destruct s as [self d]. cbn [fst snd]. intros Hno.
  unfold pop_and_set. rewrite (dict_pop_absent _ _ Hno).
  unfold n_process_augmentation, set_n_process_augmentation.
  destruct debug_mode; reflexivity.
Qed.

(** The statements after the one for the number of processes leave the
    number alone. *)
Lemma update_rest_keeps_n_process :
  keeps_field _n_process_augmentation
    (then_ (pop_and_set "data_loader_cls" data_loader_cls
              (set_data_loader_cls is_loader_cls))
       (then_ (update_sampler is_sampler_cls is_sampler has_from_dataset
                 is_mapping from_dataset)
          (then_ (pop_and_set "transforms" transforms
                    (set_transforms is_transform))
             check_empty))).
Proof.
  apply then_keeps_field.
  { apply pop_and_set_keeps_field. intros v self self'.
    unfold set_data_loader_cls. destruct v as [| |o]; try discriminate.
    destruct (is_loader_cls o); [|discriminate].
    intros H. injection H as <-. reflexivity. }
  apply then_keeps_field.
  { apply update_sampler_keeps_field. reflexivity. }
  apply then_keeps_field.
  { apply pop_and_set_keeps_field. intros v self self'.
    unfold set_transforms. destruct v as [| |o]; try discriminate.
    - intros H. injection H as <-. reflexivity.
    - destruct (is_transform o); [|discriminate].
      intros H. injection H as <-. reflexivity. }
  apply check_empty_keeps_field.
Qed.

(** The number of processes after an update that returns and did not
    name it. *)
Lemma update_n_process (debug_mode : bool) (s : state Obj) :
  "n_process_augmentation"%string ∉ map fst (snd s) ->
  fst (update_state_from_dict int_of is_loader_cls is_transform
         is_sampler_cls is_sampler has_from_dataset is_mapping from_dataset
         debug_mode s) = None ->
  _n_process_augmentation
    (fst (snd (update_state_from_dict int_of is_loader_cls is_transform
                 is_sampler_cls is_sampler has_from_dataset is_mapping
                 from_dataset debug_mode s)))
  = if debug_mode then 1 else _n_process_augmentation (fst s).
Proof.
  intros Hno. unfold update_state_from_dict. intros E.
  apply then_returns in E as [E1 ->].
  assert (Hfield : _n_process_augmentation
                     (fst (snd (pop_and_set "batch_size" batch_size
                                  (set_batch_size int_of) s)))
                   = _n_process_augmentation (fst s)).
  { apply (pop_and_set_keeps_field _n_process_augmentation).
    intros v self self'. unfold set_batch_size.
    destruct (py_int int_of v); [|discriminate].
    intros H. injection H as <-. reflexivity. }
  assert (Hno1 : "n_process_augmentation"%string
                 ∉ map fst (snd (snd (pop_and_set "batch_size" batch_size
                                        (set_batch_size int_of) s)))).
  { intros H. apply Hno. exact (pop_and_set_subset _ _ _ _ _ H). }
  revert Hfield Hno1.
  generalize (snd (pop_and_set "batch_size" batch_size
                     (set_batch_size int_of) s)).
  intros s1 Hfield Hno1.
  unfold then_ at 1. rewrite (pop_n_process_absent debug_mode s1 Hno1).
  rewrite update_rest_keeps_n_process. cbn [fst _n_process_augmentation].
  rewrite Hfield. reflexivity.
Qed.

(** The statement for a key that [new_state] does not hold sets the
    attribute to what it is. *)
Lemma pop_and_set_absent (key : string) (getter : t Obj -> pyobj Obj)
    (setter : pyobj Obj -> t Obj -> result (t Obj)) (self : t Obj)
    (d : list (string * pyobj Obj)) :
  key ∉ map fst d ->
  setter (getter self) self = Ok self ->
  pop_and_set key getter setter (self, d) = (None, (self, d)).
Proof.
  intros Hno Hset. unfold pop_and_set.
  rewrite (dict_pop_absent _ _ Hno), Hset. reflexivity.
Qed.

(** An update with a batch size and keys that are not known. *)
Lemma update_unknown_after_batch_size (debug_mode : bool) (self : t Obj)
    (b : Z) (rest : list (string * pyobj Obj)) :
  stored_ok is_loader_cls is_transform self = true ->
  rest <> [] ->
  Forall (fun kv => fst kv ∉ known_keys) rest ->
  update_state_from_dict int_of is_loader_cls is_transform is_sampler_cls
    is_sampler has_from_dataset is_mapping from_dataset debug_mode
    (self, ("batch_size"%string, OInt b) :: rest)
  = (Some KeyError,
     (mk b (if debug_mode then 1 else _n_process_augmentation self)
         (_data_loader_cls self) (_sampler self) (_transforms self),
      rest)).
Proof.
  intros Hok Hne Hunknown.
  assert (Hno : forall key, key ∈ known_keys -> key ∉ map fst rest).
  { intros key Hkey Hin. apply list_elem_of_fmap in Hin as ([k v] & -> & Hin).
    rewrite Forall_forall in Hunknown. exact (Hunknown _ Hin Hkey). }
  unfold stored_ok in Hok. apply andb_prop in Hok as [Hcls Htr].
  unfold update_state_from_dict.
  unfold then_ at 1. cbn [pop_and_set dict_pop String.eqb Ascii.eqb Bool.eqb
                            batch_size set_batch_size py_int].
  unfold then_ at 1. rewrite pop_n_process_absent
    by (apply Hno; unfold known_keys; repeat constructor).
  cbn [fst snd _batch_size _n_process_augmentation _data_loader_cls _sampler
         _transforms].
  set (self1 := mk b _ _ _ _).
  unfold then_ at 1. rewrite pop_and_set_absent; cycle 1.
  { apply Hno. unfold known_keys. repeat constructor. }
  { unfold set_data_loader_cls, data_loader_cls. cbn. rewrite Hcls.
    reflexivity. }
  unfold then_ at 1. rewrite update_sampler_keeps_kwargs
    by (apply Hno; unfold known_keys; repeat constructor).
  unfold then_ at 1. rewrite pop_and_set_absent; cycle 1.
  { apply Hno. unfold known_keys. repeat constructor. }
  { unfold set_transforms, transforms. cbn.
    destruct (_transforms self) as [| |o]; [reflexivity|discriminate|].
    rewrite Htr. reflexivity. }
  destruct rest as [|kv rest]; [contradiction|reflexivity].
Qed.

End UpdateFacts.

(** X24.  An update of the state of a data manager that returns has
    used up the dict it was given: [new_state] is empty afterwards, and
    every key it held was one of the six keys the update knows. *)
Theorem update_returns_only_on_known_keys {Obj : Type}
    (int_of : Obj -> result Z)
    (is_loader_cls is_transform is_sampler_cls is_sampler has_from_dataset
       is_mapping : Obj -> bool)
    (from_dataset : Obj -> option Obj -> result (ManagerState.pyobj Obj))
    (debug_mode : bool) (self : ManagerState.t Obj)
    (new_state : list (string * ManagerState.pyobj Obj)) :
  fst (ManagerState.update_state_from_dict int_of is_loader_cls is_transform
         is_sampler_cls is_sampler has_from_dataset is_mapping from_dataset
         debug_mode (self, new_state)) = None ->
  snd (snd (ManagerState.update_state_from_dict int_of is_loader_cls
              is_transform is_sampler_cls is_sampler has_from_dataset
              is_mapping from_dataset debug_mode (self, new_state))) = []
  /\ forall k : string,
       k ∈ map fst new_state -> k ∈ ManagerState.known_keys.
Proof.
  intros E.
  pose proof (update_returns_empty int_of is_loader_cls is_transform
                is_sampler_cls is_sampler has_from_dataset is_mapping
                from_dataset debug_mode (self, new_state) E) as Hempty.
  split; [exact Hempty|].
  intros k Hin. destruct (decide (k ∈ ManagerState.known_keys)) as [|Hk];
    [assumption|exfalso].
  pose proof (update_keeps_unknown int_of is_loader_cls is_transform
                is_sampler_cls is_sampler has_from_dataset is_mapping
                from_dataset debug_mode k Hk (self, new_state) Hin) as Hkept.
  rewrite Hempty in Hkept. apply elem_of_nil in Hkept. exact Hkept.
Qed.

Lemma update_returns_only_on_known_keys_witness :
  snd (snd (ManagerState.toy_update false
              (ManagerState.toy_manager,
               [("transforms"%string,
                 ManagerState.OObj ManagerState.ATransform);
                ("sampler"%string, ManagerState.OObj ManagerState.SamplerCls);
                ("sampling_kwargs"%string,
                 ManagerState.OObj ManagerState.Kwargs);
                ("batch_size"%string, ManagerState.OInt 8)]))) = []
  /\ forall k : string,
       k ∈ map fst
             [("transforms"%string,
               ManagerState.OObj ManagerState.ATransform);
              ("sampler"%string, ManagerState.OObj ManagerState.SamplerCls);
              ("sampling_kwargs"%string,
               ManagerState.OObj ManagerState.Kwargs);
              ("batch_size"%string, ManagerState.OInt 8)] ->
       k ∈ ManagerState.known_keys.
Proof.
  apply (update_returns_only_on_known_keys ManagerState.toy_int_of
           (ManagerState.toy_is ManagerState.LoaderCls)
           (ManagerState.toy_is ManagerState.ATransform)
           (ManagerState.toy_is ManagerState.SamplerCls)
           (ManagerState.toy_is ManagerState.ASampler)
           ManagerState.toy_has_from_dataset
           (ManagerState.toy_is ManagerState.Kwargs)
           ManagerState.toy_from_dataset false ManagerState.toy_manager).
  reflexivity.
Defined.

(** X25.  Sampling arguments without a sampler make the update fail:
    when [new_state] holds the key sampling_kwargs, which is one of the
    keys the update knows, but not the key sampler, the arguments are
    never popped and the update raises. *)
Theorem update_with_sampling_kwargs_alone_fails {Obj : Type}
    (int_of : Obj -> result Z)
    (is_loader_cls is_transform is_sampler_cls is_sampler has_from_dataset
       is_mapping : Obj -> bool)
    (from_dataset : Obj -> option Obj -> result (ManagerState.pyobj Obj))
    (debug_mode : bool) (self : ManagerState.t Obj)
    (new_state : list (string * ManagerState.pyobj Obj)) :
  "sampling_kwargs"%string ∈ map fst new_state ->
  "sampler"%string ∉ map fst new_state ->
  exists e : exn,
    fst (ManagerState.update_state_from_dict int_of is_loader_cls is_transform
           is_sampler_cls is_sampler has_from_dataset is_mapping from_dataset
           debug_mode (self, new_state)) = Some e.
Proof.
  intros Hkw Hno.
  apply (update_kwargs_alone int_of is_loader_cls is_transform is_sampler_cls
           is_sampler has_from_dataset is_mapping from_dataset debug_mode
           (self, new_state)).
  split; assumption.
Qed.

Lemma update_with_sampling_kwargs_alone_fails_witness :
  exists e : exn,
    fst (ManagerState.toy_update false
           (ManagerState.toy_manager,
            [("sampling_kwargs"%string,
              ManagerState.OObj ManagerState.Kwargs)])) = Some e.
Proof.
  apply (update_with_sampling_kwargs_alone_fails ManagerState.toy_int_of
           (ManagerState.toy_is ManagerState.LoaderCls)
           (ManagerState.toy_is ManagerState.ATransform)
           (ManagerState.toy_is ManagerState.SamplerCls)
           (ManagerState.toy_is ManagerState.ASampler)
           ManagerState.toy_has_from_dataset
           (ManagerState.toy_is ManagerState.Kwargs)
           ManagerState.toy_from_dataset false ManagerState.toy_manager
           [("sampling_kwargs"%string,
             ManagerState.OObj ManagerState.Kwargs)]);
    [ apply (bool_decide_unpack _); vm_compute; reflexivity
    | apply (bool_decide_unpack _); vm_compute; reflexivity ].
Defined.

(** X26.  In debug mode an update that returns and does not name the
    number of augmentation processes stores 1 for it, whatever was
    stored before: the default of the pop is read through the getter,
    which gives 1 in debug mode.  Out of debug mode the stored number
    is left as it is. *)
Theorem update_in_debug_mode_stores_one_process {Obj : Type}
    (int_of : Obj -> result Z)
    (is_loader_cls is_transform is_sampler_cls is_sampler has_from_dataset
       is_mapping : Obj -> bool)
    (from_dataset : Obj -> option Obj -> result (ManagerState.pyobj Obj))
    (debug_mode : bool) (self : ManagerState.t Obj)
    (new_state : list (string * ManagerState.pyobj Obj)) :
  "n_process_augmentation"%string ∉ map fst new_state ->
  fst (ManagerState.update_state_from_dict int_of is_loader_cls is_transform
         is_sampler_cls is_sampler has_from_dataset is_mapping from_dataset
         debug_mode (self, new_state)) = None ->
  ManagerState._n_process_augmentation
    (fst (snd (ManagerState.update_state_from_dict int_of is_loader_cls
                 is_transform is_sampler_cls is_sampler has_from_dataset
                 is_mapping from_dataset debug_mode (self, new_state))))
  = if debug_mode then 1 else ManagerState._n_process_augmentation self.
Proof.
  intros Hno E.
  apply (update_n_process int_of is_loader_cls is_transform is_sampler_cls
           is_sampler has_from_dataset is_mapping from_dataset debug_mode
           (self, new_state) Hno E).
Qed.

Lemma update_in_debug_mode_stores_one_process_witness :
  ManagerState._n_process_augmentation
    (fst (snd (ManagerState.toy_update true
                 (ManagerState.mk 4 6 ManagerState.LoaderCls
                    (ManagerState.OObj ManagerState.ASampler)
                    ManagerState.ONone,
                  []))))
  = 1.
Proof.
  apply (update_in_debug_mode_stores_one_process ManagerState.toy_int_of
           (ManagerState.toy_is ManagerState.LoaderCls)
           (ManagerState.toy_is ManagerState.ATransform)
           (ManagerState.toy_is ManagerState.SamplerCls)
           (ManagerState.toy_is ManagerState.ASampler)
           ManagerState.toy_has_from_dataset
           (ManagerState.toy_is ManagerState.Kwargs)
           ManagerState.toy_from_dataset true
           (ManagerState.mk 4 6 ManagerState.LoaderCls
              (ManagerState.OObj ManagerState.ASampler) ManagerState.ONone)
           []);
    [ apply (bool_decide_unpack _); vm_compute; reflexivity | reflexivity ].
Defined.

(** X27.  The KeyError for keys that are not known comes last and
    takes nothing back: an update with a batch size and, besides, only
    keys it does not know raises KeyError, and when it does the new
    batch size is stored, and in debug mode the number of processes is
    overwritten with 1; the keys that are not known are what is left of
    [new_state]. *)
Theorem update_keeps_changes_on_KeyError {Obj : Type}
    (int_of : Obj -> result Z)
    (is_loader_cls is_transform is_sampler_cls is_sampler has_from_dataset
       is_mapping : Obj -> bool)
    (from_dataset : Obj -> option Obj -> result (ManagerState.pyobj Obj))
    (debug_mode : bool) (self : ManagerState.t Obj) (b : Z)
    (rest : list (string * ManagerState.pyobj Obj)) :
  ManagerState.stored_ok is_loader_cls is_transform self = true ->
  rest <> [] ->
  Forall (fun kv => fst kv ∉ ManagerState.known_keys) rest ->
  ManagerState.update_state_from_dict int_of is_loader_cls is_transform
    is_sampler_cls is_sampler has_from_dataset is_mapping from_dataset
    debug_mode (self, ("batch_size"%string, ManagerState.OInt b) :: rest)
  = (Some KeyError,
     (ManagerState.mk b
        (if debug_mode then 1 else ManagerState._n_process_augmentation self)
        (ManagerState._data_loader_cls self) (ManagerState._sampler self)
        (ManagerState._transforms self),
      rest)).
Proof. apply update_unknown_after_batch_size. Qed.

Lemma update_keeps_changes_on_KeyError_witness :
  ManagerState.toy_update false
    (ManagerState.toy_manager,
     ("batch_size"%string, ManagerState.OInt 16)
     :: [("shuffle"%string, ManagerState.OInt 1)])
  = (Some KeyError,
     (ManagerState.mk 16 2 ManagerState.LoaderCls
        (ManagerState.OObj ManagerState.ASampler) ManagerState.ONone,
      [("shuffle"%string, ManagerState.OInt 1)])).
Proof.
  apply (update_keeps_changes_on_KeyError ManagerState.toy_int_of
           (ManagerState.toy_is ManagerState.LoaderCls)
           (ManagerState.toy_is ManagerState.ATransform)
           (ManagerState.toy_is ManagerState.SamplerCls)
           (ManagerState.toy_is ManagerState.ASampler)
           ManagerState.toy_has_from_dataset
           (ManagerState.toy_is ManagerState.Kwargs)
           ManagerState.toy_from_dataset false ManagerState.toy_manager 16
           [("shuffle"%string, ManagerState.OInt 1)]);
    [ reflexivity | discriminate
    | apply (bool_decide_unpack _); vm_compute; reflexivity ].
Defined.
